(** * The AWIC downloader (clms_hrwsi_awic_downloader.py), embedded in Rocq

    The request builder, the response normaliser and the entry point of the
    downloader are translated function by function.  Python values decoded
    from JSON are an inductive type, exceptions are an error result, and the
    effects of the script (logging, HTTP calls, the file system) are recorded
    as a trace threaded through a small state-and-error monad.  The block of
    the command line runs on the same trace, with the answers of the
    geometry library given by an oracle. *)

From Stdlib Require Import ZArith Lia Bool List Sorted Ascii String Floats.
Import ListNotations.

#[local] Set Warnings "-register-all".

Local Open Scope string_scope.
Local Open Scope list_scope.
Local Open Scope Z_scope.

(** ** Python values and exceptions *)

(** What [response.json()] can return: [null], booleans, integers, floats,
    strings, arrays and objects.  A [str] is a Stdlib [string], that is a
    sequence of code points below 256; in that range the only characters the
    regular-expression class [\d] accepts are ['0'..'9']. *)
Inductive pyval : Type :=
| PNone
| PBool (b : bool)
| PInt (z : Z)
| PFloat (f : float)
| PStr (s : string)
| PList (l : list pyval)
| PDict (d : list (string * pyval)).

(** The exceptions the script can raise.  [SystemExit c] is [sys.exit(c)];
    [sys.exit()] is [SystemExit None]. *)
Inductive exn : Type :=
| ValueError
| TypeError
| IndexError
| KeyError
| AttributeError
| OSError
| SystemExit (code : option Z).

Inductive result (A : Type) : Type :=
| Ok (a : A)
| Raise (e : exn).
Arguments Ok {A} a.
Arguments Raise {A} e.

Definition rbind {A B : Type} (r : result A) (k : A -> result B) : result B :=
  match r with
  | Ok a => k a
  | Raise e => Raise e
  end.

Notation "x <- r ;; k" := (rbind r (fun x => k))
  (at level 61, r at next level, right associativity).

(** [try: r except (ValueError, IndexError): raise ValueError(...)]. *)
Definition except_value_index {A : Type} (r : result A) : result A :=
  match r with
  | Raise ValueError | Raise IndexError => Raise ValueError
  | other => other
  end.

(** A bare [except:] clause that raises [ValueError]. *)
Definition except_all_value {A : Type} (r : result A) : result A :=
  match r with
  | Raise _ => Raise ValueError
  | other => other
  end.

(** Truthiness, as tested by [if v:]. *)
Definition py_truthy (v : pyval) : bool :=
  match v with
  | PNone => false
  | PBool b => b
  | PInt z => negb (z =? 0)
  | PFloat f => negb (PrimFloat.eqb f 0%float)
  | PStr s => negb (String.eqb s "")
  | PList l => match l with [] => false | _ => true end
  | PDict d => match d with [] => false | _ => true end
  end.

(** ** Text helpers *)

Definition digit_char (d : Z) : ascii := ascii_of_N (48 + Z.to_N d).

Definition is_digit (c : ascii) : bool :=
  let n := N_of_ascii c in (48 <=? n)%N && (n <=? 57)%N.

Definition digit_val (c : ascii) : Z := Z.of_N (N_of_ascii c) - 48.

(** Decimal digits of a non-negative integer, most significant first. *)
Fixpoint dec_digits (fuel : nat) (n : Z) : string :=
  match fuel with
  | O => ""
  | S f =>
      if n <? 10 then String (digit_char n) ""
      else (dec_digits f (n / 10) ++ String (digit_char (n mod 10)) "")%string
  end.

Definition str_nonneg (n : Z) : string :=
  match n with
  | Zpos p => dec_digits (Pos.size_nat p) n
  | _ => "0"
  end.

(** [str(z)] for an [int]. *)
Definition py_str_int (z : Z) : string :=
  if z <? 0 then String "-" (str_nonneg (- z)) else str_nonneg z.

Fixpoint zeros (n : nat) : string :=
  match n with
  | O => ""
  | S k => String "0" (zeros k)
  end.

Definition zero_pad (width : nat) (s : string) : string :=
  (zeros (width - String.length s) ++ s)%string.

(** [format(z, '06d')] for an [int]: sign first, then zeros up to width 6. *)
Definition format_06d (z : Z) : string :=
  if z <? 0 then String "-" (zero_pad 5 (str_nonneg (- z)))
  else zero_pad 6 (str_nonneg z).

(** [int(text)] on the text of a matched group: decimal digits, blanks
    skipped (the last alternative of [%d] matches a blank and a digit). *)
Fixpoint int_of_text_acc (acc : Z) (s : string) : Z :=
  match s with
  | "" => acc
  | String c s' =>
      if is_digit c then int_of_text_acc (10 * acc + digit_val c) s'
      else int_of_text_acc acc s'
  end.

Definition int_of_text (s : string) : Z := int_of_text_acc 0 s.

(** [s.startswith(p)] *)
Fixpoint starts_with (p s : string) : bool :=
  match p with
  | "" => true
  | String a p' =>
      match s with
      | "" => false
      | String b s' => Ascii.eqb a b && starts_with p' s'
      end
  end.

(** [needle in hay] for strings. *)
Fixpoint py_contains (needle hay : string) : bool :=
  starts_with needle hay ||
  match hay with
  | "" => false
  | String _ rest => py_contains needle rest
  end.

(** [s.replace(old, new)] for a non-empty [old]: occurrences are found from
    the left and do not overlap.  [skip] counts the characters of the current
    occurrence that remain to be dropped. *)
Fixpoint replace_from (old new : string) (skip : nat) (s : string) : string :=
  match s with
  | "" => ""
  | String c rest =>
      match skip with
      | S k => replace_from old new k rest
      | O =>
          if starts_with old s
          then (new ++ replace_from old new (String.length old - 1)%nat rest)%string
          else String c (replace_from old new O rest)
      end
  end.

Definition py_replace (old new s : string) : string := replace_from old new O s.

(** ["sep".join(parts)] *)
Fixpoint py_join (sep : string) (parts : list string) : string :=
  match parts with
  | [] => ""
  | [p] => p
  | p :: rest => (p ++ sep ++ py_join sep rest)%string
  end.

(** ** [datetime.strptime] and [strftime]

    [strptime] turns the format into a regular expression, one group per
    directive, and matches it with backtracking at the start of the text;
    text left over after the match is an error.  The table below is the one
    of CPython's [_strptime.TimeRE] for the directives this program uses. *)

Record datetime : Type := mk_datetime {
  year : Z; month : Z; day : Z; hour : Z; minute : Z; second : Z
}.

(** A character class of the table. *)
Inductive cls : Type :=
| AnyDigit                      (* \d: below code point 256, the digits 0 to 9 *)
| InRange (lo hi : ascii)       (* [lo-hi] *)
| Exactly (c : ascii).

Definition cls_accepts (k : cls) (c : ascii) : bool :=
  match k with
  | AnyDigit => is_digit c
  | InRange lo hi =>
      (N_of_ascii lo <=? N_of_ascii c)%N && (N_of_ascii c <=? N_of_ascii hi)%N
  | Exactly x => Ascii.eqb x c
  end.

Inductive directive : Type := DY | Dm | Dd | DH | DM | DS.

Definition directive_eqb (a b : directive) : bool :=
  match a, b with
  | DY, DY | Dm, Dm | Dd, Dd | DH, DH | DM, DM | DS, DS => true
  | _, _ => false
  end.

(** The alternatives of each directive, in the order the regular expression
    lists them. *)
Definition alternatives (d : directive) : list (list cls) :=
  match d with
  | DY => [[AnyDigit; AnyDigit; AnyDigit; AnyDigit]]
  | Dm => [[Exactly "1"; InRange "0" "2"]; [Exactly "0"; InRange "1" "9"]; [InRange "1" "9"]]
  | Dd => [[Exactly "3"; InRange "0" "1"]; [InRange "1" "2"; AnyDigit];
           [Exactly "0"; InRange "1" "9"]; [InRange "1" "9"];
           [Exactly " "; InRange "1" "9"]]
  | DH => [[Exactly "2"; InRange "0" "3"]; [InRange "0" "1"; AnyDigit]; [AnyDigit]]
  | DM => [[InRange "0" "5"; AnyDigit]; [AnyDigit]]
  | DS => [[Exactly "6"; InRange "0" "1"]; [InRange "0" "5"; AnyDigit]; [AnyDigit]]
  end.

Inductive fmt_item : Type :=
| FDir (d : directive)
| FLit (c : ascii).

Definition directive_of (c : ascii) : option directive :=
  if Ascii.eqb c "Y" then Some DY
  else if Ascii.eqb c "m" then Some Dm
  else if Ascii.eqb c "d" then Some Dd
  else if Ascii.eqb c "H" then Some DH
  else if Ascii.eqb c "M" then Some DM
  else if Ascii.eqb c "S" then Some DS
  else None.

(** The format strings of this program hold the six directives above and the
    literal characters [T], [-] and [:]. *)
Fixpoint parse_format (fmt : string) : option (list fmt_item) :=
  match fmt with
  | "" => Some []
  | String c rest =>
      if Ascii.eqb c "%" then
        match rest with
        | "" => None
        | String x rest' =>
            match directive_of x, parse_format rest' with
            | Some d, Some items => Some (FDir d :: items)
            | _, _ => None
            end
        end
      else
        match parse_format rest with
        | Some items => Some (FLit c :: items)
        | None => None
        end
  end.

Definition lower (c : ascii) : ascii :=
  let n := N_of_ascii c in
  if (65 <=? n)%N && (n <=? 90)%N then ascii_of_N (n + 32) else c.

(** Literal characters are compared ignoring case ([re.IGNORECASE]). *)
Definition lit_eq (a b : ascii) : bool := Ascii.eqb (lower a) (lower b).

(** One alternative against the start of the text: the matched text and the
    rest. *)
Fixpoint take_alt (alt : list cls) (s : string) : option (string * string) :=
  match alt with
  | [] => Some ("", s)
  | k :: alt' =>
      match s with
      | "" => None
      | String c s' =>
          if cls_accepts k c then
            match take_alt alt' s' with
            | Some (t, r) => Some (String c t, r)
            | None => None
            end
          else None
      end
  end.

(** Ordered choice with backtracking: the first alternative after which the
    continuation succeeds. *)
Fixpoint try_alts {A : Type} (alts : list (list cls)) (s : string)
    (k : string -> string -> option A) : option A :=
  match alts with
  | [] => None
  | alt :: more =>
      match take_alt alt s with
      | Some (t, r) =>
          match k t r with
          | Some a => Some a
          | None => try_alts more s k
          end
      | None => try_alts more s k
      end
  end.

(** The groups of the first match and the text after it. *)
Fixpoint match_items (items : list fmt_item) (s : string)
    : option (list (directive * string) * string) :=
  match items with
  | [] => Some ([], s)
  | FLit c :: tl =>
      match s with
      | "" => None
      | String c' s' => if lit_eq c c' then match_items tl s' else None
      end
  | FDir d :: tl =>
      try_alts (alternatives d) s
        (fun t r =>
           match match_items tl r with
           | Some (g, e) => Some ((d, t) :: g, e)
           | None => None
           end)
  end.

Fixpoint group (d : directive) (default : Z) (g : list (directive * string)) : Z :=
  match g with
  | [] => default
  | (d', t) :: g' => if directive_eqb d d' then int_of_text t else group d default g'
  end.

Definition is_leap (y : Z) : bool :=
  (y mod 4 =? 0) && (negb (y mod 100 =? 0) || (y mod 400 =? 0)).

Definition days_in_month (y m : Z) : Z :=
  if m =? 2 then (if is_leap y then 29 else 28)
  else if (m =? 4) || (m =? 6) || (m =? 9) || (m =? 11) then 30
  else 31.

(** The range checks of the [datetime] constructor. *)
Definition datetime_ok (t : datetime) : bool :=
  (1 <=? year t) && (year t <=? 9999) &&
  (1 <=? month t) && (month t <=? 12) &&
  (1 <=? day t) && (day t <=? days_in_month (year t) (month t)) &&
  (0 <=? hour t) && (hour t <=? 23) &&
  (0 <=? minute t) && (minute t <=? 59) &&
  (0 <=? second t) && (second t <=? 59).

(** [datetime.datetime.strptime(data, fmt)] for a [str] argument. *)
Definition strptime (data fmt : string) : result datetime :=
  match parse_format fmt with
  | None => Raise ValueError
  | Some items =>
      match match_items items data with
      | None => Raise ValueError                       (* does not match format *)
      | Some (g, rest) =>
          if negb (String.eqb rest "") then Raise ValueError  (* unconverted data remains *)
          else
            let t := mk_datetime (group DY 1900 g) (group Dm 1 g) (group Dd 1 g)
                                 (group DH 0 g) (group DM 0 g) (group DS 0 g) in
            if datetime_ok t then Ok t else Raise ValueError
      end
  end.

Definition field (t : datetime) (d : directive) : string :=
  match d with
  | DY => str_nonneg (year t)
  | Dm => zero_pad 2 (str_nonneg (month t))
  | Dd => zero_pad 2 (str_nonneg (day t))
  | DH => zero_pad 2 (str_nonneg (hour t))
  | DM => zero_pad 2 (str_nonneg (minute t))
  | DS => zero_pad 2 (str_nonneg (second t))
  end.

Fixpoint render (t : datetime) (items : list fmt_item) : string :=
  match items with
  | [] => ""
  | FDir d :: tl => (field t d ++ render t tl)%string
  | FLit c :: tl => String c (render t tl)
  end.

(** [t.strftime(fmt)].  CPython leaves [%Y] to the C library, and glibc
    writes the year in decimal without padding: the year 999 gives "999".
    From the year 1000 on the text has four digits.  The other directives
    are padded to two digits. *)
Definition strftime (t : datetime) (fmt : string) : string :=
  match parse_format fmt with
  | Some items => render t items
  | None => ""
  end.

(** ** The environment of a run

    What the script asks of the interpreter and of the outside world: the
    text of a float, list or dict, path resolution, the state of the file
    system and the answers of the remote service. *)

Inductive http_reply : Type :=
| ConnectionFailed                                   (* requests.RequestException *)
| Response (status : Z) (json : option pyval).       (* [json = None]: the body is not JSON *)

Record env : Type := mk_env {
  py_repr : pyval -> string;          (* [str()] of a float, a list or a dict *)
  abspath : string -> string;         (* os.path.abspath *)
  path_exists : string -> bool;       (* os.path.exists *)
  makedirs_ok : string -> bool;       (* os.makedirs succeeds *)
  open_ok : string -> bool;           (* open(path, 'w') and the writes succeed *)
  http_get : string -> http_reply     (* requests.get *)
}.

(** [str(v)], as in [f"{v}"] and ['%s' % v]. *)
Definition py_str (E : env) (v : pyval) : string :=
  match v with
  | PNone => "None"
  | PBool true => "True"
  | PBool false => "False"
  | PInt z => py_str_int z
  | PStr s => s
  | other => py_repr E other
  end.

(** ** format_awic_product *)

(** [l[i]] for a list and an index that is not negative. *)
Definition list_item (l : list pyval) (i : nat) : result pyval :=
  match nth_error l i with
  | Some v => Ok v
  | None => Raise IndexError
  end.

(** [l[a:b]] for [0 <= a <= b]. *)
Definition list_slice (l : list pyval) (a b : nat) : list pyval :=
  firstn (b - a) (skipn a l).

(** [f"{v:06d}"]: integers (and booleans, which are integers) are padded;
    the format code [d] is unknown for [str] and [float] (ValueError); the
    other types accept no format string at all (TypeError). *)
Definition format_time_field (v : pyval) : result string :=
  match v with
  | PInt z => Ok (format_06d z)
  | PBool b => Ok (format_06d (if b then 1 else 0))
  | PStr _ | PFloat _ => Raise ValueError
  | PNone | PList _ | PDict _ => Raise TypeError
  end.

Definition py_hashable (v : pyval) : bool :=
  match v with
  | PList _ | PDict _ => false
  | _ => true
  end.

(** [v == k] for a small integer key [k]: [True == 1] and [1.0 == 1] hold in
    Python, and equal values hash alike. *)
Definition eq_int_key (v : pyval) (k : Z) : bool :=
  match v with
  | PInt z => z =? k
  | PBool b => (if b then 1 else 0) =? k
  | PFloat f => PrimFloat.eqb f (PrimFloat.of_uint63 (Uint63.of_Z k))
  | _ => false
  end.

Definition mission_labels : list (Z * string) :=
  [(0, "Sentinel-1 Sentinel-2"); (1, "Sentinel-1"); (2, "Sentinel-2")].

Fixpoint lookup_int_key (d : list (Z * string)) (v : pyval) (default : string) : string :=
  match d with
  | [] => default
  | (k, label) :: d' => if eq_int_key v k then label else lookup_int_key d' v default
  end.

(** [d.get(v, default)] on a dict with integer keys: hashing an unhashable
    key raises TypeError. *)
Definition dict_get_int_key (d : list (Z * string)) (v : pyval) (default : string)
    : result string :=
  if py_hashable v then Ok (lookup_int_key d v default) else Raise TypeError.

(** The [try] block of [format_awic_product] on a list. *)
Definition observation_datetime (E : env) (l : list pyval) : result string :=
  except_value_index
    (t <- list_item l 2 ;;
     time_str <- format_time_field t ;;
     d <- list_item l 1 ;;
     dt <- strptime (py_str E d ++ "T" ++ time_str) "%Y%m%dT%H%M%S" ;;
     Ok (strftime dt "%Y-%m-%dT%H:%M:%S")).

Definition format_awic_product (E : env) (awic : pyval) (index : Z)
    : result (list pyval) :=
  match awic with
  | PList l =>
      stamp <- observation_datetime E l ;;
      mission_code <- (if (12 <? Z.of_nat (List.length l)) then list_item l 12 else Ok PNone) ;;
      mission <- dict_get_int_key mission_labels mission_code "" ;;
      first <- list_item l 0 ;;
      Ok ([PInt (index + 1); first; PStr stamp] ++ list_slice l 3 12 ++ [PStr mission])
  | PStr _ =>
      (* awic[2] is a one-character str or an IndexError: both end in the
         except clause *)
      Raise ValueError
  | PDict _ => Raise KeyError           (* a JSON object has no key 2 *)
  | PNone | PBool _ | PInt _ | PFloat _ => Raise TypeError   (* not subscriptable *)
  end.

(** ** Effects: a trace of what the script does, and a state-and-error monad *)

Inductive level : Type := INFO | WARNING | ERROR.

(** What the script does, in order.  A log message is recorded by its fixed
    text; the text of a caught exception, which some messages end with, is
    left out. *)
Inductive event : Type :=
| Log (lv : level) (msg : string)          (* logging.info / warning / error *)
| HttpGet (url : string)                   (* requests.get(url) *)
| PathExists (path : string)                   (* os.path.exists(path) *)
| MakeDirs (path : string)                 (* os.makedirs(path) *)
| OpenW (path : string)                    (* open(path, 'w') succeeded *)
| WriteText (path : string) (text : string).  (* f.write(text) *)

(** The fields of an [AwicRequest] object. *)
Record AwicRequest : Type := mk_request {
  outputDir : option string;
  awic_http_request : option string;
  geometry_http_request : option string;
  awic_result_file : option string
}.

(** The state a method runs in: its object and the trace so far. *)
Record world : Type := mk_world {
  self : AwicRequest;
  trace : list event
}.

Class Traced (S : Type) : Type := add_event : event -> S -> S.

#[global] Instance traced_trace : Traced (list event) := fun e t => t ++ [e].
#[global] Instance traced_world : Traced world :=
  fun e w => mk_world (self w) (trace w ++ [e]).

Definition M (S A : Type) : Type := S -> result A * S.

Definition ret {S A : Type} (a : A) : M S A := fun s => (Ok a, s).

Definition raise {S A : Type} (e : exn) : M S A := fun s => (Raise e, s).

Definition bind {S A B : Type} (m : M S A) (k : A -> M S B) : M S B :=
  fun s =>
    match m s with
    | (Ok a, s') => k a s'
    | (Raise e, s') => (Raise e, s')
    end.

Notation "x <~ m ;; k" := (bind m (fun x => k))
  (at level 61, m at next level, right associativity).
Notation "m ;;; k" := (bind m (fun _ => k))
  (at level 61, right associativity).

(** A pure computation that may raise, run inside the monad. *)
Definition lift {S A : Type} (r : result A) : M S A := fun s => (r, s).

Definition emit {S : Type} `{Traced S} (e : event) : M S unit :=
  fun s => (Ok tt, add_event e s).

Definition log {S : Type} `{Traced S} (lv : level) (msg : string) : M S unit :=
  emit (Log lv msg).

(** [sys.exit(code)] *)
Definition sys_exit {S A : Type} (code : option Z) : M S A := raise (SystemExit code).

(** Run a method on the object [o]; the object is dropped afterwards. *)
Definition with_self {A : Type} (o : AwicRequest) (m : M world A) : M (list event) A :=
  fun t => let (r, w) := m (mk_world o t) in (r, trace w).

Definition get_self : M world AwicRequest := fun w => (Ok (self w), w).

Definition set_awic_http_request (r : string) : M world unit :=
  fun w =>
    let o := self w in
    (Ok tt, mk_world (mk_request (outputDir o) (Some r) (geometry_http_request o)
                                 (awic_result_file o)) (trace w)).

Definition set_geometry_http_request (r : string) : M world unit :=
  fun w =>
    let o := self w in
    (Ok tt, mk_world (mk_request (outputDir o) (awic_http_request o) (Some r)
                                 (awic_result_file o)) (trace w)).

Definition set_awic_result_file (f : string) : M world unit :=
  fun w =>
    let o := self w in
    (Ok tt, mk_world (mk_request (outputDir o) (awic_http_request o)
                                 (geometry_http_request o) (Some f)) (trace w)).

(** ** Constants of the class *)

Definition URL_ROOT : string := "https://wsi.land.copernicus.eu/awic/".
Definition AWIC_PROC : string := "get_awic".
Definition GEOMETRY_PROC : string := "get_geometries".
Definition URL_PARAM_GEOMETRYWKT_WGS84 : string := "geometrywkt_wgs84".
Definition URL_PARAM_GEOMETRYWKT_LAEA : string := "geometrywkt_laea".
Definition URL_PARAM_OBSERVATIONDATE_AFTER : string := "startdate".
Definition URL_PARAM_OBSERVATIONDATE_BEFORE : string := "completiondate".
Definition URL_PARAM_CLOUD_PERCENTAGE : string := "cloudcoveragemax".
Definition URL_PARAM_OUTPUT_SRID_GEOMETRY : string := "output_srid".

Definition nl : string := String (ascii_of_N 10) "".
Definition dquote : string := String (ascii_of_N 34) "".

(** [ET.tostring(METADATA_URL, encoding='utf8', method='xml').decode()] *)
Definition METADATA_XML : string :=
  ("<?xml version='1.0' encoding='utf8'?>" ++ nl ++ "<MT_Metadata url=" ++ dquote ++
   "https://sdi.eea.europa.eu/catalogue/srv/eng/catalog.search#/metadata/5752e8b5-ecda-4013-8eb9-e27f8515b87e"
   ++ dquote ++ " />")%string.

(** ** AwicRequest.__init__ *)

Definition init (E : env) (output_dir : option string) (returnMode : string)
    : M (list event) AwicRequest :=
  match output_dir with
  | Some d =>
      let p := abspath E d in
      (if negb (String.eqb returnMode "variable") then
         emit (PathExists p) ;;;
         if negb (path_exists E p) then
           log INFO ("Creating directory " ++ p) ;;;
           emit (MakeDirs p) ;;;
           if makedirs_ok E p then ret tt else raise OSError
         else log WARNING ("Existing directory " ++ p)
       else ret tt) ;;;
      ret (mk_request (Some p) None None None)
  | None => ret (mk_request None None None None)
  end.

(** ** validate_Rfc3339

    As every text of the model, [date_text] is made of code points below
    256.  The [\d] of the regular expression and [int] also take the decimal
    digits of other scripts, which such a text cannot hold; what is proved
    below about the texts that are refused is stated for ASCII texts. *)

Definition validate_Rfc3339 (date_text : string) : result string :=
  except_all_value (_ <- strptime date_text "%Y-%m-%d" ;; Ok date_text).

(** ** AwicRequest.build_request *)

(** [d[key] = value] on an insertion-ordered dict. *)
Fixpoint dict_set (d : list (string * pyval)) (key : string) (value : pyval)
    : list (string * pyval) :=
  match d with
  | [] => [(key, value)]
  | (k, v) :: d' =>
      if String.eqb k key then (k, value) :: d' else (k, v) :: dict_set d' key value
  end.

(** [geometry.replace(',', '%2C').replace(' ', '+')] *)
Definition encode_wkt (wkt : string) : string :=
  py_replace " " "+" (py_replace "," "%2C" wkt).

(** [if s:] on an optional str: [None] and the empty str are false. *)
Definition given_str (d : option string) : option string :=
  match d with
  | Some s => if String.eqb s "" then None else Some s
  | None => None
  end.

Definition build_request (E : env)
    (startDate completionDate geometrywkt_wgs84 geometrywkt_laea : option string)
    (cloudCoverageMax : pyval) : M world unit :=
  let url_params : list (string * pyval) := [] in
  (match geometrywkt_wgs84, geometrywkt_laea with
   | Some _, Some _ =>
       log ERROR "Geometry must be either WGS84 or LAEA (EPSG:3035), not both." ;;;
       sys_exit None
   | _, _ => ret tt
   end) ;;;
  choice <~ (match geometrywkt_wgs84, geometrywkt_laea with
             | Some g, _ => ret (encode_wkt g, URL_PARAM_GEOMETRYWKT_WGS84, "wgs84")
             | None, Some g => ret (encode_wkt g, URL_PARAM_GEOMETRYWKT_LAEA, "laea")
             | None, None =>
                 log ERROR "Geometry must be specified (either geometrywkt_wgs84 ou geometrywkt_laea)." ;;;
                 sys_exit None
             end) ;;
  let '(geometry, url_param_geometry_key, output_srid) := choice in
  let url_params := dict_set url_params url_param_geometry_key (PStr geometry) in
  let url_params :=
    if py_truthy cloudCoverageMax
    then dict_set url_params URL_PARAM_CLOUD_PERCENTAGE cloudCoverageMax
    else url_params in
  url_params <~ (match given_str startDate with
                 | Some s =>
                     v <~ lift (validate_Rfc3339 s) ;;
                     ret (dict_set url_params URL_PARAM_OBSERVATIONDATE_AFTER (PStr v))
                 | None => ret url_params
                 end) ;;
  url_params <~ (match given_str completionDate with
                 | Some s =>
                     v <~ lift (validate_Rfc3339 s) ;;
                     ret (dict_set url_params URL_PARAM_OBSERVATIONDATE_BEFORE (PStr v))
                 | None => ret url_params
                 end) ;;
  match url_params with
  | _ :: _ =>
      set_awic_http_request
        (URL_ROOT ++ AWIC_PROC ++ "?" ++
         py_join "&" (map (fun kv => fst kv ++ "=" ++ py_str E (snd kv)) url_params))%string ;;;
      set_geometry_http_request
        (URL_ROOT ++ GEOMETRY_PROC ++ "?" ++ url_param_geometry_key ++ "=" ++ geometry ++
         "&" ++ URL_PARAM_OUTPUT_SRID_GEOMETRY ++ "=" ++ output_srid)%string
  | [] =>
      log ERROR "No query parameters were provided, no query was generated" ;;;
      sys_exit None
  end.

(** ** Reading a decoded JSON document *)

Fixpoint chars (s : string) : list pyval :=
  match s with
  | "" => []
  | String c rest => PStr (String c "") :: chars rest
  end.

(** The items [for item in v] visits: the elements of a list, the keys of a
    dict, the characters of a str; anything else is not iterable. *)
Definition py_iter (v : pyval) : result (list pyval) :=
  match v with
  | PList l => Ok l
  | PDict d => Ok (map (fun kv => PStr (fst kv)) d)
  | PStr s => Ok (chars s)
  | PNone | PBool _ | PInt _ | PFloat _ => Raise TypeError
  end.

Fixpoint dict_lookup (d : list (string * pyval)) (key : string) : option pyval :=
  match d with
  | [] => None
  | (k, v) :: d' => if String.eqb k key then Some v else dict_lookup d' key
  end.

(** [item.get(key)]: only a dict has the method. *)
Definition py_get (item : pyval) (key : string) : result pyval :=
  match item with
  | PDict d =>
      match dict_lookup d key with
      | Some v => Ok v
      | None => Ok PNone
      end
  | _ => Raise AttributeError
  end.

(** [isinstance(v, dict) and v.get('code') == '0100E'] *)
Definition is_error_object (v : pyval) : bool :=
  match v with
  | PDict d =>
      match dict_lookup d "code" with
      | Some (PStr c) => String.eqb c "0100E"
      | _ => false
      end
  | _ => false
  end.

(** [';'.join(str(x) for x in p) + '\n'] *)
Definition csv_line (E : env) (p : pyval) : result string :=
  cells <- py_iter p ;;
  Ok (py_join ";" (map (py_str E) cells) ++ nl)%string.

(** [os.path.join(dir, name)] for a relative [name]. *)
Fixpoint ends_with_slash (s : string) : bool :=
  match s with
  | "" => false
  | String c "" => Ascii.eqb c "/"
  | String _ rest => ends_with_slash rest
  end.

Definition path_join (dir name : string) : string :=
  if String.eqb dir "" then name
  else if ends_with_slash dir then (dir ++ name)%string
  else (dir ++ "/" ++ name)%string.

Definition csv_mode (returnMode : string) : bool :=
  String.eqb returnMode "csv" || String.eqb returnMode "csv_and_variable".

(** The body of a [for p in rows: f.write(line)] loop. *)
Fixpoint write_rows {S : Type} `{Traced S} (E : env) (path : string) (rows : list pyval)
    : M S unit :=
  match rows with
  | [] => ret tt
  | p :: rest =>
      line <~ lift (csv_line E p) ;;
      emit (WriteText path line) ;;;
      write_rows E path rest
  end.

(** ** AwicRequest.request_geometry *)

Fixpoint collect_geometries (items : list pyval) : result (list pyval) :=
  match items with
  | [] => Ok []
  | item :: rest =>
      geom <- py_get item "j" ;;
      tl <- collect_geometries rest ;;
      Ok (if py_truthy geom then geom :: tl else tl)
  end.

Definition request_geometry (E : env) (http_request returnMode : string)
    (geometriesPath : option string) : M world (list pyval) :=
  log INFO ("Executing request for geometries: " ++ http_request) ;;;
  emit (HttpGet http_request) ;;;
  match http_get E http_request with
  | ConnectionFailed =>
      log ERROR "HTTP request failed" ;;; sys_exit (Some 500)
  | Response status body =>
      if status =? 414 then
        log ERROR "Request-URI Too Large" ;;; sys_exit (Some 500)
      else
        match body with
        | None => log ERROR "Failed to parse JSON response" ;;; sys_exit (Some 500)
        | Some json_root =>
            if is_error_object json_root then
              log ERROR "API returned error" ;;; sys_exit (Some 413)
            else
              items <~ lift (py_iter json_root) ;;
              geometries <~ lift (collect_geometries items) ;;
              (if csv_mode returnMode then
                 match given_str geometriesPath with
                 | None =>
                     log ERROR "Geometries path must be provided for CSV output." ;;;
                     sys_exit (Some 500)
                 | Some dir =>
                     let output_file := path_join dir "geometries.csv" in
                     log INFO ("Writing geometries to " ++ output_file) ;;;
                     if open_ok E output_file then
                       emit (OpenW output_file) ;;;
                       emit (WriteText output_file
                               ("id;geometry;basin_name;eu_hydro_id;object_nam;area;river_km" ++ nl)) ;;;
                       write_rows E output_file geometries
                     else
                       log ERROR "Failed to write geometries file" ;;; sys_exit (Some 500)
                 end
               else ret tt) ;;;
              ret geometries
        end
  end.

(** ** AwicRequest.request_page *)

(** [response.raise_for_status()] raises for the client and server error
    statuses. *)
Definition raises_for_status (status : Z) : bool :=
  (400 <=? status) && (status <? 600).

Fixpoint format_items (E : env) (items : list pyval) (i : Z) : result (list pyval) :=
  match items with
  | [] => Ok []
  | item :: rest =>
      raw_awic <- py_get item "j" ;;
      if py_truthy raw_awic then
        formatted <- format_awic_product E raw_awic i ;;
        tl <- format_items E rest (i + 1) ;;
        Ok (PList formatted :: tl)
      else format_items E rest (i + 1)
  end.

Definition request_page (E : env) (http_request : string) : M world (list pyval) :=
  log INFO ("Executing request for AWIC: " ++ http_request) ;;;
  emit (HttpGet http_request) ;;;
  match http_get E http_request with
  | ConnectionFailed => log ERROR "Error during HTTP request" ;;; ret []
  | Response status body =>
      if raises_for_status status then
        log ERROR "Error during HTTP request" ;;; ret []
      else
        match body with
        | None => log ERROR "Error: Response content is not valid JSON." ;;; ret []
        | Some json_root =>
            items <~ lift (py_iter json_root) ;;
            lift (format_items E items 0)
        end
  end.

(** ** AwicRequest.execute_request *)

Definition AWIC_HEADER : string :=
  ("id;geometries_id;datetime;water_perc;ice_perc;other_perc;cloud_perc;shdw_perc;nd_perc;qa;s1_perc;s2_perc;source"
   ++ nl)%string.

Definition execute_request (E : env) (returnMode : string) (request_geometries : bool)
    : M world (option (list pyval) * option (list pyval)) :=
  me <~ get_self ;;
  match awic_http_request me with
  | None => log ERROR "No awic_http_request was provided or configured" ;;; sys_exit None
  | Some awic_url =>
      match geometry_http_request me with
      | None =>
          log ERROR "No geometry_http_request was provided or configured" ;;; sys_exit None
      | Some geometry_url =>
          geometries <~ (if request_geometries
                         then g <~ request_geometry E geometry_url returnMode (outputDir me) ;;
                              ret (Some g)
                         else ret None) ;;
          awic_products <~ request_page E awic_url ;;
          (match awic_products with
           | [] => log WARNING "No AWIC data was found"
           | _ => log INFO ("Found " ++ py_str_int (Z.of_nat (List.length awic_products))
                            ++ " AWIC products.")
           end) ;;;
          (if csv_mode returnMode then
             dir <~ (match outputDir me with
                     | Some d => ret d
                     | None => raise TypeError
                     end) ;;
             let file := path_join dir "awic.csv" in
             set_awic_result_file file ;;;
             log INFO ("Writing AWIC data to " ++ file) ;;;
             (if open_ok E file then
                emit (OpenW file) ;;;
                emit (WriteText file AWIC_HEADER) ;;;
                write_rows E file awic_products
              else log ERROR "Error writing AWIC CSV file" ;;; sys_exit None) ;;;
             let mtd_path := path_join dir "AWIC_MTD.xml" in
             log INFO ("Writing metadata link into " ++ mtd_path) ;;;
             (if open_ok E mtd_path then
                emit (OpenW mtd_path) ;;;
                emit (WriteText mtd_path METADATA_XML)
              else log ERROR "Error writing metadata XML" ;;; sys_exit None)
           else ret tt) ;;;
          if String.eqb returnMode "csv" then ret (None, None)
          else ret (geometries, Some awic_products)
      end
  end.

(** ** download_awic_products *)

Definition valid_modes : list string := ["csv"; "csv_and_variable"; "variable"].

Definition mode_in (modes : list string) (m : string) : bool :=
  existsb (String.eqb m) modes.

Definition is_none {A : Type} (o : option A) : bool :=
  match o with
  | None => true
  | Some _ => false
  end.

Definition download_awic_products (E : env) (returnMode : string)
    (output_dir startDate completionDate geometrywkt_wgs84 geometrywkt_laea : option string)
    (cloudCoverageMax : pyval) (requestGeometries : bool)
    : M (list event) (option (list pyval) * option (list pyval)) :=
  if negb (mode_in valid_modes returnMode) then raise ValueError
  else if mode_in ["csv"; "csv_and_variable"] returnMode && is_none output_dir
  then raise ValueError
  else
    awic <~ init E output_dir returnMode ;;
    out <~ with_self awic
             (build_request E startDate completionDate geometrywkt_wgs84 geometrywkt_laea
                            cloudCoverageMax ;;;
              execute_request E returnMode requestGeometries) ;;
    log INFO "End of AWIC download." ;;;
    ret out.

(** The exit status of the interpreter when the exception is not caught:
    [sys.exit()] is success, [sys.exit(c)] is [c] truncated to a byte, any
    other exception is 1. *)
Definition exit_status (e : exn) : Z :=
  match e with
  | SystemExit None => 0
  | SystemExit (Some c) => c mod 256
  | _ => 1
  end.

(** ** The command line *)

(** What can end the script: the exceptions of the core, and those that
    only the command line meets. *)
Inductive cli_exn : Type :=
| Core (e : exn)
| NameError (name : string)      (* a name that is not bound *)
| ArgumentTypeError              (* argparse.ArgumentTypeError *)
| ExitText (text : string)       (* sys.exit(text) *)
| LibraryError.                  (* an exception of geopandas that no handler names *)

Inductive outcome (A : Type) : Type :=
| Done (a : A)
| Fails (e : cli_exn).
Arguments Done {A} a.
Arguments Fails {A} e.

(** A step of the script: it runs on the trace so far. *)
Definition Cli (A : Type) : Type := list event -> outcome A * list event.

Definition done {A : Type} (a : A) : Cli A := fun t => (Done a, t).

Definition fails {A : Type} (e : cli_exn) : Cli A := fun t => (Fails e, t).

Definition cli_bind {A B : Type} (m : Cli A) (k : A -> Cli B) : Cli B :=
  fun t =>
    match m t with
    | (Done a, t') => k a t'
    | (Fails e, t') => (Fails e, t')
    end.

Notation "x <~~ m ;; k" := (cli_bind m (fun x => k))
  (at level 61, m at next level, right associativity).

Definition cli_log (lv : level) (msg : string) : Cli unit :=
  fun t => (Done tt, t ++ [Log lv msg]).

(** A call of a function of the core. *)
Definition run_core {A : Type} (m : M (list event) A) : Cli A :=
  fun t =>
    match m t with
    | (Ok a, t') => (Done a, t')
    | (Raise e, t') => (Fails (Core e), t')
    end.

(** [c.lower()] on a code point below 256: the letters A to Z, and the
    capital letters of Latin-1 but for the multiplication sign. *)
Definition lower_char (c : ascii) : ascii :=
  let n := N_of_ascii c in
  if ((65 <=? n) && (n <=? 90) || (192 <=? n) && (n <=? 222) && negb (n =? 215))%N
  then ascii_of_N (n + 32)
  else c.

(** [s.lower()] *)
Fixpoint py_lower (s : string) : string :=
  match s with
  | "" => ""
  | String c rest => String (lower_char c) (py_lower rest)
  end.

(** str2bool; a value that is neither a bool nor a str has no [lower]. *)
Definition str2bool (v : pyval) : outcome bool :=
  match v with
  | PBool b => Done b
  | PStr s =>
      if mode_in ["yes"; "true"; "t"; "y"; "1"] (py_lower s) then Done true
      else if mode_in ["no"; "false"; "f"; "n"; "0"] (py_lower s) then Done false
      else Fails ArgumentTypeError
  | _ => Fails (Core AttributeError)
  end.

(** What geopandas answers when a vector file is read. *)
Inductive read_reply : Type :=
| ReadRejected                             (* DataSourceError, ValueError or GEOSException *)
| ReadCrashed                              (* another exception, also of union_all or crs.to_epsg *)
| Frame (epsg : option Z) (wkt : string).  (* crs.to_epsg() and str(union_all()) *)

(** What [gpd.GeoSeries.from_wkt([wkt], crs=epsg)] answers. *)
Inductive wkt_reply : Type :=
| WktRaises                                (* the call raises *)
| GeomType (geom_type : string).           (* wkt_geo.geom_type.item() *)

Record geo : Type := mk_geo {
  read_file : string -> read_reply;
  from_wkt : pyval -> string -> wkt_reply
}.

Definition epsg_value (epsg : option Z) : pyval :=
  match epsg with
  | Some z => PInt z
  | None => PNone
  end.

(** validate_file *)
Definition validate_file (G : geo) (geometry_file : string) : Cli (option Z * string) :=
  match read_file G geometry_file with
  | ReadRejected =>
      _ <~~ cli_log ERROR "-geometry_file : " ;;
      fails (Core (SystemExit None))
  | ReadCrashed => fails LibraryError
  | Frame test_epsg test_wkt => done (test_epsg, test_wkt)
  end.

(** validate_wkt_epsg.  The first handler names [CRSError], which the module
    neither defines nor imports: when [from_wkt] raises, matching the
    exception against that handler raises NameError, and the handler of
    GEOSException after it is never reached. *)
Definition validate_wkt_epsg (G : geo) (epsg_text : pyval) (wkt_text : string)
    : Cli (pyval * string) :=
  match from_wkt G epsg_text wkt_text with
  | WktRaises => fails (NameError "CRSError")
  | GeomType geom_type =>
      if negb (mode_in ["MultiPolygon"; "Polygon"; "Point"] geom_type) then
        _ <~~ cli_log ERROR "-wkt : only Polygon or MultiPolygon is accepted" ;;
        fails (Core (SystemExit None))
      else done (epsg_text, wkt_text)
  end.

(** The arguments after [parser.parse_args()].  The three of the query are
    required; [cloudCoverageMax] is the text given, or the integer 100. *)
Record cli_args : Type := mk_args {
  arg_returnMode : string;
  arg_startDate : string;
  arg_completionDate : string;
  arg_outputDir : option string;
  arg_cloudCoverageMax : pyval;
  arg_requestGeometries : string;
  arg_geometrywkt_wgs84 : option string;
  arg_geometrywkt_laea : option string;
  arg_geometry_file : option string
}.

(** The two variables of the filter: [None] while the name is not bound. *)
Record filter_vars : Type := mk_vars {
  var_geometrywkt_wgs84 : option (option string);
  var_geometrywkt_laea : option (option string)
}.

(** Reading a variable. *)
Definition read_var {A : Type} (name : string) (v : option A) : Cli A :=
  match v with
  | Some a => done a
  | None => fails (NameError name)
  end.

(** The part of [if __name__ == "__main__":] that sets the two variables
    of the filter, up to their reading in the last call. *)
Definition select_filter (E : env) (G : geo) (args : cli_args)
    : Cli (option string * option string) :=
  vars <~~ (match given_str (arg_geometry_file args) with
            | Some path =>
                file <~~ validate_file G path ;;
                let '(file_epsg, file_wkt) := file in
                _ <~~ validate_wkt_epsg G (epsg_value file_epsg) file_wkt ;;
                if String.eqb (py_str E (epsg_value file_epsg)) "3035"
                then done (mk_vars (Some None) (Some (Some file_wkt)))
                else if String.eqb (py_str E (epsg_value file_epsg)) "4326"
                then done (mk_vars (Some (Some file_wkt)) (Some None))
                else
                  _ <~~ cli_log ERROR "EPSG from your input file must be 3035 or 4326" ;;
                  fails (ExitText "-2")
            | None => done (mk_vars None None)
            end) ;;
  vars <~~ (match given_str (arg_geometrywkt_laea args) with
            | Some g =>
                checked <~~ validate_wkt_epsg G (PStr "3035") g ;;
                done (mk_vars (Some None) (Some (Some (snd checked))))
            | None => done vars
            end) ;;
  vars <~~ (match given_str (arg_geometrywkt_wgs84 args) with
            | Some g =>
                checked <~~ validate_wkt_epsg G (PStr "4326") g ;;
                done (mk_vars (Some (Some (snd checked))) (Some None))
            | None => done vars
            end) ;;
  geometrywkt_wgs84 <~~ read_var "geometrywkt_wgs84" (var_geometrywkt_wgs84 vars) ;;
  geometrywkt_laea <~~ read_var "geometrywkt_laea" (var_geometrywkt_laea vars) ;;
  done (geometrywkt_wgs84, geometrywkt_laea).

(** The body of [if __name__ == "__main__":] after the arguments are parsed. *)
Definition main (E : env) (G : geo) (args : cli_args)
    : Cli (option (list pyval) * option (list pyval)) :=
  filter <~~ select_filter E G args ;;
  requestGeometries <~~ (fun t => (str2bool (PStr (arg_requestGeometries args)), t)) ;;
  run_core (download_awic_products E (arg_returnMode args) (arg_outputDir args)
              (Some (arg_startDate args)) (Some (arg_completionDate args))
              (fst filter) (snd filter) (arg_cloudCoverageMax args)
              requestGeometries).

(** The exit status of the interpreter: that of the core for its
    exceptions; 1 for an exception that is not caught and for
    [sys.exit(text)]. *)
Definition cli_exit_status (e : cli_exn) : Z :=
  match e with
  | Core e' => exit_status e'
  | _ => 1
  end.

(** * Vocabulary of the properties *)

(** ** Dates and times of day as text *)

(** The [w] low decimal digits of [n], most significant first. *)
Fixpoint digits_fixed (w : nat) (n : Z) : string :=
  match w with
  | O => ""
  | S k => (digits_fixed k (n / 10) ++ String (digit_char (n mod 10)) "")%string
  end.

(** Text of two and of four digits. *)
Definition two (n : Z) : string := zero_pad 2 (str_nonneg n).
Definition four (n : Z) : string := zero_pad 4 (str_nonneg n).

(** The text [t] is what directive [d] consumes at the head of any text that
    starts with it, as soon as the rest of the pattern accepts what follows. *)
Definition takes (d : directive) (t : string) : Prop :=
  forall (A : Type) (rest : string) (k : string -> string -> option A) (a : A),
    k t rest = Some a -> try_alts (alternatives d) (t ++ rest) k = Some a.

Definition observation_items : list fmt_item :=
  [FDir DY; FDir Dm; FDir Dd; FLit "T"; FDir DH; FDir DM; FDir DS].

(** The components of a valid date and time of day. *)
Definition valid_components (y m d H M S : Z) : Prop :=
  1 <= y <= 9999 /\ 1 <= m <= 12 /\ 1 <= d <= days_in_month y m /\
  0 <= H <= 23 /\ 0 <= M <= 59 /\ 0 <= S <= 59.


(** The time of day [H]:[M]:[S] as the integer the service sends; padded to
    six digits it reads HHMMSS. *)
Definition time_value (H M S : Z) : Z := H * 10000 + M * 100 + S.




(** ** The scenarios of the specification *)

(** An environment for closed examples; nothing below depends on which. *)
Definition quiet_env : env :=
  mk_env (fun _ => "") (fun p => p) (fun _ => true) (fun _ => true) (fun _ => true)
         (fun _ => ConnectionFailed).

Definition scenario_raw : list pyval :=
  [PStr "12345"; PStr "20250115"; PStr "093000"; PInt 10; PInt 20; PInt 30; PInt 15;
   PInt 5; PInt 20; PStr "A"; PInt 40; PInt 60; PInt 1].

Definition scenario_raw_int_time : list pyval :=
  [PStr "12345"; PStr "20250115"; PInt 93000; PInt 10; PInt 20; PInt 30; PInt 15;
   PInt 5; PInt 20; PStr "A"; PInt 40; PInt 60; PInt 1].

Definition scenario_record : list pyval :=
  [PInt 1; PStr "12345"; PStr "2025-01-15T09:30:00"; PInt 10; PInt 20; PInt 30; PInt 15;
   PInt 5; PInt 20; PStr "A"; PInt 40; PInt 60; PStr "Sentinel-1"].

(** A service that answers the observation query with [obs] and the
    geometry query with [geo]. *)
Definition service (obs geo : http_reply) : env :=
  mk_env (fun _ => "") (fun p => p) (fun _ => true) (fun _ => true) (fun _ => true)
         (fun url => if py_contains GEOMETRY_PROC url then geo else obs).

(** An object whose request targets are not set. *)
Definition fresh_request : AwicRequest := mk_request None None None None.

Definition raw_with_code (code : pyval) : list pyval :=
  [PStr "12345"; PStr "20250115"; PInt 93000; PInt 10; PInt 20; PInt 30; PInt 15;
   PInt 5; PInt 20; PStr "A"; PInt 40; PInt 60; code].

Definition scenario_query : string :=
  "https://wsi.land.copernicus.eu/awic/get_awic?geometrywkt_wgs84=POINT(22.457940+49.367854)&startdate=2025-01-15&completiondate=2025-01-25".

Definition scenario_build (E : env) (w : world) : result unit * world :=
  build_request E (Some "2025-01-15") (Some "2025-01-25")
    (Some "POINT(22.457940 49.367854)") None PNone w.

Definition one_observation : pyval := PList [PDict [("j", PList scenario_raw_int_time)]].

Definition geometry_url_of_scenario : string :=
  "https://wsi.land.copernicus.eu/awic/get_geometries?geometrywkt_wgs84=POINT(22.457940+49.367854)&output_srid=wgs84".

Definition error_reply : http_reply :=
  Response 200 (Some (PDict [("code", PStr "0100E"); ("message", PStr "Request too large")])).

(** A JSON object that is no error object. *)
Definition plain_reply : http_reply :=
  Response 200 (Some (PDict [("status", PStr "ok")])).

(** The run of the scenario in mode "csv", without the geometries, when the
    observation query is answered by [reply]. *)
Definition observation_run (reply : http_reply)
    : result (option (list pyval) * option (list pyval)) * list event :=
  download_awic_products (service reply (Response 200 (Some (PList [])))) "csv"
    (Some "out") (Some "2025-01-15") (Some "2025-01-25")
    (Some "POINT(22.457940 49.367854)") None PNone false [].

Definition built_world : world :=
  mk_world (mk_request (Some "out") (Some scenario_query) (Some geometry_url_of_scenario) None)
           [].

Definition build_with_start (startDate : string) : result unit * world :=
  build_request quiet_env (Some startDate) (Some "2025-01-25") (Some "POINT(1 2)") None PNone
    (mk_world fresh_request []).

(** ** Encoding and decoding a filter *)

(** The spec's decoding of an encoded filter: "+" back to a blank and "%2C"
    back to a comma. *)
Definition decode_wkt (s : string) : string :=
  py_replace "%2C" "," (py_replace "+" " " s).

(** The same with the two replacements in the other order. *)
Definition decode_wkt_comma_first (s : string) : string :=
  py_replace "+" " " (py_replace "%2C" "," s).

(** Replacing each character [c] of a text by the text [f c]. *)
Fixpoint subst_chars (f : ascii -> string) (s : string) : string :=
  match s with
  | "" => ""
  | String c rest => (f c ++ subst_chars f rest)%string
  end.

Definition swap_char (c : ascii) (new : string) (x : ascii) : string :=
  if Ascii.eqb x c then new else String x "".

(** What the encoding does to one character. *)
Definition encode_char (x : ascii) : string :=
  if Ascii.eqb x "," then "%2C" else if Ascii.eqb x " " then "+" else String x "".

(** ** Traces *)

Definition observation_banner (url : string) : list event :=
  [Log INFO ("Executing request for AWIC: " ++ url); HttpGet url].

Definition geometry_banner (url : string) : list event :=
  [Log INFO ("Executing request for geometries: " ++ url); HttpGet url].

(** The event creates or writes the file [path]. *)
Definition touches (path : string) (ev : event) : bool :=
  match ev with
  | OpenW p | WriteText p _ => String.eqb p path
  | _ => false
  end.

(** [w1] is [w] after some more events, all of which satisfy [P]; the object
    is the same. *)
Definition extends (P : event -> Prop) (w w1 : world) : Prop :=
  self w1 = self w /\ exists new, trace w1 = trace w ++ new /\ Forall P new.

(** An exception that ends the process with a status other than 0. *)
Definition loud {A : Type} (r : result A) : Prop :=
  forall e, r = Raise e -> exit_status e <> 0.

(** Every run of [m] adds only events that satisfy [P], and if it raises,
    the exit status is not 0. *)
Definition adds_only {A : Type} (P : event -> Prop) (m : M world A) : Prop :=
  forall w r w1, m w = (r, w1) -> extends P w w1 /\ loud r.

(** The events of the geometry call: logging, the HTTP call, and the file
    geometries.csv of the output directory. *)
Definition geometry_event (dir : option string) (ev : event) : Prop :=
  forall p, touches p ev = true ->
            exists d, given_str dir = Some d /\ p = path_join d "geometries.csv".

(** ** The shape of a date *)

(** [s.split(c)] *)
Fixpoint split_on (c : ascii) (s : string) : list string :=
  match s with
  | "" => [""]
  | String x rest =>
      if Ascii.eqb x c then "" :: split_on c rest
      else match split_on c rest with
           | h :: t => String x h :: t
           | [] => [String x ""]
           end
  end.

Fixpoint all_digits (s : string) : bool :=
  match s with
  | "" => true
  | String c rest => is_digit c && all_digits rest
  end.

(** One or two digits. *)
Definition short_number (s : string) : bool :=
  ((String.length s =? 1)%nat || (String.length s =? 2)%nat) && all_digits s.

(** A blank and a digit. *)
Definition blank_digit (s : string) : bool :=
  match s with
  | String b (String c "") => Ascii.eqb b " " && is_digit c
  | _ => false
  end.

(** The shape of a date that the date check can accept: four digits, a
    dash, a month of one or two digits, a dash, and a day of one or two
    digits (or a blank and a digit), naming a day of the calendar. *)
Definition loose_date (s : string) : bool :=
  match split_on "-" s with
  | [y; m; d] =>
      (String.length y =? 4)%nat && all_digits y && short_number m
      && (short_number d || blank_digit d)
      && datetime_ok (mk_datetime (int_of_text y) (int_of_text m) (int_of_text d) 0 0 0)
  | _ => false
  end.

(** Every character of the text is an ASCII character. *)
Fixpoint ascii_text (s : string) : bool :=
  match s with
  | "" => true
  | String c rest => (N_of_ascii c <? 128)%N && ascii_text rest
  end.

(** The text [t] is matched, character by character, by the classes of an
    alternative. *)
Fixpoint alt_text (alt : list cls) (t : string) : bool :=
  match alt, t with
  | [], "" => true
  | k :: alt', String c t' => cls_accepts k c && alt_text alt' t'
  | _, _ => false
  end.

(** No character of [s] is [c]. *)
Fixpoint lacks (c : ascii) (s : string) : bool :=
  match s with
  | "" => true
  | String x rest => negb (Ascii.eqb x c) && lacks c rest
  end.

(** ** The request targets *)

(** The spatial filter of a request: one of the two variants. *)
Inductive spatial_filter : Type :=
| WGS84 (wkt : string)
| LAEA (wkt : string).

Definition filter_wgs84 (f : spatial_filter) : option string :=
  match f with WGS84 g => Some g | LAEA _ => None end.

Definition filter_laea (f : spatial_filter) : option string :=
  match f with WGS84 _ => None | LAEA g => Some g end.

Definition filter_text (f : spatial_filter) : string :=
  match f with WGS84 g | LAEA g => g end.

Definition filter_key (f : spatial_filter) : string :=
  match f with
  | WGS84 _ => URL_PARAM_GEOMETRYWKT_WGS84
  | LAEA _ => URL_PARAM_GEOMETRYWKT_LAEA
  end.

Definition filter_srid (f : spatial_filter) : string :=
  match f with WGS84 _ => "wgs84" | LAEA _ => "laea" end.

(** One more parameter of a query, when it has a value. *)
Definition query_part (key : string) (value : option string) : string :=
  match value with
  | Some v => "&" ++ key ++ "=" ++ v
  | None => ""
  end.

(** The text of a cloud ceiling that is sent. *)
Definition cloud_text (E : env) (c : pyval) : option string :=
  if py_truthy c then Some (py_str E c) else None.

Definition expected_awic_query (E : env) (f : spatial_filter) (cloud : pyval)
    (startDate completionDate : option string) : string :=
  URL_ROOT ++ AWIC_PROC ++ "?" ++ filter_key f ++ "=" ++ encode_wkt (filter_text f)
  ++ query_part URL_PARAM_CLOUD_PERCENTAGE (cloud_text E cloud)
  ++ query_part URL_PARAM_OBSERVATIONDATE_AFTER (given_str startDate)
  ++ query_part URL_PARAM_OBSERVATIONDATE_BEFORE (given_str completionDate).

Definition expected_geometry_query (f : spatial_filter) : string :=
  URL_ROOT ++ GEOMETRY_PROC ++ "?" ++ filter_key f ++ "=" ++ encode_wkt (filter_text f)
  ++ "&" ++ URL_PARAM_OUTPUT_SRID_GEOMETRY ++ "=" ++ filter_srid f.

(** A date argument that the date check lets through: absent, empty, or of
    the loose shape. *)
Definition date_passes (d : option string) : Prop :=
  forall s, given_str d = Some s -> loose_date s = true.

Definition is_error_log (ev : event) : Prop := exists msg, ev = Log ERROR msg.

(** ** Records and their ids *)

(** The first field of a formatted record, when it is an integer. *)
Definition record_id (r : pyval) : option Z :=
  match r with
  | PList (PInt k :: _) => Some k
  | _ => None
  end.

(** The element at position [p] of a response has a truthy "j". *)
Definition truthy_at (items : list pyval) (p : nat) : bool :=
  match nth_error items p with
  | Some item =>
      match py_get item "j" with
      | Ok raw => py_truthy raw
      | Raise _ => false
      end
  | None => false
  end.

(** The positions of the elements with a truthy "j", in order. *)
Definition kept_positions (items : list pyval) : list nat :=
  filter (truthy_at items) (seq 0 (List.length items)).

(** The ids that go with these positions when the loop starts counting at
    [i]: the position, counted from [i], plus one. *)
Definition ids_of_positions (i : Z) (items : list pyval) : list Z :=
  map (fun p => i + Z.of_nat p + 1) (kept_positions items).

(** ** Lines of a CSV file *)

(** The text of a row: its cells joined by semicolons, and a newline. *)
Definition row_text (E : env) (row : list pyval) : string :=
  (py_join ";" (map (py_str E) row) ++ nl)%string.

(** The raw value of an element of a response: what [item.get('j')] gives. *)
Definition raw_of (item raw : pyval) : Prop := py_get item "j" = Ok raw.

(** ** The files of a run *)

Definition GEOMETRY_HEADER : string :=
  ("id;geometry;basin_name;eu_hydro_id;object_nam;area;river_km" ++ nl)%string.

(** Opening [file] and writing a header and one line per row. *)
Definition table_writes (E : env) (file header : string) (rows : list (list pyval))
    : list event :=
  [OpenW file; WriteText file header]
  ++ map (fun row => WriteText file (row_text E row)) rows.

(** What [execute_request] logs about the number of records. *)
Definition found_log (products : list pyval) : event :=
  match products with
  | [] => Log WARNING "No AWIC data was found"
  | _ => Log INFO ("Found " ++ py_str_int (Z.of_nat (List.length products))
                   ++ " AWIC products.")
  end.

(** The events of the two files of the observations in the directory [dir]. *)
Definition observation_files (E : env) (dir : string) (rows : list (list pyval))
    : list event :=
  [Log INFO ("Writing AWIC data to " ++ path_join dir "awic.csv")]
  ++ table_writes E (path_join dir "awic.csv") AWIC_HEADER rows
  ++ [Log INFO ("Writing metadata link into " ++ path_join dir "AWIC_MTD.xml");
      OpenW (path_join dir "AWIC_MTD.xml");
      WriteText (path_join dir "AWIC_MTD.xml") METADATA_XML].

(** What [execute_request] returns for the records [products]. *)
Definition returned (returnMode : string) (geometries : option (list pyval))
    (products : list pyval) : option (list pyval) * option (list pyval) :=
  if String.eqb returnMode "csv" then (None, None) else (geometries, Some products).

(** ** What a run adds to the trace *)

(** [t1] is [t] followed by events that all satisfy [P]. *)
Definition grows (P : event -> Prop) (t t1 : list event) : Prop :=
  exists new, t1 = t ++ new /\ Forall P new.

(** Every run of the method [m] adds only events that satisfy [P]. *)
Definition emits_only {A : Type} (P : event -> Prop) (m : M world A) : Prop :=
  forall w r w1, m w = (r, w1) -> grows P (trace w) (trace w1).

(** A log message or an HTTP call: no access to the file system. *)
Definition no_file_access (ev : event) : Prop :=
  match ev with
  | Log _ _ | HttpGet _ => True
  | _ => False
  end.

(** The names of the files a run writes. *)
Definition output_names : list string := ["awic.csv"; "AWIC_MTD.xml"; "geometries.csv"].

(** What a run with the output directory [output_dir] may do: log, call the
    service of [URL_ROOT], look for or create the directory, and open or
    write one of the three output files in it. *)
Definition within_bounds (E : env) (output_dir : option string) (ev : event) : Prop :=
  match ev with
  | Log _ _ => True
  | HttpGet url => starts_with URL_ROOT url = true
  | PathExists p | MakeDirs p => exists d, output_dir = Some d /\ p = abspath E d
  | OpenW p | WriteText p _ =>
      exists d name,
        output_dir = Some d /\ In name output_names /\ p = path_join (abspath E d) name
  end.

(** ** The HTTP calls of a run *)

(** The addresses called in a trace, in order. *)
Definition http_calls (t : list event) : list string :=
  flat_map (fun ev => match ev with HttpGet url => [url] | _ => [] end) t.

(** [done] is the beginning of [plan]. *)
Definition begins (done plan : list string) : Prop := exists rest, plan = done ++ rest.

(** Every run of [m] makes the calls of [plan], in order and once each, up
    to the point where it stops; a run that returns has made them all. *)
Definition makes {A : Type} (m : M world A) (plan : list string) : Prop :=
  forall w r w1,
    m w = (r, w1) ->
    exists done,
      http_calls (trace w1) = http_calls (trace w) ++ done
      /\ begins done plan
      /\ forall a, r = Ok a -> done = plan.

(** The calls [execute_request] is to make: the geometries first, when they
    are asked for, then the observations. *)
Definition call_plan (request_geometries : bool) (geometry_url awic_url : string)
    : list string :=
  (if request_geometries then [geometry_url] else []) ++ [awic_url].

(** Where the writing of the two files of the observations stops when one
    of them cannot be opened. *)
Definition failed_observation_files (E : env) (dir : string) (rows : list (list pyval))
    : list event :=
  [Log INFO ("Writing AWIC data to " ++ path_join dir "awic.csv")]
  ++ (if open_ok E (path_join dir "awic.csv")
      then table_writes E (path_join dir "awic.csv") AWIC_HEADER rows
           ++ [Log INFO ("Writing metadata link into " ++ path_join dir "AWIC_MTD.xml");
               Log ERROR "Error writing metadata XML"]
      else [Log ERROR "Error writing AWIC CSV file"]).

(** An environment in which no file can be opened for writing. *)
Definition read_only_env : env :=
  mk_env (fun _ => "") (fun p => p) (fun _ => true) (fun _ => true) (fun _ => false)
         (fun _ => ConnectionFailed).

(** ** Cells of a line *)

(** How many times the character [c] occurs in [s]. *)
Fixpoint count_char (c : ascii) (s : string) : nat :=
  match s with
  | "" => O
  | String x rest => ((if Ascii.eqb x c then 1 else 0) + count_char c rest)%nat
  end.

(** The semicolons inside the cells of a row. *)
Definition semicolons_inside (E : env) (row : list pyval) : nat :=
  list_sum (map (fun v => count_char ";" (py_str E v)) row).

(** ** The command line *)

(** No spatial filter is given: each of the three options is absent or
    empty. *)
Definition no_filter_given (args : cli_args) : Prop :=
  given_str (arg_geometry_file args) = None
  /\ given_str (arg_geometrywkt_laea args) = None
  /\ given_str (arg_geometrywkt_wgs84 args) = None.

(** Exactly one of the two filters is set. *)
Definition one_filter (filter : option string * option string) : Prop :=
  match filter with
  | (Some _, None) | (None, Some _) => True
  | _ => False
  end.

(** The first filter that is checked when no file is given, with its EPSG
    code: the LAEA one, else the WGS84 one. *)
Definition first_checked (args : cli_args) : option (pyval * string) :=
  match given_str (arg_geometrywkt_laea args), given_str (arg_geometrywkt_wgs84 args) with
  | Some g, _ => Some (PStr "3035", g)
  | None, Some g => Some (PStr "4326", g)
  | None, None => None
  end.

Definition plain_args (wgs84 laea file : option string) : cli_args :=
  mk_args "variable" "2025-01-15" "2025-01-25" None (PInt 100) "False" wgs84 laea file.

(** A library that rejects every WKT and every file. *)
Definition strict_geo : geo := mk_geo (fun _ => ReadRejected) (fun _ _ => WktRaises).

(** A library that reads every WKT as a point. *)
Definition point_geo : geo := mk_geo (fun _ => ReadRejected) (fun _ _ => GeomType "Point").

(** Every run of the step [m] of the command line adds only events that
    satisfy [P]. *)
Definition cli_emits_only {A : Type} (P : event -> Prop) (m : Cli A) : Prop :=
  forall t r t1, m t = (r, t1) -> grows P t t1.

(** * Properties *)

(** ** Decimal text *)

Lemma size_nat_bound (p : positive) : Zpos p < 2 ^ Z.of_nat (Pos.size_nat p).
Proof.
  induction p as [p IH | p IH | ]; cbn [Pos.size_nat];
    rewrite ?Nat2Z.inj_succ, ?Z.pow_succ_r by lia; lia.
Qed.

Lemma dec_digits_fuel (f1 : nat) :
  forall (f2 : nat) (n : Z),
    1 <= n -> n < 2 ^ Z.of_nat f1 -> n < 2 ^ Z.of_nat f2 ->
    dec_digits f1 n = dec_digits f2 n.
Proof.
  induction f1 as [| f1 IH]; intros f2 n Hpos H1 H2.
  - cbn in H1. lia.
  - destruct f2 as [| f2]; [cbn in H2; lia |].
    cbn [dec_digits]. destruct (n <? 10) eqn:Hlt; [reflexivity |].
    apply Z.ltb_ge in Hlt.
    rewrite Nat2Z.inj_succ, Z.pow_succ_r in H1, H2 by lia.
    f_equal. apply IH.
    + apply Z.div_le_lower_bound; lia.
    + apply Z.div_lt_upper_bound; lia.
    + apply Z.div_lt_upper_bound; lia.
Qed.

Lemma str_nonneg_small (n : Z) :
  0 <= n < 10 -> str_nonneg n = String (digit_char n) "".
Proof.
  intros H. destruct n as [| p | p]; [reflexivity | | lia].
  unfold str_nonneg. destruct (Pos.size_nat p) as [| f] eqn:E.
  - destruct p; discriminate.
  - cbn [dec_digits]. destruct (Z.ltb_spec (Zpos p) 10); [reflexivity | lia].
Qed.

Lemma str_nonneg_step (n : Z) :
  10 <= n ->
  str_nonneg n = (str_nonneg (n / 10) ++ String (digit_char (n mod 10)) "")%string.
Proof.
  intros H. destruct n as [| p | p]; [lia | | lia].
  assert (Hq : 1 <= Zpos p / 10) by (apply Z.div_le_lower_bound; lia).
  unfold str_nonneg at 1. pose proof (size_nat_bound p) as Hb.
  destruct (Pos.size_nat p) as [| f] eqn:E; [destruct p; discriminate |].
  cbn [dec_digits]. destruct (Z.ltb_spec (Zpos p) 10); [lia |].
  f_equal. rewrite Nat2Z.inj_succ, Z.pow_succ_r in Hb by lia.
  assert (Hlt : Zpos p / 10 < 2 ^ Z.of_nat f) by (apply Z.div_lt_upper_bound; lia).
  destruct (Zpos p / 10) as [| q | q]; [lia | | lia].
  unfold str_nonneg. pose proof (size_nat_bound q).
  apply dec_digits_fuel; lia.
Qed.

Lemma digits_fixed_zero (w : nat) : digits_fixed w 0 = zeros w.
Proof.
  induction w as [| w IH]; [reflexivity |].
  cbn [digits_fixed]. change (0 / 10) with 0. rewrite IH.
  change (digit_char (0 mod 10)) with "0"%char.
  clear IH. induction w as [| w IH]; [reflexivity |].
  cbn [zeros String.append] in *. now rewrite IH.
Qed.

Lemma length_append (a b : string) :
  String.length (a ++ b) = (String.length a + String.length b)%nat.
Proof. induction a as [| c a IH]; cbn; [reflexivity | now rewrite IH]. Qed.

Lemma append_assoc (a b c : string) : ((a ++ b) ++ c = a ++ (b ++ c))%string.
Proof. induction a as [| x a IH]; cbn; [reflexivity | now rewrite IH]. Qed.

Lemma append_nil_r (a : string) : (a ++ "")%string = a.
Proof. induction a as [| x a IH]; cbn; [reflexivity | now rewrite IH]. Qed.

Lemma str_nonneg_length (w : nat) :
  forall n, 0 <= n < 10 ^ Z.of_nat w -> (1 <= w)%nat ->
    (1 <= String.length (str_nonneg n) <= w)%nat.
Proof.
  induction w as [| w IH]; intros n Hn Hw; [lia |].
  destruct (Z_lt_ge_dec n 10) as [Hs | Hl].
  - rewrite str_nonneg_small by lia. cbn. lia.
  - rewrite str_nonneg_step by lia. rewrite length_append. cbn [String.length].
    rewrite Nat2Z.inj_succ, Z.pow_succ_r in Hn by lia.
    destruct w as [| w']; [cbn in Hn; lia |].
    assert (Hq : 0 <= n / 10 < 10 ^ Z.of_nat (S w')).
    { split; [apply Z.div_pos; lia | apply Z.div_lt_upper_bound; lia]. }
    specialize (IH (n / 10) Hq ltac:(lia)). lia.
Qed.

(** Padding the decimal text of [n] to [w] places gives its [w] digits. *)
Lemma zero_pad_digits (w : nat) :
  forall n, 0 <= n < 10 ^ Z.of_nat w -> (1 <= w)%nat ->
    zero_pad w (str_nonneg n) = digits_fixed w n.
Proof.
  induction w as [| w IH]; intros n Hn Hw; [lia |].
  cbn [digits_fixed].
  destruct (Z_lt_ge_dec n 10) as [Hs | Hl].
  - rewrite str_nonneg_small by lia.
    rewrite (Z.div_small n 10), (Z.mod_small n 10) by lia.
    rewrite digits_fixed_zero. unfold zero_pad. cbn [String.length].
    now replace (S w - 1)%nat with w by lia.
  - rewrite str_nonneg_step by lia.
    rewrite Nat2Z.inj_succ, Z.pow_succ_r in Hn by lia.
    destruct w as [| w']; [cbn in Hn; lia |].
    assert (Hq : 0 <= n / 10 < 10 ^ Z.of_nat (S w')).
    { split; [apply Z.div_pos; lia | apply Z.div_lt_upper_bound; lia]. }
    rewrite <- (IH (n / 10) Hq ltac:(lia)).
    unfold zero_pad. rewrite length_append, <- append_assoc. cbn [String.length].
    pose proof (str_nonneg_length (S w') (n / 10) Hq ltac:(lia)).
    now replace (S (S w') - (String.length (str_nonneg (n / 10)) + 1))%nat
      with (S w' - String.length (str_nonneg (n / 10)))%nat by lia.
Qed.

(** A property of every integer of a short range follows from its instances. *)
Lemma range_cases (P : Z -> Prop) (lo : Z) (len : nat) :
  Forall P (map (fun i => lo + Z.of_nat i) (seq 0 len)) ->
  forall n, lo <= n < lo + Z.of_nat len -> P n.
Proof.
  intros HF n Hn. rewrite Forall_forall in HF. apply HF.
  apply in_map_iff. exists (Z.to_nat (n - lo)). split; [lia |].
  apply in_seq. lia.
Qed.

Ltac by_cases lo len :=
  match goal with
  | |- forall n : Z, _ -> @?P n =>
      apply (range_cases P lo len);
      let l := eval vm_compute in (map (fun i => lo + Z.of_nat i) (seq 0 len)) in
      change (Forall P l); repeat apply Forall_cons; try apply Forall_nil; cbv beta
  end.

Lemma is_digit_digit_char : forall k, 0 <= k < 0 + Z.of_nat 10 -> is_digit (digit_char k) = true.
Proof. by_cases 0 10%nat; reflexivity. Qed.

Lemma digit_val_digit_char : forall k, 0 <= k < 0 + Z.of_nat 10 -> digit_val (digit_char k) = k.
Proof. by_cases 0 10%nat; reflexivity. Qed.

Lemma int_of_text_two : forall n, 0 <= n < 0 + Z.of_nat 100 -> int_of_text (two n) = n.
Proof. by_cases 0 100%nat; vm_compute; reflexivity. Qed.

Lemma four_digits (y : Z) :
  0 <= y < 10000 ->
  four y = String (digit_char (y / 10 / 10 / 10 mod 10))
             (String (digit_char (y / 10 / 10 mod 10))
                (String (digit_char (y / 10 mod 10))
                   (String (digit_char (y mod 10)) ""))).
Proof.
  intros H. unfold four. rewrite (zero_pad_digits 4) by (cbn; lia). reflexivity.
Qed.

Lemma int_of_text_four (y : Z) : 0 <= y < 10000 -> int_of_text (four y) = y.
Proof.
  intros H. rewrite four_digits by lia. unfold int_of_text. cbn [int_of_text_acc].
  rewrite !is_digit_digit_char, !digit_val_digit_char
    by (cbn; apply Z.mod_pos_bound; lia).
  Z.div_mod_to_equations. lia.
Qed.

(** ** Matching a well-formed field *)

Ltac takes_by_evaluation :=
  intros A rest k a Hk;
  repeat match goal with
    | H : context [two ?n] |- _ =>
        let s := eval vm_compute in (two n) in change (two n) with s in H
    | |- context [two ?n] =>
        let s := eval vm_compute in (two n) in change (two n) with s
    end;
  cbn; rewrite Hk; reflexivity.

Lemma takes_month : forall n, 1 <= n < 1 + Z.of_nat 12 -> takes Dm (two n).
Proof. by_cases 1 12%nat; takes_by_evaluation. Qed.

Lemma takes_day : forall n, 1 <= n < 1 + Z.of_nat 31 -> takes Dd (two n).
Proof. by_cases 1 31%nat; takes_by_evaluation. Qed.




Lemma takes_year (y : Z) : 0 <= y < 10000 -> takes DY (four y).
Proof.
  intros H A rest k a Hk. rewrite four_digits in * by lia.
  cbn. rewrite !is_digit_digit_char by (cbn; apply Z.mod_pos_bound; lia).
  now rewrite Hk.
Qed.

Lemma match_items_dir (d : directive) (t rest : string) (tl : list fmt_item)
    (g : list (directive * string)) (e : string) :
  takes d t ->
  match_items tl rest = Some (g, e) ->
  match_items (FDir d :: tl) (t ++ rest) = Some ((d, t) :: g, e).
Proof.
  intros Ht Htl. cbn [match_items]. apply Ht. now rewrite Htl.
Qed.



Lemma match_items_lit (c c' : ascii) (rest : string) (tl : list fmt_item)
    (r : option (list (directive * string) * string)) :
  lit_eq c c' = true ->
  match_items tl rest = r ->
  match_items (FLit c :: tl) (String c' rest) = r.
Proof. intros Hc Htl. cbn [match_items]. now rewrite Hc. Qed.

Lemma parse_observation_format : parse_format "%Y%m%dT%H%M%S" = Some observation_items.
Proof. reflexivity. Qed.

Lemma days_in_month_le_31 (y m : Z) : days_in_month y m <= 31.
Proof.
  unfold days_in_month.
  repeat match goal with |- context [if ?b then _ else _] => destruct b end; lia.
Qed.


Lemma datetime_ok_valid (y m d H M S : Z) :
  valid_components y m d H M S -> datetime_ok (mk_datetime y m d H M S) = true.
Proof.
  intros (Hy & Hm & Hd & HH & HM & HS). unfold datetime_ok. cbn [year month day hour minute second].
  repeat (apply andb_true_intro; split); apply Z.leb_le; lia.
Qed.




(** ** The date and time round trip (C4) *)

Lemma int_of_text_acc_app (a b : string) :
  forall acc, int_of_text_acc acc (a ++ b) = int_of_text_acc (int_of_text_acc acc a) b.
Proof.
  induction a as [| x a IH]; intros acc; [reflexivity |].
  cbn [String.append int_of_text_acc]. destruct (is_digit x); apply IH.
Qed.

Lemma int_of_text_zeros (n : nat) (s : string) :
  int_of_text (zeros n ++ s) = int_of_text s.
Proof.
  unfold int_of_text. rewrite int_of_text_acc_app. f_equal.
  induction n as [| n IH]; [reflexivity |]. cbn [zeros int_of_text_acc]. exact IH.
Qed.

(** Reading the decimal text of an integer gives the integer back. *)
Lemma int_of_text_str_nonneg (w : nat) :
  forall n, 0 <= n < 10 ^ Z.of_nat w -> int_of_text (str_nonneg n) = n.
Proof.
  induction w as [| w IH]; intros n Hn.
  - cbn in Hn. now replace n with 0 by lia.
  - destruct (Z_lt_ge_dec n 10) as [Hs | Hl].
    + rewrite str_nonneg_small by lia. unfold int_of_text. cbn [int_of_text_acc].
      rewrite is_digit_digit_char, digit_val_digit_char by (cbn; lia). lia.
    + rewrite str_nonneg_step by lia.
      rewrite Nat2Z.inj_succ, Z.pow_succ_r in Hn by lia.
      unfold int_of_text. rewrite int_of_text_acc_app. fold (int_of_text (str_nonneg (n / 10))).
      rewrite IH by (split; [apply Z.div_pos; lia | apply Z.div_lt_upper_bound; lia]).
      cbn [int_of_text_acc].
      rewrite is_digit_digit_char, digit_val_digit_char
        by (cbn; apply Z.mod_pos_bound; lia).
      Z.div_mod_to_equations. lia.
Qed.

Lemma int_of_text_str (n : Z) : 0 <= n -> int_of_text (str_nonneg n) = n.
Proof.
  intros Hn. apply (int_of_text_str_nonneg (Z.to_nat n)).
  split; [exact Hn |]. rewrite Z2Nat.id by exact Hn. apply Z.pow_gt_lin_r; lia.
Qed.





(** ** The scenario record (C1) *)

(** With the time of day as the integer 93000 the scenario array gives the
    scenario record. *)
Lemma scenario_integer_time (E : env) :
  format_awic_product E (PList scenario_raw_int_time) 0 = Ok scenario_record.
Proof. reflexivity. Qed.

(** C1. The scenario array holds the time of day as the text "093000", the
    way the docstring of [format_awic_product] writes the expected format;
    the format code [06d] does not apply to a [str], so the function raises
    ValueError and returns no record. *)
Theorem scenario_text_time_raises (E : env) :
  format_awic_product E (PList scenario_raw) 0 = Raise ValueError.
Proof. reflexivity. Qed.

(** ** The mission label (C2) *)

Lemma observation_datetime_first (E : env) (l : list pyval) (stamp : string) :
  observation_datetime E l = Ok stamp -> exists first, list_item l 0 = Ok first.
Proof.
  unfold observation_datetime, list_item. intros H.
  destruct l as [| first l]; [discriminate H |].
  now exists first.
Qed.

Lemma record_last (a b c mission : pyval) (mid : list pyval) :
  last ([a; b; c] ++ mid ++ [mission]) PNone = mission.
Proof.
  change ([a; b; c] ++ mid ++ [mission]) with (a :: b :: c :: (mid ++ [mission])).
  rewrite !app_comm_cons. apply last_last.
Qed.

Lemma format_with_code (E : env) (l : list pyval) (index : Z) (stamp : string)
    (code : pyval) :
  observation_datetime E l = Ok stamp ->
  (if 12 <? Z.of_nat (List.length l) then list_item l 12 else Ok PNone) = Ok code ->
  py_hashable code = true ->
  exists r, format_awic_product E (PList l) index = Ok r
            /\ last r PNone = PStr (lookup_int_key mission_labels code "").
Proof.
  intros Hs Hc Hh. destruct (observation_datetime_first E l stamp Hs) as [first Hf].
  unfold format_awic_product. rewrite Hs. cbn [rbind]. rewrite Hc. cbn [rbind].
  unfold dict_get_int_key. rewrite Hh. cbn [rbind]. rewrite Hf. cbn [rbind].
  eexists. split; [reflexivity | apply record_last].
Qed.

Lemma code_at_12 (l : list pyval) (v : pyval) :
  nth_error l 12 = Some v ->
  (if 12 <? Z.of_nat (List.length l) then list_item l 12 else Ok PNone) = Ok v.
Proof.
  intros H. assert (Hlen : (12 < List.length l)%nat) by (apply nth_error_Some; congruence).
  destruct (Z.ltb_spec 12 (Z.of_nat (List.length l))); [| lia].
  unfold list_item. now rewrite H.
Qed.

(** C2, as the code has it.  When the date and time of a raw array are
    accepted: an element 0, 1 or 2 at index 12 gives the label of the table;
    a hashable element at index 12 that equals none of 0, 1 and 2 gives the
    empty label, and so does an array of fewer than 13 elements; none of
    these raises. *)
Theorem mission_label_lookup (E : env) (l : list pyval) (index : Z) (stamp : string) :
  observation_datetime E l = Ok stamp ->
  (forall k label,
      nth_error l 12 = Some (PInt k) -> In (k, label) mission_labels ->
      exists r, format_awic_product E (PList l) index = Ok r /\ last r PNone = PStr label)
  /\ (forall v,
         nth_error l 12 = Some v -> py_hashable v = true ->
         eq_int_key v 0 = false -> eq_int_key v 1 = false -> eq_int_key v 2 = false ->
         exists r, format_awic_product E (PList l) index = Ok r /\ last r PNone = PStr "")
  /\ ((List.length l < 13)%nat ->
      exists r, format_awic_product E (PList l) index = Ok r /\ last r PNone = PStr "").
Proof.
  intros Hs. repeat split.
  - intros k label Hk Hin.
    destruct (format_with_code E l index stamp (PInt k) Hs (code_at_12 _ _ Hk) eq_refl)
      as (r & Hr & Hlast).
    exists r. split; [exact Hr |]. rewrite Hlast. f_equal.
    cbn in Hin. destruct Hin as [Hin | [Hin | [Hin | []]]]; inversion Hin; reflexivity.
  - intros v Hv Hh H0 H1 H2.
    destruct (format_with_code E l index stamp v Hs (code_at_12 _ _ Hv) Hh)
      as (r & Hr & Hlast).
    exists r. split; [exact Hr |]. rewrite Hlast.
    cbn [lookup_int_key mission_labels]. now rewrite H0, H1, H2.
  - intros Hlen.
    assert (Hc : (if 12 <? Z.of_nat (List.length l) then list_item l 12 else Ok PNone)
                 = Ok PNone).
    { destruct (Z.ltb_spec 12 (Z.of_nat (List.length l))); [lia | reflexivity]. }
    destruct (format_with_code E l index stamp PNone Hs Hc eq_refl) as (r & Hr & Hlast).
    exists r. split; [exact Hr | exact Hlast].
Qed.

Lemma mission_label_lookup_witness :
  exists r, format_awic_product quiet_env (PList scenario_raw_int_time) 0 = Ok r
            /\ last r PNone = PStr "Sentinel-1".
Proof.
  destruct (mission_label_lookup quiet_env scenario_raw_int_time 0 "2025-01-15T09:30:00"
              eq_refl) as (W & _ & _).
  apply (W 1 "Sentinel-1"); [reflexivity | cbn; tauto].
Defined.

(** C2 as stated fails: JSON [true] at index 12 is not the integer 0, 1 or
    2, yet the label is "Sentinel-1" ([True == 1] in a dict lookup); and a
    JSON array at index 12 is unhashable, so the lookup raises TypeError. *)
Lemma mission_label_other_values :
  (exists r, format_awic_product quiet_env (PList (raw_with_code (PBool true))) 0 = Ok r
             /\ last r PNone = PStr "Sentinel-1")
  /\ format_awic_product quiet_env (PList (raw_with_code (PList []))) 0 = Raise TypeError.
Proof. split; [eexists; split; reflexivity | reflexivity]. Qed.

(** ** The scenario query (C3) *)

(** C3, as the code has it.  Only commas and blanks of the filter are
    rewritten, so the parentheses stay as they are in the observation query. *)
Theorem scenario_query_built (E : env) (w : world) :
  exists w',
    scenario_build E w = (Ok tt, w')
    /\ awic_http_request (self w') = Some scenario_query
    /\ py_contains
         "geometrywkt_wgs84=POINT(22.457940+49.367854)&startdate=2025-01-15&completiondate=2025-01-25"
         scenario_query = true.
Proof.
  exists (mk_world (mk_request (outputDir (self w)) (Some scenario_query)
                      (Some "https://wsi.land.copernicus.eu/awic/get_geometries?geometrywkt_wgs84=POINT(22.457940+49.367854)&output_srid=wgs84")
                      (awic_result_file (self w)))
                   (trace w)).
  split; [reflexivity | split; [reflexivity | vm_compute; reflexivity]].
Qed.

(** C3 as stated fails: the query holds no percent-encoded parenthesis. *)
Lemma scenario_query_not_percent_encoded :
  exists q,
    awic_http_request (self (snd (scenario_build quiet_env (mk_world fresh_request []))))
      = Some q
    /\ py_contains
         "geometrywkt_wgs84=POINT%2822.457940+49.367854%29&startdate=2025-01-15&completiondate=2025-01-25"
         q = false.
Proof. eexists. split; [reflexivity | vm_compute; reflexivity]. Qed.

(** ** The spatial filter is one of two (C5) *)

(** C5. With both filters, and with none, [build_request] logs an error and
    exits: it returns no query, and the object is left as it was, so neither
    the observation target nor the geometry target is set. *)
Theorem build_request_needs_one_filter (E : env)
    (startDate completionDate wgs84 laea : option string) (cloudCoverageMax : pyval)
    (w : world) :
  is_none wgs84 = is_none laea ->
  exists w' msg,
    build_request E startDate completionDate wgs84 laea cloudCoverageMax w
      = (Raise (SystemExit None), w')
    /\ self w' = self w
    /\ trace w' = trace w ++ [Log ERROR msg].
Proof.
  intros H. destruct wgs84 as [a |], laea as [b |]; try discriminate H;
    eexists; eexists; repeat split.
Qed.

Lemma build_request_needs_one_filter_witness :
  (exists w' msg,
      build_request quiet_env (Some "2025-01-15") (Some "2025-01-25")
        (Some "POINT(22.457940 49.367854)") (Some "POINT(5000000 3000000)") PNone
        (mk_world fresh_request [])
        = (Raise (SystemExit None), w')
      /\ self w' = fresh_request
      /\ trace w' = [] ++ [Log ERROR msg])
  /\ (exists w' msg,
         build_request quiet_env (Some "2025-01-15") (Some "2025-01-25") None None PNone
           (mk_world fresh_request [])
           = (Raise (SystemExit None), w')
         /\ self w' = fresh_request
         /\ trace w' = [] ++ [Log ERROR msg]).
Proof.
  split; apply build_request_needs_one_filter; reflexivity.
Defined.

(** ** The entry point checks its mode first (C10) *)

(** C10. An unknown return mode, and a CSV mode without an output directory,
    make [download_awic_products] raise ValueError with the trace untouched:
    no request was built, no HTTP call made and no file or directory
    touched. *)
Theorem download_rejects_bad_mode (E : env) (returnMode : string)
    (output_dir startDate completionDate wgs84 laea : option string)
    (cloudCoverageMax : pyval) (requestGeometries : bool) (t : list event) :
  ~ In returnMode valid_modes
  \/ ((returnMode = "csv" \/ returnMode = "csv_and_variable") /\ output_dir = None) ->
  download_awic_products E returnMode output_dir startDate completionDate wgs84 laea
    cloudCoverageMax requestGeometries t
  = (Raise ValueError, t).
Proof.
  intros H. unfold download_awic_products.
  destruct (mode_in valid_modes returnMode) eqn:Hin; cbn [negb]; [| reflexivity].
  destruct H as [Hnot | [Hcsv ->]].
  - exfalso. apply Hnot. unfold mode_in in Hin. apply existsb_exists in Hin.
    destruct Hin as (x & Hx & Heq). apply String.eqb_eq in Heq. now subst x.
  - destruct Hcsv as [-> | ->]; reflexivity.
Qed.

Lemma download_rejects_bad_mode_witness :
  download_awic_products quiet_env "json" (Some "out") None None (Some "POINT(1 2)") None
    PNone false []
  = (Raise ValueError, [])
  /\ download_awic_products quiet_env "csv" None None None (Some "POINT(1 2)") None
       PNone false []
     = (Raise ValueError, []).
Proof.
  split.
  - apply download_rejects_bad_mode. left. cbn. intuition discriminate.
  - apply download_rejects_bad_mode. right. split; [left |]; reflexivity.
Defined.

(** ** Encoding the filter text (C6) *)

Lemma replace_one_char (c : ascii) (new s : string) :
  py_replace (String c "") new s = subst_chars (swap_char c new) s.
Proof.
  unfold py_replace. induction s as [| x rest IH]; [reflexivity |].
  cbn [replace_from subst_chars starts_with String.length Nat.sub].
  unfold swap_char at 1. rewrite (Ascii.eqb_sym x c), andb_true_r.
  destruct (Ascii.eqb c x); now rewrite IH.
Qed.

Lemma subst_chars_app (f : ascii -> string) (a b : string) :
  subst_chars f (a ++ b) = (subst_chars f a ++ subst_chars f b)%string.
Proof.
  induction a as [| x a IH]; [reflexivity |].
  cbn [String.append subst_chars]. now rewrite IH, append_assoc.
Qed.

Lemma subst_chars_compose (f g : ascii -> string) (s : string) :
  subst_chars g (subst_chars f s) = subst_chars (fun c => subst_chars g (f c)) s.
Proof.
  induction s as [| x s IH]; [reflexivity |].
  cbn [subst_chars]. now rewrite subst_chars_app, IH.
Qed.

Lemma subst_chars_ext (f g : ascii -> string) (s : string) :
  (forall c, py_contains (String c "") s = true -> f c = g c) ->
  subst_chars f s = subst_chars g s.
Proof.
  induction s as [| x s IH]; intros H; [reflexivity |].
  cbn [subst_chars]. f_equal.
  - apply H. cbn [py_contains starts_with]. now rewrite Ascii.eqb_refl.
  - apply IH. intros c Hc. apply H. cbn [py_contains]. rewrite Hc. apply orb_true_r.
Qed.

(** The encoding rewrites commas and blanks, character by character, and
    nothing else. *)
Lemma encode_wkt_chars (s : string) : encode_wkt s = subst_chars encode_char s.
Proof.
  unfold encode_wkt. rewrite !replace_one_char, subst_chars_compose.
  apply subst_chars_ext. intros c _. unfold swap_char at 2, encode_char.
  destruct (Ascii.eqb_spec c ","%char) as [-> | Hc]; [reflexivity |].
  cbn [subst_chars]. now rewrite append_nil_r.
Qed.

Lemma contains_cons (needle : string) (x : ascii) (rest : string) :
  py_contains needle (String x rest) = false ->
  starts_with needle (String x rest) = false /\ py_contains needle rest = false.
Proof. cbn [py_contains]. apply orb_false_elim. Qed.

Lemma starts_C_comma (r : string) :
  starts_with "C" (subst_chars (swap_char "," "%2C") r) = starts_with "C" r.
Proof.
  destruct r as [| x r]; [reflexivity |]. cbn [subst_chars]. unfold swap_char.
  destruct (Ascii.eqb_spec x ","%char) as [-> | Hx]; [reflexivity |].
  cbn [String.append starts_with]. reflexivity.
Qed.

Lemma starts_2C_comma (r : string) :
  starts_with "2C" (subst_chars (swap_char "," "%2C") r) = starts_with "2C" r.
Proof.
  destruct r as [| x r]; [reflexivity |]. cbn [subst_chars]. unfold swap_char at 1.
  destruct (Ascii.eqb_spec x ","%char) as [-> | Hx]; [reflexivity |].
  cbn [String.append]. change (starts_with "2C" (String x ?t))
    with (Ascii.eqb "2" x && starts_with "C" t).
  now rewrite starts_C_comma.
Qed.

(** Undoing the comma rewriting, on a text that holds no "%2C" of its own. *)
Lemma restore_commas (s : string) :
  py_contains "%2C" s = false ->
  py_replace "%2C" "," (subst_chars (swap_char "," "%2C") s) = s.
Proof.
  unfold py_replace. induction s as [| x r IH]; intros H; [reflexivity |].
  apply contains_cons in H. destruct H as [Hpre Hrest].
  cbn [subst_chars]. unfold swap_char at 1.
  destruct (Ascii.eqb_spec x ","%char) as [-> | Hx].
  - cbn. f_equal. now apply IH.
  - cbn [String.append replace_from].
    assert (Hp : starts_with "%2C" (String x (subst_chars (swap_char "," "%2C") r)) = false).
    { change (starts_with "%2C" (String x ?t))
        with (Ascii.eqb "%" x && starts_with "2C" t).
      change (starts_with "%2C" (String x r))
        with (Ascii.eqb "%" x && starts_with "2C" r) in Hpre.
      now rewrite starts_2C_comma. }
    rewrite Hp. f_equal. now apply IH.
Qed.

(** Undoing the blank rewriting, on a text that holds no "+" of its own. *)
Lemma restore_blanks (s : string) :
  py_contains "+" s = false ->
  py_replace "+" " " (encode_wkt s) = subst_chars (swap_char "," "%2C") s.
Proof.
  intros H. rewrite encode_wkt_chars, replace_one_char, subst_chars_compose.
  apply subst_chars_ext. intros c Hc. unfold encode_char, swap_char at 2.
  destruct (Ascii.eqb_spec c ","%char) as [-> | Hcomma]; [reflexivity |].
  destruct (Ascii.eqb_spec c " "%char) as [-> | Hblank]; [reflexivity |].
  cbn [subst_chars]. rewrite append_nil_r. unfold swap_char.
  destruct (Ascii.eqb_spec c "+"%char) as [-> | _]; [congruence | reflexivity].
Qed.

(** C6, as the code has it.  For every filter, the encoding rewrites each
    comma to "%2C" and each blank to "+", character by character, and
    leaves every other character in place.  Decoding gives the filter back
    when the filter holds no "+" and no "%2C" of its own. *)
Theorem encode_wkt_round_trip (s : string) :
  encode_wkt s = subst_chars encode_char s
  /\ (py_contains "+" s = false ->
      py_contains "%2C" s = false ->
      decode_wkt (encode_wkt s) = s).
Proof.
  split; [apply encode_wkt_chars |].
  intros Hplus Hpct.
  unfold decode_wkt. rewrite restore_blanks by exact Hplus. now apply restore_commas.
Qed.

Lemma encode_wkt_round_trip_witness :
  encode_wkt "POLYGON((1 2,3 4,5 6,1 2))" = "POLYGON((1+2%2C3+4%2C5+6%2C1+2))"
  /\ decode_wkt (encode_wkt "POLYGON((1 2,3 4,5 6,1 2))") = "POLYGON((1 2,3 4,5 6,1 2))"
  /\ encode_wkt "POINT(+22.45 49.36)" = "POINT(+22.45+49.36)".
Proof.
  destruct (encode_wkt_round_trip "POLYGON((1 2,3 4,5 6,1 2))") as [W1 W2].
  split; [exact W1 |]. split; [exact (W2 eq_refl eq_refl) |].
  exact (proj1 (encode_wkt_round_trip "POINT(+22.45 49.36)")).
Defined.

(** C6 as stated fails: a signed coordinate is valid in a filter, and its
    "+" decodes to a blank, whichever replacement is undone first. *)
Lemma encode_wkt_plus_sign_lost :
  decode_wkt (encode_wkt "POINT(+22.45 49.36)") = "POINT( 22.45 49.36)"
  /\ decode_wkt_comma_first (encode_wkt "POINT(+22.45 49.36)") = "POINT( 22.45 49.36)"
  /\ decode_wkt (encode_wkt "POINT(+22.45 49.36)") <> "POINT(+22.45 49.36)".
Proof. repeat split. discriminate. Qed.

(** ** Failures of the two HTTP calls (C8) *)

Ltac run_monad :=
  unfold bind, log, emit, ret, raise, sys_exit, lift, get_self, add_event, traced_world;
  cbn [fst snd self trace].

Ltac same_trace :=
  cbn [self trace]; rewrite <- ?app_assoc; cbn [app]; reflexivity.

(** The observation call gives an empty list on a connection failure, on an
    error status and on a body that is not JSON. *)
Lemma request_page_degrades (E : env) (url : string) (w : world) :
  http_get E url = ConnectionFailed
  \/ (exists status body, http_get E url = Response status body
                          /\ raises_for_status status = true)
  \/ (exists status, http_get E url = Response status None) ->
  exists msg,
    request_page E url w
    = (Ok [], mk_world (self w) (trace w ++ observation_banner url ++ [Log ERROR msg])).
Proof.
  intros [H | [(status & body & H & Hs) | (status & H)]];
    unfold request_page; run_monad; rewrite H.
  - eexists. unfold observation_banner. same_trace.
  - rewrite Hs. run_monad. eexists. unfold observation_banner. same_trace.
  - destruct (raises_for_status status); run_monad; eexists;
      unfold observation_banner; same_trace.
Qed.

(** The geometry call exits with code 500 on a connection failure, on status
    414 and on a body that is not JSON. *)
Lemma request_geometry_exits (E : env) (url returnMode : string) (dir : option string)
    (w : world) :
  http_get E url = ConnectionFailed
  \/ (exists body, http_get E url = Response 414 body)
  \/ (exists status, http_get E url = Response status None) ->
  exists msg,
    request_geometry E url returnMode dir w
    = (Raise (SystemExit (Some 500)),
       mk_world (self w) (trace w ++ geometry_banner url ++ [Log ERROR msg])).
Proof.
  intros [H | [(body & H) | (status & H)]];
    unfold request_geometry; run_monad; rewrite H.
  - eexists. unfold geometry_banner. same_trace.
  - cbn [Z.eqb Pos.eqb]. run_monad. eexists. unfold geometry_banner. same_trace.
  - destruct (status =? 414); run_monad; eexists; unfold geometry_banner; same_trace.
Qed.

(** Whatever the status, 414 apart, a JSON array without geometries in
    answer to the geometry call is an empty result, not an error. *)
Lemma request_geometry_ignores_status (E : env) (url : string) (status : Z) (w : world) :
  http_get E url = Response status (Some (PList [])) ->
  status <> 414 ->
  request_geometry E url "variable" None w
  = (Ok [], mk_world (self w) (trace w ++ geometry_banner url)).
Proof.
  intros Hget Hstatus. unfold request_geometry. run_monad. rewrite Hget.
  destruct (Z.eqb_spec status 414) as [-> | _]; [contradiction |].
  run_monad. cbn. unfold geometry_banner. f_equal. same_trace.
Qed.

(** C8. The geometry call has no [raise_for_status]: on status 500 with a
    JSON array as body it returns the (empty) list of geometries, and the
    run goes on to the observation query and to its end.  The observation
    call with the same reply returns the empty list. *)
Theorem geometry_error_status_not_fatal :
  (forall w,
      request_geometry (service (Response 200 (Some one_observation))
                                (Response 500 (Some (PList []))))
        geometry_url_of_scenario "variable" None w
      = (Ok [], mk_world (self w)
                  ((trace w ++ [Log INFO ("Executing request for geometries: "
                                          ++ geometry_url_of_scenario)])
                   ++ [HttpGet geometry_url_of_scenario])))
  /\ fst (download_awic_products
            (service (Response 200 (Some one_observation)) (Response 500 (Some (PList []))))
            "variable" None (Some "2025-01-15") (Some "2025-01-25")
            (Some "POINT(22.457940 49.367854)") None PNone true [])
     = Ok (Some [], Some [PList scenario_record])
  /\ fst (download_awic_products
            (service (Response 500 (Some (PList []))) (Response 200 (Some (PList []))))
            "variable" None (Some "2025-01-15") (Some "2025-01-25")
            (Some "POINT(22.457940 49.367854)") None PNone true [])
     = Ok (Some [], Some []).
Proof. repeat split. Qed.

(** ** An error object in answer to the observation query (C9) *)

Section AddsOnly.
Variable P : event -> Prop.

Lemma extends_refl (w : world) : extends P w w.
Proof. split; [reflexivity |]. exists []. now rewrite app_nil_r. Qed.

Lemma extends_trans (w1 w2 w3 : world) :
  extends P w1 w2 -> extends P w2 w3 -> extends P w1 w3.
Proof.
  intros (Hs1 & n1 & Ht1 & Hf1) (Hs2 & n2 & Ht2 & Hf2). split; [congruence |].
  exists (n1 ++ n2). split; [now rewrite Ht2, Ht1, app_assoc | now apply Forall_app].
Qed.

Lemma adds_only_ret {A : Type} (a : A) : adds_only P (ret a).
Proof.
  intros w r w1 H. inversion H; subst. split; [apply extends_refl | discriminate].
Qed.

Lemma adds_only_lift {A : Type} (r0 : result A) : loud r0 -> adds_only P (lift r0).
Proof.
  intros Hl w r w1 H. inversion H; subst. split; [apply extends_refl | exact Hl].
Qed.

Lemma adds_only_exit {A : Type} (c : Z) :
  c mod 256 <> 0 -> adds_only P (@sys_exit world A (Some c)).
Proof.
  intros Hc w r w1 H. inversion H; subst. split; [apply extends_refl |].
  intros e He. inversion He; subst. exact Hc.
Qed.

Lemma adds_only_emit (e : event) : P e -> adds_only P (emit e).
Proof.
  intros He w r w1 H. inversion H; subst. split; [| discriminate].
  split; [reflexivity |]. exists [e]. split; [reflexivity | now constructor].
Qed.

Lemma adds_only_bind {A B : Type} (m : M world A) (k : A -> M world B) :
  adds_only P m -> (forall a, adds_only P (k a)) -> adds_only P (bind m k).
Proof.
  intros Hm Hk w r w1 H. unfold bind in H.
  destruct (m w) as [[a | e] w0] eqn:Em.
  - destruct (Hm _ _ _ Em) as [Hext _]. destruct (Hk a _ _ _ H) as [Hext' Hl].
    split; [eapply extends_trans; eassumption | exact Hl].
  - inversion H; subst. destruct (Hm _ _ _ Em) as [Hext Hl].
    split; [exact Hext |]. intros e' He'. inversion He'; subst. now apply Hl.
Qed.
End AddsOnly.

Lemma loud_py_iter (v : pyval) : loud (py_iter v).
Proof. intros e H. destruct v; inversion H; discriminate. Qed.

Lemma loud_py_get (item : pyval) (key : string) : loud (py_get item key).
Proof.
  intros e H. destruct item; cbn in H; try (inversion H; discriminate).
  destruct (dict_lookup d key); discriminate.
Qed.

Lemma loud_collect_geometries (items : list pyval) : loud (collect_geometries items).
Proof.
  induction items as [| item rest IH]; intros e H; [discriminate |].
  cbn [collect_geometries] in H.
  destruct (py_get item "j") as [geom | e0] eqn:Eg; cbn [rbind] in H.
  - destruct (collect_geometries rest) as [tl | e1]; cbn [rbind] in H; [discriminate |].
    inversion H; subst. now apply IH.
  - inversion H; subst. now apply (loud_py_get item "j").
Qed.

Lemma loud_csv_line (E : env) (p : pyval) : loud (csv_line E p).
Proof.
  intros e H. unfold csv_line in H.
  destruct (py_iter p) as [cells | e0] eqn:Ei; cbn [rbind] in H; [discriminate |].
  inversion H; subst. now apply (loud_py_iter p).
Qed.

Lemma adds_only_write_rows (P : event -> Prop) (E : env) (path : string)
    (rows : list pyval) :
  (forall text, P (WriteText path text)) ->
  adds_only P (write_rows E path rows).
Proof.
  intros HP. induction rows as [| p rest IH]; cbn [write_rows].
  - apply adds_only_ret.
  - apply adds_only_bind; [apply adds_only_lift, loud_csv_line | intros line].
    apply adds_only_bind; [apply adds_only_emit, HP | intros _; exact IH].
Qed.

Lemma adds_only_request_geometry (E : env) (url returnMode : string)
    (dir : option string) :
  adds_only (geometry_event dir) (request_geometry E url returnMode dir).
Proof.
  assert (Hlog : forall lv msg, geometry_event dir (Log lv msg)) by (intros ? ? p H; discriminate H).
  assert (Hget : forall u, geometry_event dir (HttpGet u)) by (intros ? p H; discriminate H).
  assert (Hexit : forall A c, c = 500 \/ c = 413 ->
                    adds_only (geometry_event dir) (@sys_exit world A (Some c))).
  { intros A c [-> | ->]; apply adds_only_exit; discriminate. }
  unfold request_geometry, log.
  apply adds_only_bind; [apply adds_only_emit, Hlog | intros _].
  apply adds_only_bind; [apply adds_only_emit, Hget | intros _].
  destruct (http_get E url) as [| status body].
  { apply adds_only_bind; [apply adds_only_emit, Hlog | intros _; apply Hexit; tauto]. }
  destruct (status =? 414).
  { apply adds_only_bind; [apply adds_only_emit, Hlog | intros _; apply Hexit; tauto]. }
  destruct body as [json_root |].
  2: { apply adds_only_bind; [apply adds_only_emit, Hlog | intros _; apply Hexit; tauto]. }
  destruct (is_error_object json_root).
  { apply adds_only_bind; [apply adds_only_emit, Hlog | intros _; apply Hexit; tauto]. }
  apply adds_only_bind; [apply adds_only_lift, loud_py_iter | intros items].
  apply adds_only_bind; [apply adds_only_lift, loud_collect_geometries | intros geometries].
  apply adds_only_bind; [| intros _; apply adds_only_ret].
  destruct (csv_mode returnMode); [| apply adds_only_ret].
  destruct (given_str dir) as [d |] eqn:Ed.
  2: { apply adds_only_bind; [apply adds_only_emit, Hlog | intros _; apply Hexit; tauto]. }
  assert (Hfile : forall ev, (ev = OpenW (path_join d "geometries.csv")
                              \/ exists text, ev = WriteText (path_join d "geometries.csv") text) ->
                             geometry_event dir ev).
  { intros ev Hev p Hp. exists d. split; [exact Ed |].
    destruct Hev as [-> | [text ->]]; cbn [touches] in Hp;
      apply String.eqb_eq in Hp; now subst. }
  apply adds_only_bind; [apply adds_only_emit, Hlog | intros _].
  destruct (open_ok E (path_join d "geometries.csv")).
  - apply adds_only_bind; [apply adds_only_emit, Hfile; now left | intros _].
    apply adds_only_bind; [apply adds_only_emit, Hfile; right; eauto | intros _].
    apply adds_only_write_rows. intros text. apply Hfile. right. eauto.
  - apply adds_only_bind; [apply adds_only_emit, Hlog | intros _; apply Hexit; tauto].
Qed.

(** The observation call iterates over the keys of the object; a key is a
    [str], which has no method [get]. *)
Lemma request_page_error_object (E : env) (url : string) (status : Z)
    (d : list (string * pyval)) (code : pyval) (w : world) :
  http_get E url = Response status (Some (PDict d)) ->
  raises_for_status status = false ->
  dict_lookup d "code" = Some code ->
  request_page E url w
  = (Raise AttributeError, mk_world (self w) (trace w ++ observation_banner url)).
Proof.
  intros Hget Hstatus Hcode. unfold request_page. run_monad.
  rewrite Hget, Hstatus. run_monad.
  destruct d as [| [k v] d]; [discriminate Hcode |].
  cbn [py_iter map fst format_items py_get rbind]. unfold observation_banner. f_equal.
  same_trace.
Qed.

Lemma append_cancel_l (p a b : string) : (p ++ a = p ++ b)%string -> a = b.
Proof.
  induction p as [| c p IH]; cbn [String.append]; intros H; [exact H |].
  inversion H. now apply IH.
Qed.

Lemma path_join_inj (dir a b : string) : path_join dir a = path_join dir b -> a = b.
Proof.
  unfold path_join. destruct (String.eqb dir ""); [trivial |].
  destruct (ends_with_slash dir); intros H.
  - now apply append_cancel_l in H.
  - apply append_cancel_l in H. now inversion H.
Qed.

Lemma geometry_event_other_file (ev : event) (dir name : string) :
  geometry_event (Some dir) ev ->
  name <> "geometries.csv" ->
  touches (path_join dir name) ev = false.
Proof.
  intros Hev Hname. destruct (touches (path_join dir name) ev) eqn:Ht; [| reflexivity].
  destruct (Hev _ Ht) as (d0 & Hd0 & Hp). cbn [given_str] in Hd0.
  destruct (String.eqb dir ""); [discriminate |]. inversion Hd0; subst d0.
  apply path_join_inj in Hp. contradiction.
Qed.

(** What does hold of such a run.  When the observation query is answered,
    with a success status, by a JSON object that holds the code "0100E",
    [execute_request] does not return: it raises an exception whose exit
    status is not 0, the AttributeError of the observation call unless the
    geometry call has already ended the run.  Nothing is written to
    awic.csv or AWIC_MTD.xml and the result file of the object is not
    set. *)
Theorem error_object_ends_run (E : env) (returnMode : string) (request_geometries : bool)
    (w : world) (awic_url geometry_url : string) (status : Z)
    (d : list (string * pyval)) :
  awic_http_request (self w) = Some awic_url ->
  geometry_http_request (self w) = Some geometry_url ->
  http_get E awic_url = Response status (Some (PDict d)) ->
  200 <= status < 300 ->
  dict_lookup d "code" = Some (PStr "0100E") ->
  exists e w',
    execute_request E returnMode request_geometries w = (Raise e, w')
    /\ exit_status e <> 0
    /\ (request_geometries = false -> e = AttributeError)
    /\ self w' = self w
    /\ exists new,
         trace w' = trace w ++ new
         /\ forall ev dir,
              In ev new -> outputDir (self w) = Some dir ->
              touches (path_join dir "awic.csv") ev = false
              /\ touches (path_join dir "AWIC_MTD.xml") ev = false.
Proof.
  intros Hawic Hgeo Hget Hstatus Hcode.
  assert (Hok : raises_for_status status = false).
  { unfold raises_for_status. destruct (Z.leb_spec 400 status); [lia | reflexivity]. }
  assert (Hpage : forall w0, request_page E awic_url w0
                    = (Raise AttributeError,
                       mk_world (self w0) (trace w0 ++ observation_banner awic_url)))
    by (intros w0; eapply request_page_error_object; eassumption).
  assert (Hbanner : forall ev p, In ev (observation_banner awic_url) -> touches p ev = false).
  { intros ev p [<- | [<- | []]]; reflexivity. }
  unfold execute_request. run_monad. rewrite Hawic, Hgeo.
  destruct request_geometries.
  - destruct (request_geometry E geometry_url returnMode (outputDir (self w)) w)
      as [[g | e] w1] eqn:Eg;
      destruct (adds_only_request_geometry _ _ _ _ _ _ _ Eg)
        as [(Hself & new & Htrace & Hnew) Hloud].
    + cbn [fst snd]. rewrite Hpage. exists AttributeError. eexists.
      split; [reflexivity |]. split; [discriminate |]. split; [reflexivity |].
      split; [exact Hself |]. exists (new ++ observation_banner awic_url).
      cbn [trace]. split; [now rewrite Htrace, app_assoc |].
      intros ev dir Hin Hdir. apply in_app_or in Hin. destruct Hin as [Hin | Hin].
      * rewrite Forall_forall in Hnew. specialize (Hnew ev Hin). rewrite Hdir in Hnew.
        split; apply geometry_event_other_file; trivial; discriminate.
      * split; now apply Hbanner.
    + exists e, w1. split; [reflexivity |]. split; [now apply Hloud |].
      split; [discriminate |]. split; [exact Hself |]. exists new.
      split; [exact Htrace |].
      intros ev dir Hin Hdir. rewrite Forall_forall in Hnew. specialize (Hnew ev Hin).
      rewrite Hdir in Hnew.
      split; apply geometry_event_other_file; trivial; discriminate.
  - rewrite Hpage. exists AttributeError. eexists.
    split; [reflexivity |]. split; [discriminate |]. split; [reflexivity |].
    split; [reflexivity |]. exists (observation_banner awic_url).
    split; [reflexivity |]. intros ev dir Hin _. split; now apply Hbanner.
Qed.

Lemma error_object_ends_run_witness :
  exists e w',
    execute_request (service error_reply (Response 200 (Some (PList [])))) "csv" false
      built_world = (Raise e, w')
    /\ exit_status e <> 0
    /\ (false = false -> e = AttributeError)
    /\ self w' = self built_world
    /\ exists new,
         trace w' = trace built_world ++ new
         /\ forall ev dir,
              In ev new -> outputDir (self built_world) = Some dir ->
              touches (path_join dir "awic.csv") ev = false
              /\ touches (path_join dir "AWIC_MTD.xml") ev = false.
Proof.
  apply (error_object_ends_run (service error_reply (Response 200 (Some (PList []))))
           "csv" false built_world scenario_query geometry_url_of_scenario 200
           [("code", PStr "0100E"); ("message", PStr "Request too large")]);
    [reflexivity | reflexivity | reflexivity | lia | reflexivity].
Defined.

(** C9. The observation call does not look at the code field.  Answered by
    the error object of the scenario, the run ends on the AttributeError
    that [item.get] raises on a key of the object: no error is logged, and
    the trace, the exception and the exit status (1) are those of a run
    answered by any other JSON object.  The geometry call does have the
    check: on the same reply it logs the error and exits with code 413. *)
Theorem observation_error_object_not_told_apart :
  observation_run error_reply
  = (Raise AttributeError,
     [PathExists "out"; Log WARNING "Existing directory out"]
     ++ observation_banner scenario_query)
  /\ observation_run plain_reply = observation_run error_reply
  /\ exit_status AttributeError = 1
  /\ request_geometry (service (Response 200 (Some (PList []))) error_reply)
       geometry_url_of_scenario "csv" (Some "out") built_world
     = (Raise (SystemExit (Some 413)),
        mk_world (self built_world)
          (geometry_banner geometry_url_of_scenario ++ [Log ERROR "API returned error"])).
Proof. repeat split. Qed.

(** ** Malformed dates (C7) *)

Lemma take_alt_inv (alt : list cls) :
  forall s t r, take_alt alt s = Some (t, r) -> s = (t ++ r)%string /\ alt_text alt t = true.
Proof.
  induction alt as [| k alt IH]; intros s t r H; cbn [take_alt] in H.
  - inversion H; subst. now split.
  - destruct s as [| c s]; [discriminate |].
    destruct (cls_accepts k c) eqn:Hk; [| discriminate].
    destruct (take_alt alt s) as [[t' r'] |] eqn:Ht; [| discriminate].
    inversion H; subst. destruct (IH _ _ _ Ht) as [-> Halt].
    split; [reflexivity |]. cbn [alt_text]. now rewrite Hk.
Qed.

Lemma try_alts_inv {A : Type} (alts : list (list cls)) (s : string)
    (k : string -> string -> option A) (a : A) :
  try_alts alts s k = Some a ->
  exists alt t r, In alt alts /\ s = (t ++ r)%string /\ alt_text alt t = true
                  /\ k t r = Some a.
Proof.
  induction alts as [| alt more IH]; cbn [try_alts]; intros H; [discriminate |].
  destruct (take_alt alt s) as [[t r] |] eqn:Ht.
  - destruct (k t r) as [a' |] eqn:Hk.
    + inversion H; subst. destruct (take_alt_inv _ _ _ _ Ht) as [Hs Halt].
      exists alt, t, r. repeat split; trivial. now left.
    + destruct (IH H) as (alt' & t' & r' & Hin & Hrest). exists alt', t', r'.
      split; [now right | exact Hrest].
  - destruct (IH H) as (alt' & t' & r' & Hin & Hrest). exists alt', t', r'.
    split; [now right | exact Hrest].
Qed.

Lemma match_items_dir_inv (d : directive) (tl : list fmt_item) (s : string)
    (g : list (directive * string)) (e : string) :
  match_items (FDir d :: tl) s = Some (g, e) ->
  exists alt t r g',
    In alt (alternatives d) /\ s = (t ++ r)%string /\ alt_text alt t = true
    /\ match_items tl r = Some (g', e) /\ g = (d, t) :: g'.
Proof.
  cbn [match_items]. intros H. apply try_alts_inv in H.
  destruct H as (alt & t & r & Hin & Hs & Halt & Hk).
  destruct (match_items tl r) as [[g' e'] |] eqn:Htl; [| discriminate].
  inversion Hk; subst. exists alt, t, r, g'. repeat split; auto.
Qed.

Lemma match_items_lit_inv (c : ascii) (tl : list fmt_item) (s : string)
    (g : list (directive * string)) (e : string) :
  match_items (FLit c :: tl) s = Some (g, e) ->
  exists c' r, s = String c' r /\ lit_eq c c' = true /\ match_items tl r = Some (g, e).
Proof.
  cbn [match_items]. destruct s as [| c' r]; [discriminate |].
  destruct (lit_eq c c') eqn:Hc; [| discriminate]. intros H. now exists c', r.
Qed.

Lemma range_is_digit (lo hi c : ascii) :
  cls_accepts (InRange lo hi) c = true ->
  (48 <=? N_of_ascii lo)%N = true -> (N_of_ascii hi <=? 57)%N = true ->
  is_digit c = true.
Proof.
  unfold cls_accepts, is_digit. intros H Hlo Hhi.
  apply andb_prop in H. destruct H as [H1 H2].
  apply N.leb_le in H1, H2, Hlo, Hhi.
  apply andb_true_intro. split; apply N.leb_le; lia.
Qed.

Lemma digit_not_dash (c : ascii) : is_digit c = true -> Ascii.eqb c "-" = false.
Proof.
  intros H. destruct (Ascii.eqb_spec c "-"%char) as [-> | _]; [discriminate H | reflexivity].
Qed.

Lemma lit_eq_dash (c : ascii) : lit_eq "-" c = true -> c = "-"%char.
Proof.
  destruct c as [[] [] [] [] [] [] [] []]; intros H; try discriminate H; reflexivity.
Qed.

Ltac open_text H t :=
  repeat (let c := fresh "c" in
          destruct t as [| c t]; cbn [alt_text] in H;
          try solve [discriminate H | rewrite ?andb_false_r in H; discriminate H]).

Ltac split_facts :=
  repeat match goal with
    | H : _ && _ = true |- _ => apply andb_prop in H; destruct H
    end.

Ltac char_facts :=
  repeat match goal with
    | H : cls_accepts AnyDigit ?c = true |- _ => change (is_digit c = true) in H
    | H : cls_accepts (Exactly ?x) ?c = true |- _ =>
        change (Ascii.eqb x c = true) in H; apply Ascii.eqb_eq in H; subst c
    | H : cls_accepts (InRange ?lo ?hi) ?c = true |- _ =>
        apply range_is_digit in H; [| reflexivity | reflexivity]
    end.

Lemma split_on_last (c : ascii) (a : string) : lacks c a = true -> split_on c a = [a].
Proof.
  induction a as [| x a IH]; cbn [lacks split_on]; intros H; [reflexivity |].
  apply andb_prop in H. destruct H as [Hx Ha]. apply negb_true_iff in Hx.
  now rewrite Hx, (IH Ha).
Qed.

Lemma split_on_app (c : ascii) (a r : string) :
  lacks c a = true ->
  split_on c (a ++ String c r) =
  match split_on c r with
  | h :: t => a :: h :: t
  | [] => [a]
  end.
Proof.
  induction a as [| x a IH]; cbn [lacks split_on String.append]; intros H.
  - rewrite Ascii.eqb_refl. now destruct (split_on c r).
  - apply andb_prop in H. destruct H as [Hx Ha]. apply negb_true_iff in Hx.
    rewrite Hx, (IH Ha). now destruct (split_on c r).
Qed.

Ltac digits_known :=
  repeat match goal with
    | H : is_digit ?c = true |- _ => rewrite ?H, ?(digit_not_dash c H); clear H
    end.

Ltac text_shape :=
  split_facts; char_facts;
  unfold short_number, blank_digit;
  cbn [String.length Nat.eqb all_digits lacks orb andb negb];
  digits_known; repeat split; reflexivity.

Lemma year_text_shape (t : string) :
  alt_text [AnyDigit; AnyDigit; AnyDigit; AnyDigit] t = true ->
  (String.length t =? 4)%nat = true /\ all_digits t = true /\ lacks "-" t = true.
Proof. intros H. open_text H t. text_shape. Qed.

Lemma month_text_shape (alt : list cls) (t : string) :
  In alt (alternatives Dm) -> alt_text alt t = true ->
  short_number t = true /\ lacks "-" t = true.
Proof.
  cbn [alternatives In]. intros [<- | [<- | [<- | []]]] H; open_text H t; text_shape.
Qed.

Lemma day_text_shape (alt : list cls) (t : string) :
  In alt (alternatives Dd) -> alt_text alt t = true ->
  short_number t || blank_digit t = true /\ lacks "-" t = true.
Proof.
  cbn [alternatives In].
  intros [<- | [<- | [<- | [<- | [<- | []]]]]] H; open_text H t; text_shape.
Qed.

(** A date the check accepts has the loose shape. *)
Lemma strptime_date_shape (s : string) (t : datetime) :
  strptime s "%Y-%m-%d" = Ok t -> loose_date s = true.
Proof.
  unfold strptime.
  change (parse_format "%Y-%m-%d")
    with (Some [FDir DY; FLit "-"; FDir Dm; FLit "-"; FDir Dd]).
  cbv beta iota.
  destruct (match_items [FDir DY; FLit "-"; FDir Dm; FLit "-"; FDir Dd] s)
    as [[g rest] |] eqn:Hm; [| intros H; discriminate H].
  destruct rest as [| ? ?]; cbn [String.eqb negb]; [| intros H; discriminate H].
  apply match_items_dir_inv in Hm.
  destruct Hm as (ay & ty & r1 & g1 & Hay & -> & Hty & Hm & ->).
  apply match_items_lit_inv in Hm. destruct Hm as (c1 & r2 & -> & Hc1 & Hm).
  apply lit_eq_dash in Hc1. subst c1.
  apply match_items_dir_inv in Hm.
  destruct Hm as (am & tm & r3 & g2 & Ham & -> & Htm & Hm & ->).
  apply match_items_lit_inv in Hm. destruct Hm as (c2 & r4 & -> & Hc2 & Hm).
  apply lit_eq_dash in Hc2. subst c2.
  apply match_items_dir_inv in Hm.
  destruct Hm as (ad & td & r5 & g3 & Had & -> & Htd & Hm & ->).
  cbn [match_items] in Hm. inversion Hm; subst g3 r5. clear Hm.
  cbn [group directive_eqb].
  destruct (datetime_ok _) eqn:Hok; [intros _ | intros H; discriminate H].
  cbn [alternatives In] in Hay. destruct Hay as [<- | []].
  destruct (year_text_shape ty Hty) as (Hy1 & Hy2 & Hy3).
  destruct (month_text_shape am tm Ham Htm) as (Hm1 & Hm2).
  destruct (day_text_shape ad td Had Htd) as (Hd1 & Hd2).
  rewrite append_nil_r. unfold loose_date.
  rewrite (split_on_app "-" ty) by exact Hy3.
  rewrite (split_on_app "-" tm) by exact Hm2.
  rewrite (split_on_last "-" td) by exact Hd2.
  now rewrite Hy1, Hy2, Hm1, Hd1, Hok.
Qed.

Lemma validate_Rfc3339_cases (s : string) :
  validate_Rfc3339 s = Ok s \/ validate_Rfc3339 s = Raise ValueError.
Proof.
  unfold validate_Rfc3339. destruct (strptime s "%Y-%m-%d"); cbn; tauto.
Qed.

Lemma validate_Rfc3339_rejects (s : string) :
  loose_date s = false -> validate_Rfc3339 s = Raise ValueError.
Proof.
  intros H. unfold validate_Rfc3339.
  destruct (strptime s "%Y-%m-%d") as [t | e] eqn:Hp; [| reflexivity].
  apply strptime_date_shape in Hp. congruence.
Qed.

Lemma given_str_some (s : string) : s <> "" -> given_str (Some s) = Some s.
Proof.
  intros H. cbn [given_str]. destruct (String.eqb_spec s ""); [contradiction | reflexivity].
Qed.

(** C7, as the code has it.  A date that is given (not empty), is made of
    ASCII characters and is not of the loose shape - four digits, a dash, a
    month of one or two digits, a dash, a day of one or two digits, naming
    a day of the calendar - stops [build_request]: with one spatial filter
    it raises ValueError, otherwise it has already exited; the object is
    left as it was, so no request target holds the date.  (Beyond ASCII the
    date check also takes the decimal digits of other scripts.) *)
Theorem malformed_date_stops_build (E : env)
    (startDate completionDate wgs84 laea : option string) (cloudCoverageMax : pyval)
    (w : world) (s : string) :
  s <> "" ->
  ascii_text s = true ->
  startDate = Some s \/ completionDate = Some s ->
  loose_date s = false ->
  exists e w',
    build_request E startDate completionDate wgs84 laea cloudCoverageMax w = (Raise e, w')
    /\ self w' = self w
    /\ (is_none wgs84 <> is_none laea -> e = ValueError /\ trace w' = trace w).
Proof.
  intros Hne _ Hwhich Hbad.
  pose proof (validate_Rfc3339_rejects s Hbad) as Hrej.
  unfold build_request.
  destruct wgs84 as [a |], laea as [b |].
  - eexists. eexists. split; [reflexivity |]. split; [reflexivity |]. intros H. now elim H.
  - unfold bind, ret, lift. cbn [fst snd].
    destruct Hwhich as [-> | ->]; rewrite (given_str_some s Hne).
    + rewrite Hrej. eexists. eexists. repeat split.
    + destruct (given_str startDate) as [s0 |].
      * destruct (validate_Rfc3339_cases s0) as [-> | ->]; [rewrite Hrej |];
          eexists; eexists; repeat split.
      * rewrite Hrej. eexists. eexists. repeat split.
  - unfold bind, ret, lift. cbn [fst snd].
    destruct Hwhich as [-> | ->]; rewrite (given_str_some s Hne).
    + rewrite Hrej. eexists. eexists. repeat split.
    + destruct (given_str startDate) as [s0 |].
      * destruct (validate_Rfc3339_cases s0) as [-> | ->]; [rewrite Hrej |];
          eexists; eexists; repeat split.
      * rewrite Hrej. eexists. eexists. repeat split.
  - eexists. eexists. split; [reflexivity |]. split; [reflexivity |]. intros H. now elim H.
Qed.

Lemma malformed_date_stops_build_witness :
  exists e w',
    build_request quiet_env (Some "15/01/2025") (Some "2025-01-25")
      (Some "POINT(22.457940 49.367854)") None PNone (mk_world fresh_request [])
      = (Raise e, w')
    /\ self w' = fresh_request
    /\ (is_none (Some "POINT(22.457940 49.367854)") <> is_none (@None string) ->
        e = ValueError /\ trace w' = []).
Proof.
  apply (malformed_date_stops_build quiet_env (Some "15/01/2025") (Some "2025-01-25")
           (Some "POINT(22.457940 49.367854)") None PNone (mk_world fresh_request [])
           "15/01/2025");
    [discriminate | reflexivity | left; reflexivity | vm_compute; reflexivity].
Defined.

(** C7 as stated fails.  An empty start date is skipped by [if startDate:],
    and the date check takes a month and a day of one digit: in both cases
    the request targets are built. *)
Lemma unchecked_dates_build :
  (fst (build_with_start "") = Ok tt
   /\ awic_http_request (self (snd (build_with_start "")))
      = Some "https://wsi.land.copernicus.eu/awic/get_awic?geometrywkt_wgs84=POINT(1+2)&completiondate=2025-01-25")
  /\ (fst (build_with_start "2025-1-5") = Ok tt
      /\ awic_http_request (self (snd (build_with_start "2025-1-5")))
         = Some "https://wsi.land.copernicus.eu/awic/get_awic?geometrywkt_wgs84=POINT(1+2)&startdate=2025-1-5&completiondate=2025-01-25").
Proof. repeat split. Qed.

(** * More of the code *)

(** ** The shape of a formatted record *)

Lemma format_awic_product_inv (E : env) (l : list pyval) (index : Z) (r : list pyval) :
  format_awic_product E (PList l) index = Ok r ->
  exists stamp code first,
    observation_datetime E l = Ok stamp
    /\ (if 12 <? Z.of_nat (List.length l) then list_item l 12 else Ok PNone) = Ok code
    /\ py_hashable code = true
    /\ nth_error l 0 = Some first
    /\ r = [PInt (index + 1); first; PStr stamp] ++ list_slice l 3 12
           ++ [PStr (lookup_int_key mission_labels code "")].
Proof.
  unfold format_awic_product. intros H.
  destruct (observation_datetime E l) as [stamp | e]; cbn [rbind] in H; [| discriminate].
  destruct (if 12 <? Z.of_nat (List.length l) then list_item l 12 else Ok PNone)
    as [code | e]; cbn [rbind] in H; [| discriminate].
  unfold dict_get_int_key in H.
  destruct (py_hashable code) eqn:Hh; cbn [rbind] in H; [| discriminate].
  unfold list_item in H.
  destruct (nth_error l 0) as [first |] eqn:Hf; cbn [rbind] in H; [| discriminate].
  inversion H; subst. exists stamp, code, first. repeat split; trivial.
Qed.

Lemma observation_datetime_length (E : env) (l : list pyval) (stamp : string) :
  observation_datetime E l = Ok stamp -> (3 <= List.length l)%nat.
Proof.
  unfold observation_datetime, list_item. intros H.
  destruct (nth_error l 2) as [t |] eqn:Ht; [| discriminate H].
  assert (2 < List.length l)%nat by (apply nth_error_Some; congruence). lia.
Qed.

Lemma lookup_label_cases (code : pyval) :
  In (lookup_int_key mission_labels code "")
     [""; "Sentinel-1 Sentinel-2"; "Sentinel-1"; "Sentinel-2"].
Proof.
  cbn [lookup_int_key mission_labels].
  destruct (eq_int_key code 0); [cbn; tauto |].
  destruct (eq_int_key code 1); [cbn; tauto |].
  destruct (eq_int_key code 2); cbn; tauto.
Qed.

(** X1. A record built from a raw array [l] has one field more than the
    first twelve elements of [l]: thirteen fields exactly when [l] has at
    least twelve elements.  Its first field is the index plus one, its
    second the first element of [l], the fields at positions 3 to 11 are
    the elements of [l] at the same positions, and the last field is one of
    the four mission labels. *)
Theorem record_shape (E : env) (l : list pyval) (index : Z) (r : list pyval) :
  format_awic_product E (PList l) index = Ok r ->
  List.length r = (Nat.min (List.length l) 12 + 1)%nat
  /\ nth_error r 0 = Some (PInt (index + 1))
  /\ nth_error r 1 = nth_error l 0
  /\ (forall k, (3 <= k < 12)%nat -> (k < List.length l)%nat ->
                nth_error r k = nth_error l k)
  /\ exists label,
       last r PNone = PStr label
       /\ In label [""; "Sentinel-1 Sentinel-2"; "Sentinel-1"; "Sentinel-2"].
Proof.
  intros H. apply format_awic_product_inv in H.
  destruct H as (stamp & code & first & Hs & Hc & Hh & Hf & ->).
  pose proof (observation_datetime_length E l stamp Hs) as Hlen.
  assert (Hslice : List.length (list_slice l 3 12) = (Nat.min (List.length l) 12 - 3)%nat).
  { unfold list_slice. rewrite length_firstn, length_skipn. lia. }
  repeat split.
  - rewrite !length_app, Hslice. cbn [List.length]. lia.
  - now rewrite Hf.
  - intros k Hk Hkl.
    change ([PInt (index + 1); first; PStr stamp] ++ list_slice l 3 12 ++ [PStr _])
      with ([PInt (index + 1); first; PStr stamp] ++
            (list_slice l 3 12 ++ [PStr (lookup_int_key mission_labels code "")])).
    rewrite nth_error_app2 by (cbn; lia). cbn [List.length].
    rewrite nth_error_app1 by (rewrite Hslice; lia).
    unfold list_slice. rewrite nth_error_firstn, nth_error_skipn.
    destruct (Nat.ltb_spec (k - 3) (12 - 3)); [| lia].
    f_equal. lia.
  - exists (lookup_int_key mission_labels code ""). split;
      [apply record_last | apply lookup_label_cases].
Qed.

Lemma record_shape_witness :
  List.length scenario_record = (Nat.min (List.length scenario_raw_int_time) 12 + 1)%nat
  /\ nth_error scenario_record 0 = Some (PInt (0 + 1))
  /\ nth_error scenario_record 1 = nth_error scenario_raw_int_time 0
  /\ (forall k, (3 <= k < 12)%nat -> (k < List.length scenario_raw_int_time)%nat ->
                nth_error scenario_record k = nth_error scenario_raw_int_time k)
  /\ exists label,
       last scenario_record PNone = PStr label
       /\ In label [""; "Sentinel-1 Sentinel-2"; "Sentinel-1"; "Sentinel-2"].
Proof.
  exact (record_shape quiet_env scenario_raw_int_time 0 scenario_record eq_refl).
Defined.

(** X2. A raw array with fewer than three elements, or whose time field is
    text or a float, raises ValueError; a time field that is null, an array
    or an object raises TypeError, which the except clause of the date and
    time block does not convert. *)
Theorem time_field_errors (E : env) (l : list pyval) (index : Z) :
  ((List.length l < 3)%nat -> format_awic_product E (PList l) index = Raise ValueError)
  /\ (forall t,
         nth_error l 2 = Some t ->
         match t with
         | PStr _ | PFloat _ => format_awic_product E (PList l) index = Raise ValueError
         | PNone | PList _ | PDict _ =>
             format_awic_product E (PList l) index = Raise TypeError
         | PInt _ | PBool _ => True
         end).
Proof.
  split.
  - intros Hlen. unfold format_awic_product, observation_datetime, list_item.
    assert (Hn : nth_error l 2 = None) by (apply nth_error_None; lia).
    now rewrite Hn.
  - intros t Ht. unfold format_awic_product, observation_datetime, list_item.
    rewrite Ht. destruct t; cbn [rbind format_time_field except_value_index]; trivial.
Qed.

(** ** Which times of day are accepted *)

Lemma app_suffix (a : string) :
  forall a' b b' : string,
    (a ++ b = a' ++ b')%string -> (String.length b' <= String.length b)%nat ->
    exists p, b = (p ++ b')%string /\ a' = (a ++ p)%string.
Proof.
  induction a as [| x a IH]; intros a' b b' H Hlen; cbn [String.append] in H.
  - exists a'. now split.
  - destruct a' as [| y a']; cbn [String.append] in H.
    + exfalso. subst b'. cbn [String.length] in Hlen. rewrite length_append in Hlen. lia.
    + inversion H; subst y. destruct (IH a' b b' H2 Hlen) as (p & Hb & Ha).
      exists p. split; [exact Hb |]. cbn [String.append]. now rewrite Ha.
Qed.

Lemma last_char_of (b : string) :
  forall (a p : string) (c : ascii),
    (a ++ String c "" = b ++ p)%string -> p <> "" ->
    exists p', p = (p' ++ String c "")%string.
Proof.
  induction b as [| x b IH]; intros a p c H Hp; cbn [String.append] in H.
  - exists a. now symmetry.
  - destruct a as [| y a]; cbn [String.append] in H.
    + inversion H as [[Hc Hrest]]. destruct b; [| discriminate Hrest].
      cbn [String.append] in Hrest. now subst p.
    + inversion H. now apply (IH a p c).
Qed.

Lemma lacks_app (c : ascii) (a b : string) :
  lacks c (a ++ b) = lacks c a && lacks c b.
Proof.
  induction a as [| x a IH]; [reflexivity |].
  cbn [String.append lacks]. now rewrite IH, andb_assoc.
Qed.

Lemma all_digits_app (a b : string) :
  all_digits (a ++ b) = all_digits a && all_digits b.
Proof.
  induction a as [| x a IH]; [reflexivity |].
  cbn [String.append all_digits]. now rewrite IH, andb_assoc.
Qed.

Lemma all_digits_lacks (c : ascii) (s : string) :
  is_digit c = false -> all_digits s = true -> lacks c s = true.
Proof.
  intros Hc. induction s as [| x s IH]; [reflexivity |].
  cbn [all_digits lacks]. intros H. apply andb_prop in H. destruct H as [Hx Hs].
  rewrite (IH Hs), andb_true_r. apply negb_true_iff.
  destruct (Ascii.eqb_spec x c) as [-> | _]; [congruence | reflexivity].
Qed.

Lemma all_digits_zeros (n : nat) : all_digits (zeros n) = true.
Proof. induction n as [| n IH]; [reflexivity |]. cbn [zeros all_digits]. now rewrite IH. Qed.

Lemma all_digits_digits_fixed (w : nat) :
  forall n, 0 <= n -> all_digits (digits_fixed w n) = true.
Proof.
  induction w as [| w IH]; intros n Hn; [reflexivity |].
  cbn [digits_fixed]. rewrite all_digits_app, IH by (apply Z.div_pos; lia).
  cbn [all_digits]. rewrite is_digit_digit_char; [reflexivity |].
  cbn. apply Z.mod_pos_bound. lia.
Qed.

Lemma all_digits_str_nonneg (w : nat) :
  forall n, 0 <= n < 10 ^ Z.of_nat w -> all_digits (str_nonneg n) = true.
Proof.
  induction w as [| w IH]; intros n Hn.
  - cbn in Hn. now replace n with 0 by lia.
  - destruct (Z_lt_ge_dec n 10) as [Hs | Hl].
    + rewrite str_nonneg_small by lia. cbn [all_digits].
      rewrite is_digit_digit_char; [reflexivity | cbn; lia].
    + rewrite str_nonneg_step by lia.
      rewrite Nat2Z.inj_succ, Z.pow_succ_r in Hn by lia.
      rewrite all_digits_app, IH.
      * cbn [all_digits]. rewrite is_digit_digit_char; [reflexivity |].
        cbn. apply Z.mod_pos_bound. lia.
      * split; [apply Z.div_pos; lia | apply Z.div_lt_upper_bound; lia].
Qed.

Lemma all_digits_str (n : Z) : 0 <= n -> all_digits (str_nonneg n) = true.
Proof.
  intros Hn. apply (all_digits_str_nonneg (Z.to_nat n)).
  split; [exact Hn |].
  rewrite Z2Nat.id by exact Hn.
  apply Z.pow_gt_lin_r; lia.
Qed.

Lemma length_zeros (n : nat) : String.length (zeros n) = n.
Proof. induction n as [| n IH]; [reflexivity |]. cbn. now rewrite IH. Qed.

Lemma length_zero_pad (w : nat) (s : string) : (w <= String.length (zero_pad w s))%nat.
Proof. unfold zero_pad. rewrite length_append, length_zeros. lia. Qed.

Lemma lit_eq_T (c : ascii) : lit_eq "T" c = true -> c = "T"%char \/ c = "t"%char.
Proof.
  destruct c as [[] [] [] [] [] [] [] []]; intros H; try discriminate H; tauto.
Qed.

Ltac digit_text_shape :=
  split_facts; char_facts;
  cbn [String.length all_digits andb];
  repeat match goal with
    | H : is_digit ?c = true |- _ => rewrite ?H; clear H
    end;
  split; [reflexivity | lia].

Lemma hour_text_shape (alt : list cls) (t : string) :
  In alt (alternatives DH) -> alt_text alt t = true ->
  all_digits t = true /\ (1 <= String.length t <= 2)%nat.
Proof.
  cbn [alternatives In]. intros [<- | [<- | [<- | []]]] H; open_text H t; digit_text_shape.
Qed.

Lemma minute_text_shape (alt : list cls) (t : string) :
  In alt (alternatives DM) -> alt_text alt t = true ->
  all_digits t = true /\ (1 <= String.length t <= 2)%nat.
Proof.
  cbn [alternatives In]. intros [<- | [<- | []]] H; open_text H t; digit_text_shape.
Qed.

Lemma second_text_shape (alt : list cls) (t : string) :
  In alt (alternatives DS) -> alt_text alt t = true ->
  all_digits t = true /\ (1 <= String.length t <= 2)%nat.
Proof.
  cbn [alternatives In]. intros [<- | [<- | [<- | []]]] H; open_text H t; digit_text_shape.
Qed.

(** What a text accepted by the observation format is made of. *)
Lemma strptime_observation_inv (s : string) (dt : datetime) :
  strptime s "%Y%m%dT%H%M%S" = Ok dt ->
  exists date c th tm ts,
    s = ((date ++ String c "") ++ (th ++ tm ++ ts))%string
    /\ lit_eq "T" c = true
    /\ all_digits th = true /\ all_digits tm = true /\ all_digits ts = true
    /\ (1 <= String.length th <= 2)%nat
    /\ (1 <= String.length tm <= 2)%nat
    /\ (1 <= String.length ts <= 2)%nat
    /\ hour dt = int_of_text th /\ minute dt = int_of_text tm /\ second dt = int_of_text ts
    /\ datetime_ok dt = true.
Proof.
  unfold strptime. rewrite parse_observation_format. unfold observation_items.
  destruct (match_items [FDir DY; FDir Dm; FDir Dd; FLit "T"; FDir DH; FDir DM; FDir DS] s)
    as [[g rest] |] eqn:Hm; [| intros H; discriminate H].
  destruct rest as [| ? ?]; cbn [String.eqb negb]; [| intros H; discriminate H].
  apply match_items_dir_inv in Hm.
  destruct Hm as (ay & ty & r1 & g1 & Hay & -> & Hty & Hm & ->).
  apply match_items_dir_inv in Hm.
  destruct Hm as (amo & tmo & r2 & g2 & Hamo & -> & Htmo & Hm & ->).
  apply match_items_dir_inv in Hm.
  destruct Hm as (ad & td & r3 & g3 & Had & -> & Htd & Hm & ->).
  apply match_items_lit_inv in Hm. destruct Hm as (c & r4 & -> & Hc & Hm).
  apply match_items_dir_inv in Hm.
  destruct Hm as (ah & th & r5 & g5 & Hah & -> & Hth & Hm & ->).
  apply match_items_dir_inv in Hm.
  destruct Hm as (ami & tm & r6 & g6 & Hami & -> & Htm & Hm & ->).
  apply match_items_dir_inv in Hm.
  destruct Hm as (asec & ts & r7 & g7 & Hasec & -> & Hts & Hm & ->).
  cbn [match_items] in Hm. inversion Hm; subst g7 r7. clear Hm.
  cbn [group directive_eqb].
  destruct (datetime_ok _) eqn:Hok; [| intros H; discriminate H].
  intros H. inversion H; subst dt. clear H.
  destruct (hour_text_shape _ _ Hah Hth) as [Hh1 Hh2].
  destruct (minute_text_shape _ _ Hami Htm) as [Hm1 Hm2].
  destruct (second_text_shape _ _ Hasec Hts) as [Hs1 Hs2].
  exists (ty ++ tmo ++ td)%string, c, th, tm, ts.
  split; [now rewrite append_nil_r, !append_assoc |].
  cbn [hour minute second]. repeat split; trivial; lia.
Qed.

Lemma format_06d_no_T (z : Z) (c : ascii) :
  c = "T"%char \/ c = "t"%char -> lacks c (format_06d z) = true.
Proof.
  intros Hc. assert (Hd : is_digit c = false) by (destruct Hc; subst c; reflexivity).
  unfold format_06d, zero_pad. destruct (Z.ltb_spec z 0).
  - cbn [lacks]. rewrite all_digits_lacks; trivial.
    + rewrite andb_true_r. destruct Hc; subst c; reflexivity.
    + now rewrite all_digits_app, all_digits_zeros, all_digits_str by lia.
  - apply all_digits_lacks; trivial.
    now rewrite all_digits_app, all_digits_zeros, all_digits_str.
Qed.

Lemma format_06d_length (z : Z) : (6 <= String.length (format_06d z))%nat.
Proof.
  unfold format_06d. destruct (z <? 0).
  - cbn [String.length]. pose proof (length_zero_pad 5 (str_nonneg (- z))). lia.
  - apply length_zero_pad.
Qed.

Lemma observation_datetime_inv (E : env) (l : list pyval) (stamp : string) :
  observation_datetime E l = Ok stamp ->
  exists t time_str d dt,
    nth_error l 2 = Some t /\ format_time_field t = Ok time_str
    /\ nth_error l 1 = Some d
    /\ strptime (py_str E d ++ "T" ++ time_str) "%Y%m%dT%H%M%S" = Ok dt
    /\ stamp = strftime dt "%Y-%m-%dT%H:%M:%S".
Proof.
  unfold observation_datetime, list_item. intros H.
  destruct (nth_error l 2) as [t |]; [| discriminate H]. cbn [rbind] in H.
  destruct (format_time_field t) as [time_str | e] eqn:Hf; cbn [rbind] in H;
    [| destruct e; discriminate H].
  destruct (nth_error l 1) as [d |]; [| discriminate H]. cbn [rbind] in H.
  destruct (strptime (py_str E d ++ "T" ++ time_str) "%Y%m%dT%H%M%S") as [dt | e] eqn:Hp;
    cbn [rbind except_value_index] in H; [| destruct e; discriminate H].
  inversion H; subst stamp. exists t, time_str, d, dt. repeat split; trivial.
Qed.

(** X3. An integer time of day is accepted only when it reads HHMMSS: if the
    date and time block succeeds on an array whose time field is the integer
    [z], then [z] is [H * 10000 + M * 100 + S] for an hour [H] up to 23, a
    minute [M] and a second [S] up to 59, and these are the hour, minute and
    second of the timestamp the block formats. *)
Theorem accepted_time_reads_hhmmss (E : env) (l : list pyval) (stamp : string) (z : Z) :
  observation_datetime E l = Ok stamp ->
  nth_error l 2 = Some (PInt z) ->
  exists dt,
    stamp = strftime dt "%Y-%m-%dT%H:%M:%S"
    /\ z = time_value (hour dt) (minute dt) (second dt)
    /\ 0 <= hour dt <= 23 /\ 0 <= minute dt <= 59 /\ 0 <= second dt <= 59.
Proof.
  intros Hobs Hz. apply observation_datetime_inv in Hobs.
  destruct Hobs as (t & time_str & d & dt & Ht & Hf & Hd & Hp & ->).
  rewrite Hz in Ht. inversion Ht; subst t. cbn [format_time_field] in Hf.
  inversion Hf; subst time_str. clear Ht Hf.
  exists dt. split; [reflexivity |].
  apply strptime_observation_inv in Hp.
  destruct Hp as (date & c & th & tm & ts & Hs & Hc & Hh & Hm & Hsec & Lh & Lm & Ls
                  & Eh & Em & Es & Hok).
  apply lit_eq_T in Hc.
  change (py_str E d ++ "T" ++ format_06d z)%string
    with (py_str E d ++ (String "T" "" ++ format_06d z))%string in Hs.
  rewrite <- append_assoc in Hs.
  pose proof (format_06d_length z) as Hlen.
  destruct (app_suffix _ _ _ _ Hs) as (p & Hfmt & Hdate).
  { rewrite !length_append. lia. }
  assert (Hp : p = "").
  { destruct p as [| x p]; [reflexivity |]. exfalso.
    destruct (last_char_of _ _ _ _ Hdate) as (p' & Hp'); [discriminate |].
    pose proof (format_06d_no_T z c Hc) as Hno.
    rewrite Hfmt, Hp', !lacks_app in Hno. cbn [lacks] in Hno.
    rewrite Ascii.eqb_refl in Hno. cbn in Hno.
    rewrite andb_false_r in Hno. discriminate Hno. }
  subst p. cbn [String.append] in Hfmt.
  assert (Hall : all_digits (format_06d z) = true)
    by (now rewrite Hfmt, !all_digits_app, Hh, Hm, Hsec).
  unfold format_06d in Hall, Hfmt, Hlen.
  destruct (Z.ltb_spec z 0) as [Hneg | Hpos]; [discriminate Hall |].
  assert (Hval : int_of_text (th ++ tm ++ ts) = z).
  { rewrite <- Hfmt. unfold zero_pad. now rewrite int_of_text_zeros, int_of_text_str. }
  rewrite Hfmt, !length_append in Hlen.
  destruct th as [| h1 [| h2 [| ? ?]]]; cbn [String.length] in Lh, Hlen; try lia.
  destruct tm as [| m1 [| m2 [| ? ?]]]; cbn [String.length] in Lm, Hlen; try lia.
  destruct ts as [| s1 [| s2 [| ? ?]]]; cbn [String.length] in Ls, Hlen; try lia.
  cbn [all_digits] in Hh, Hm, Hsec. split_facts.
  unfold datetime_ok in Hok. split_facts.
  repeat match goal with
    | H : (_ <=? _) = true |- _ => apply Z.leb_le in H
    end.
  unfold int_of_text in *. cbn [String.append int_of_text_acc] in *.
  repeat match goal with
    | H : is_digit ?c = true |- _ => rewrite ?H in *; clear H
    end.
  unfold time_value. lia.
Qed.

Lemma accepted_time_reads_hhmmss_witness :
  exists dt,
    "2025-01-15T09:30:00" = strftime dt "%Y-%m-%dT%H:%M:%S"
    /\ 93000 = time_value (hour dt) (minute dt) (second dt)
    /\ 0 <= hour dt <= 23 /\ 0 <= minute dt <= 59 /\ 0 <= second dt <= 59.
Proof.
  exact (accepted_time_reads_hhmmss quiet_env scenario_raw_int_time "2025-01-15T09:30:00"
           93000 eq_refl eq_refl).
Defined.

(** ** Which dates the date check accepts *)

Lemma parse_date_format :
  parse_format "%Y-%m-%d" = Some [FDir DY; FLit "-"; FDir Dm; FLit "-"; FDir Dd].
Proof. reflexivity. Qed.

(** X4. Every day of the calendar, years 1 to 9999, written YYYY-MM-DD with
    leading zeros, passes the date check, which returns the text as it
    was given. *)
Theorem validate_Rfc3339_accepts_calendar_dates (y m d : Z) :
  1 <= y <= 9999 -> 1 <= m <= 12 -> 1 <= d <= days_in_month y m ->
  validate_Rfc3339 (four y ++ "-" ++ two m ++ "-" ++ two d)
  = Ok (four y ++ "-" ++ two m ++ "-" ++ two d)%string.
Proof.
  intros Hy Hm Hd. pose proof (days_in_month_le_31 y m) as H31.
  assert (Hmatch : match_items [FDir DY; FLit "-"; FDir Dm; FLit "-"; FDir Dd]
                     (four y ++ "-" ++ two m ++ "-" ++ two d)
                   = Some ([(DY, four y); (Dm, two m); (Dd, two d)], "")).
  { apply match_items_dir; [apply takes_year; lia |].
    change ("-" ++ two m ++ "-" ++ two d)%string with (String "-" (two m ++ "-" ++ two d)).
    apply match_items_lit; [reflexivity |].
    apply match_items_dir; [apply takes_month; lia |].
    change ("-" ++ two d)%string with (String "-" (two d)).
    apply match_items_lit; [reflexivity |].
    rewrite <- (append_nil_r (two d)) at 1.
    apply match_items_dir; [apply takes_day; lia | reflexivity]. }
  unfold validate_Rfc3339, strptime. rewrite parse_date_format, Hmatch.
  cbn [String.eqb negb group directive_eqb].
  rewrite int_of_text_four, !int_of_text_two by lia.
  assert (Hok : datetime_ok (mk_datetime y m d 0 0 0) = true).
  { apply datetime_ok_valid. repeat split; lia. }
  now rewrite Hok.
Qed.

Lemma validate_Rfc3339_accepts_calendar_dates_witness :
  validate_Rfc3339 "2024-02-29" = Ok "2024-02-29".
Proof.
  apply (validate_Rfc3339_accepts_calendar_dates 2024 2 29); [lia | lia |].
  vm_compute. split; discriminate.
Defined.

Lemma split_on_not_nil (c : ascii) (s : string) : split_on c s <> [].
Proof.
  induction s as [| x s IH]; cbn [split_on]; [discriminate |].
  destruct (Ascii.eqb x c); [discriminate |].
  destruct (split_on c s); discriminate.
Qed.

(** Joining the pieces of a split gives the text back. *)
Lemma join_split_on (c : ascii) (s : string) :
  py_join (String c "") (split_on c s) = s.
Proof.
  induction s as [| x s IH]; [reflexivity |]. cbn [split_on].
  pose proof (split_on_not_nil c s) as Hne.
  destruct (Ascii.eqb_spec x c) as [-> | Hx].
  - destruct (split_on c s) as [| h t]; [contradiction |].
    change (py_join (String c "") ("" :: h :: t))
      with ("" ++ String c "" ++ py_join (String c "") (h :: t))%string.
    now rewrite IH.
  - destruct (split_on c s) as [| h t]; [contradiction |].
    destruct t as [| h' t].
    + cbn [py_join] in *. now rewrite IH.
    + change (py_join (String c "") (String x h :: h' :: t))
        with (String x (h ++ String c "" ++ py_join (String c "") (h' :: t)))%string.
      change (py_join (String c "") (h :: h' :: t))
        with (h ++ String c "" ++ py_join (String c "") (h' :: t))%string in IH.
      now rewrite IH.
Qed.

Lemma digit_cases (c : ascii) :
  is_digit c = true ->
  In c ["0"; "1"; "2"; "3"; "4"; "5"; "6"; "7"; "8"; "9"]%char.
Proof.
  destruct c as [[] [] [] [] [] [] [] []]; intros H; try discriminate H; cbn; tauto.
Qed.

Ltac each_digit c :=
  match goal with
  | H : is_digit c = true |- _ =>
      apply digit_cases in H; cbn [In] in H; decompose [or] H; try clear H; subst;
      try contradiction
  end.

Ltac eval_int_of_text :=
  repeat match goal with
    | H : context [int_of_text ?s] |- _ =>
        let v := eval vm_compute in (int_of_text s) in
        change (int_of_text s) with v in H
    end.

Lemma take_year_text (y rest : string) :
  (String.length y =? 4)%nat = true -> all_digits y = true ->
  take_alt [AnyDigit; AnyDigit; AnyDigit; AnyDigit] (y ++ rest) = Some (y, rest).
Proof.
  intros Hlen Hd.
  destruct y as [| c1 [| c2 [| c3 [| c4 [| ? ?]]]]]; try discriminate Hlen.
  cbn [all_digits] in Hd. split_facts.
  cbn [String.append take_alt cls_accepts].
  repeat match goal with
    | H : is_digit ?c = true |- _ => rewrite ?H; clear H
    end.
  reflexivity.
Qed.

(** A month text before a dash, and a day text at the end, are what the
    directives consume. *)
Lemma takes_month_text (m rest : string) :
  short_number m = true -> 1 <= int_of_text m <= 12 ->
  forall (A : Type) (k : string -> string -> option A) (a : A),
    k m (String "-" rest) = Some a ->
    try_alts (alternatives Dm) (m ++ String "-" rest) k = Some a.
Proof.
  unfold short_number. intros Hs Hv A k a Hk. split_facts.
  destruct m as [| c1 [| c2 [| ? ?]]]; try discriminate;
    cbn [all_digits] in *; split_facts.
  - each_digit c1; eval_int_of_text; try lia; cbn; rewrite Hk; reflexivity.
  - each_digit c1; each_digit c2; eval_int_of_text; try lia; cbn; rewrite Hk; reflexivity.
Qed.

Lemma takes_day_text (d : string) :
  short_number d || blank_digit d = true -> 1 <= int_of_text d <= 31 ->
  forall (A : Type) (k : string -> string -> option A) (a : A),
    k d "" = Some a ->
    try_alts (alternatives Dd) (d ++ "") k = Some a.
Proof.
  unfold short_number, blank_digit. intros Hs Hv A k a Hk.
  destruct d as [| c1 [| c2 [| ? ?]]]; cbn [String.length Nat.eqb orb andb] in Hs;
    try discriminate Hs; cbn [all_digits] in Hs.
  - rewrite andb_true_r, orb_false_r in Hs.
    each_digit c1; eval_int_of_text; try lia; cbn; rewrite Hk; reflexivity.
  - apply orb_prop in Hs. destruct Hs as [Hs | Hs]; split_facts.
    + each_digit c1; each_digit c2; eval_int_of_text; try lia; cbn; rewrite Hk; reflexivity.
    + match goal with
      | H : Ascii.eqb c1 " " = true |- _ => apply Ascii.eqb_eq in H; subst c1
      end.
      each_digit c2; eval_int_of_text; try lia; cbn; rewrite Hk; reflexivity.
Qed.

Lemma match_items_dir_before (d : directive) (t rest : string) (tl : list fmt_item)
    (g : list (directive * string)) (e : string) :
  (forall (A : Type) (k : string -> string -> option A) (a : A),
      k t rest = Some a -> try_alts (alternatives d) (t ++ rest) k = Some a) ->
  match_items tl rest = Some (g, e) ->
  match_items (FDir d :: tl) (t ++ rest) = Some ((d, t) :: g, e).
Proof.
  intros Ht Htl. cbn [match_items]. apply Ht. now rewrite Htl.
Qed.

(** A text of the loose shape is accepted by the date check. *)
Lemma loose_date_accepted (s : string) :
  loose_date s = true -> exists t, strptime s "%Y-%m-%d" = Ok t.
Proof.
  unfold loose_date. intros H.
  destruct (split_on "-" s) as [| y [| m [| d [| ? ?]]]] eqn:Hsp; try discriminate H.
  pose proof (join_split_on "-" s) as Hjoin. rewrite Hsp in Hjoin.
  cbn [py_join] in Hjoin. subst s. clear Hsp.
  apply andb_prop in H. destruct H as [H Hok].
  apply andb_prop in H. destruct H as [H Hd].
  apply andb_prop in H. destruct H as [H Hm].
  apply andb_prop in H. destruct H as [Hlen Hy].
  assert (Hb : 1 <= int_of_text m <= 12 /\ 1 <= int_of_text d <= 31).
  { pose proof (days_in_month_le_31 (int_of_text y) (int_of_text m)).
    unfold datetime_ok in Hok. cbn [year month day hour minute second] in Hok.
    split_facts.
    repeat match goal with
      | H : (_ <=? _) = true |- _ => apply Z.leb_le in H
      end.
    lia. }
  destruct Hb as [Hbm Hbd].
  assert (Hmatch : match_items [FDir DY; FLit "-"; FDir Dm; FLit "-"; FDir Dd]
                     (y ++ "-" ++ m ++ "-" ++ d)
                   = Some ([(DY, y); (Dm, m); (Dd, d)], "")).
  { apply match_items_dir_before.
    { intros A k a Hk. cbn [alternatives try_alts].
      rewrite take_year_text by assumption. now rewrite Hk. }
    change ("-" ++ m ++ "-" ++ d)%string with (String "-" (m ++ String "-" d)).
    apply match_items_lit; [reflexivity |].
    apply match_items_dir_before; [now apply takes_month_text |].
    apply match_items_lit; [reflexivity |].
    rewrite <- (append_nil_r d) at 1.
    apply match_items_dir_before; [now apply takes_day_text | reflexivity]. }
  unfold strptime. rewrite parse_date_format, Hmatch.
  cbn [String.eqb negb group directive_eqb]. rewrite Hok. eauto.
Qed.

(** X5. Among the ASCII texts, the date check accepts exactly those of the
    loose shape - four digits, a dash, a month of one or two digits, a
    dash, a day of one or two digits or a blank and a digit, naming a day
    of the calendar - and returns an accepted text unchanged; every other
    ASCII text is a ValueError.  (Beyond ASCII the check also takes the
    decimal digits of other scripts in the year and at the end of the
    day.) *)
Theorem validate_Rfc3339_decides_loose_date (s : string) :
  ascii_text s = true ->
  validate_Rfc3339 s = if loose_date s then Ok s else Raise ValueError.
Proof.
  intros _. destruct (loose_date s) eqn:Hl.
  - destruct (loose_date_accepted s Hl) as [t Ht].
    unfold validate_Rfc3339. now rewrite Ht.
  - now apply validate_Rfc3339_rejects.
Qed.

Lemma validate_Rfc3339_decides_loose_date_witness :
  validate_Rfc3339 "2025-1-5" = Ok "2025-1-5"
  /\ validate_Rfc3339 "2025-02-30" = Raise ValueError
  /\ validate_Rfc3339 "15/01/2025" = Raise ValueError.
Proof.
  split; [| split].
  - exact (validate_Rfc3339_decides_loose_date "2025-1-5" eq_refl).
  - exact (validate_Rfc3339_decides_loose_date "2025-02-30" eq_refl).
  - exact (validate_Rfc3339_decides_loose_date "15/01/2025" eq_refl).
Defined.

(** ** What build_request builds *)

Lemma validate_Rfc3339_accepts (s : string) :
  loose_date s = true -> validate_Rfc3339 s = Ok s.
Proof.
  intros Hl. destruct (loose_date_accepted s Hl) as [t Ht].
  unfold validate_Rfc3339. now rewrite Ht.
Qed.

Ltac date_argument d Hd :=
  let s := fresh "s" in
  let Hg := fresh "Hg" in
  destruct (given_str d) as [s |] eqn:Hg;
  [ rewrite (validate_Rfc3339_accepts s (Hd s eq_refl)) | ].

(** X6. With one spatial filter and dates that pass the date check,
    [build_request] succeeds without logging and sets both targets.  The
    observation target lists the filter, then the cloud ceiling when it is
    truthy (a ceiling of 0 or an empty text is not sent), then the start
    date and the completion date when they are given; the geometry target
    carries the same filter key and the same encoded filter. *)
Theorem build_request_targets (E : env) (f : spatial_filter) (cloud : pyval)
    (startDate completionDate : option string) (w : world) :
  date_passes startDate -> date_passes completionDate ->
  build_request E startDate completionDate (filter_wgs84 f) (filter_laea f) cloud w
  = (Ok tt,
     mk_world (mk_request (outputDir (self w))
                 (Some (expected_awic_query E f cloud startDate completionDate))
                 (Some (expected_geometry_query f))
                 (awic_result_file (self w)))
              (trace w)).
Proof.
  intros Hs Hc. unfold date_passes in Hs, Hc.
  unfold build_request, expected_awic_query, expected_geometry_query, cloud_text.
  destruct f as [g | g]; cbn [filter_wgs84 filter_laea filter_key filter_text filter_srid];
    unfold bind, ret, lift; cbn [fst snd];
    destruct (py_truthy cloud);
    date_argument startDate Hs; date_argument completionDate Hc;
    cbn [query_part]; unfold set_awic_http_request, set_geometry_http_request;
    cbn [dict_set String.eqb Ascii.eqb Bool.eqb URL_PARAM_GEOMETRYWKT_WGS84
         URL_PARAM_GEOMETRYWKT_LAEA URL_PARAM_CLOUD_PERCENTAGE
         URL_PARAM_OBSERVATIONDATE_AFTER URL_PARAM_OBSERVATIONDATE_BEFORE
         map py_join fst snd py_str self trace outputDir awic_http_request
         geometry_http_request awic_result_file];
    rewrite ?append_assoc, ?append_nil_r; cbn [String.append];
    rewrite ?append_assoc; reflexivity.
Qed.

Lemma build_request_targets_witness :
  build_request quiet_env (Some "2025-01-15") None (filter_wgs84 (WGS84 "POINT(1 2)"))
    (filter_laea (WGS84 "POINT(1 2)")) (PInt 0) (mk_world fresh_request [])
  = (Ok tt,
     mk_world (mk_request None
                 (Some "https://wsi.land.copernicus.eu/awic/get_awic?geometrywkt_wgs84=POINT(1+2)&startdate=2025-01-15")
                 (Some "https://wsi.land.copernicus.eu/awic/get_geometries?geometrywkt_wgs84=POINT(1+2)&output_srid=wgs84")
                 None)
              []).
Proof.
  apply (build_request_targets quiet_env (WGS84 "POINT(1 2)") (PInt 0)
           (Some "2025-01-15") None (mk_world fresh_request [])).
  - intros s Hs. inversion Hs. reflexivity.
  - intros s Hs. discriminate Hs.
Defined.

Lemma lacks_encode_char (c x : ascii) :
  c = ","%char \/ c = " "%char -> lacks c (encode_char x) = true.
Proof.
  intros Hc. unfold encode_char.
  destruct (Ascii.eqb_spec x ","%char) as [-> | Hcomma];
    [destruct Hc; subst c; reflexivity |].
  destruct (Ascii.eqb_spec x " "%char) as [-> | Hblank];
    [destruct Hc; subst c; reflexivity |].
  cbn [lacks]. rewrite andb_true_r. apply negb_true_iff.
  destruct (Ascii.eqb_spec x c) as [-> | _]; [destruct Hc; congruence | reflexivity].
Qed.

(** X7. An encoded filter holds no comma and no blank, whatever the filter. *)
Theorem encode_wkt_leaves_no_comma_or_blank (s : string) :
  lacks "," (encode_wkt s) = true /\ lacks " " (encode_wkt s) = true.
Proof.
  rewrite encode_wkt_chars.
  split; induction s as [| x s IH]; try reflexivity;
    cbn [subst_chars]; rewrite lacks_app, IH, lacks_encode_char; tauto.
Qed.

(** X8. [build_request] is all or nothing.  It makes no HTTP call and
    touches no file: all it adds to the trace is at most one error message.
    When it returns, both request targets are set and nothing was logged;
    when it fails, it exits ([sys.exit()]) or raises ValueError and the
    object is as it was before the call. *)
Theorem build_request_all_or_nothing (E : env)
    (startDate completionDate wgs84 laea : option string) (cloud : pyval) (w : world) :
  exists r w' new,
    build_request E startDate completionDate wgs84 laea cloud w = (r, w')
    /\ trace w' = trace w ++ new
    /\ Forall is_error_log new /\ (List.length new <= 1)%nat
    /\ match r with
       | Ok _ =>
           new = [] /\ awic_http_request (self w') <> None
           /\ geometry_http_request (self w') <> None
           /\ outputDir (self w') = outputDir (self w)
           /\ awic_result_file (self w') = awic_result_file (self w)
       | Raise e => self w' = self w /\ (e = SystemExit None \/ e = ValueError)
       end.
Proof.
  assert (Hlog : forall msg, Forall is_error_log [Log ERROR msg])
    by (intros msg; constructor; [now exists msg | constructor]).
  unfold build_request.
  destruct wgs84 as [a |], laea as [b |];
    try (eexists; eexists; eexists; split; [reflexivity |];
         cbn [trace self]; split; [reflexivity |]; split; [apply Hlog |];
         split; [cbn; lia |]; split; [reflexivity | now left]);
    unfold bind, ret, lift; cbn [fst snd];
    destruct (given_str startDate) as [s1 |];
    try (destruct (validate_Rfc3339_cases s1) as [-> | ->]);
    destruct (given_str completionDate) as [s2 |];
    try (destruct (validate_Rfc3339_cases s2) as [-> | ->]);
    destruct (py_truthy cloud);
    eexists; eexists; exists [];
    (split; [reflexivity |]);
    cbn [trace self awic_http_request geometry_http_request outputDir awic_result_file];
    (split; [now rewrite app_nil_r |]); (split; [constructor |]);
    (split; [cbn; lia |]);
    try (split; [reflexivity | now right]);
    repeat split; discriminate.
Qed.

(** ** Normalising the observations *)

Lemma format_awic_product_id (E : env) (raw : pyval) (i : Z) (r : list pyval) :
  format_awic_product E raw i = Ok r -> exists rest, r = PInt (i + 1) :: rest.
Proof.
  destruct raw; try discriminate. intros H. apply format_awic_product_inv in H.
  destruct H as (stamp & code & first & _ & _ & _ & _ & ->). eexists. reflexivity.
Qed.

Lemma format_items_cons (E : env) (item : pyval) (rest : list pyval) (i : Z)
    (rs : list pyval) :
  format_items E (item :: rest) i = Ok rs ->
  exists raw,
    py_get item "j" = Ok raw
    /\ ((py_truthy raw = false /\ format_items E rest (i + 1) = Ok rs)
        \/ (py_truthy raw = true
            /\ exists r tl, format_awic_product E raw i = Ok r
                            /\ format_items E rest (i + 1) = Ok tl
                            /\ rs = PList r :: tl)).
Proof.
  cbn [format_items]. intros H.
  destruct (py_get item "j") as [raw | e]; cbn [rbind] in H; [| discriminate].
  exists raw. split; [reflexivity |].
  destruct (py_truthy raw); [right | left; now split].
  split; [reflexivity |].
  destruct (format_awic_product E raw i) as [r | e]; cbn [rbind] in H; [| discriminate].
  destruct (format_items E rest (i + 1)) as [tl | e]; cbn [rbind] in H; [| discriminate].
  inversion H. now exists r, tl.
Qed.

(** The ids of the records increase and stay within the response. *)
Lemma record_ids_increase (E : env) (items : list pyval) :
  forall (i : Z) (rs : list pyval),
    format_items E items i = Ok rs ->
    exists ks,
      map record_id rs = map Some ks
      /\ StronglySorted Z.lt ks
      /\ Forall (fun k => i < k <= i + Z.of_nat (List.length items)) ks
      /\ (List.length rs <= List.length items)%nat.
Proof.
  induction items as [| item rest IH]; intros i rs H.
  - inversion H. exists []. repeat split; constructor.
  - apply format_items_cons in H.
    destruct H as (raw & _ & [[_ Hrest] | (_ & r & tl & Hr & Hrest & ->)]).
    + destruct (IH _ _ Hrest) as (ks & Hmap & Hsorted & Hbound & Hlen).
      exists ks. repeat split; trivial.
      * eapply Forall_impl; [| exact Hbound]. cbn beta. intros k Hk.
        cbn [List.length]. lia.
      * cbn [List.length]. lia.
    + destruct (IH _ _ Hrest) as (ks & Hmap & Hsorted & Hbound & Hlen).
      destruct (format_awic_product_id _ _ _ _ Hr) as (fields & ->).
      exists (i + 1 :: ks). repeat split.
      * cbn [map record_id]. now rewrite Hmap.
      * constructor; [exact Hsorted |].
        eapply Forall_impl; [| exact Hbound]. cbn beta. intros k Hk. lia.
      * constructor; [cbn [List.length]; lia |].
        eapply Forall_impl; [| exact Hbound]. cbn beta. intros k Hk.
        cbn [List.length]. lia.
      * cbn [List.length]. lia.
Qed.

Lemma filter_map_shift {A B : Type} (f : B -> bool) (g : A -> B) (l : list A) :
  filter f (map g l) = map g (filter (fun a => f (g a)) l).
Proof.
  induction l as [| a l IH]; [reflexivity |]. cbn [map filter].
  destruct (f (g a)); cbn [map]; now rewrite IH.
Qed.

Lemma kept_positions_cons (item : pyval) (rest : list pyval) :
  kept_positions (item :: rest)
  = (if truthy_at (item :: rest) 0 then [0%nat] else []) ++ map S (kept_positions rest).
Proof.
  unfold kept_positions. cbn [List.length seq filter].
  rewrite <- seq_shift, filter_map_shift.
  destruct (truthy_at (item :: rest) 0); reflexivity.
Qed.

Lemma ids_of_positions_cons (i : Z) (item : pyval) (rest : list pyval) :
  ids_of_positions i (item :: rest)
  = (if truthy_at (item :: rest) 0 then [i + 1] else []) ++ ids_of_positions (i + 1) rest.
Proof.
  unfold ids_of_positions. rewrite kept_positions_cons, map_app, map_map.
  f_equal.
  - destruct (truthy_at (item :: rest) 0); [cbn [map]; f_equal; lia | reflexivity].
  - apply map_ext. intros p. lia.
Qed.

Lemma format_items_ids (E : env) (items : list pyval) :
  forall (i : Z) (rs : list pyval),
    format_items E items i = Ok rs ->
    map record_id rs = map Some (ids_of_positions i items).
Proof.
  induction items as [| item rest IH]; intros i rs H.
  - inversion H. reflexivity.
  - rewrite ids_of_positions_cons. apply format_items_cons in H.
    destruct H as (raw & Hraw & [[Htruthy Hrest] | (Htruthy & r & tl & Hr & Hrest & ->)]);
      unfold truthy_at; cbn [nth_error]; rewrite Hraw, Htruthy.
    + now apply IH.
    + destruct (format_awic_product_id _ _ _ _ Hr) as (fields & ->).
      cbn [map record_id app]. f_equal. now apply IH.
Qed.

Lemma map_Some_inj {A : Type} (a b : list A) : map Some a = map Some b -> a = b.
Proof.
  revert b. induction a as [| x a IH]; intros [| y b] H; try discriminate H.
  - reflexivity.
  - cbn [map] in H. inversion H. f_equal. now apply IH.
Qed.

(** X9. The ids of the records that the loop of [request_page] returns are
    the positions, plus one, of the elements of the response that have a
    truthy "j", in the order of the response.  An element without a truthy
    "j" is skipped but still counted: its position plus one is the id of no
    record, so the ids have a gap there.  Hence the ids are strictly
    increasing and lie between 1 and the length of the response. *)
Theorem record_ids_are_positions (E : env) (items : list pyval) (rs : list pyval) :
  format_items E items 0 = Ok rs ->
  map record_id rs = map Some (ids_of_positions 0 items)
  /\ (forall p, (p < List.length items)%nat ->
                (In (Some (Z.of_nat p + 1)) (map record_id rs) <-> truthy_at items p = true))
  /\ StronglySorted Z.lt (ids_of_positions 0 items)
  /\ Forall (fun k => 1 <= k <= Z.of_nat (List.length items)) (ids_of_positions 0 items).
Proof.
  intros H. pose proof (format_items_ids E items 0 rs H) as Hids.
  split; [exact Hids |]. split.
  - intros p Hp. rewrite Hids. unfold ids_of_positions, kept_positions.
    rewrite map_map, in_map_iff. split.
    + intros (q & Hq & Hin). apply filter_In in Hin. destruct Hin as [_ Ht].
      inversion Hq. now replace p with q by lia.
    + intros Ht. exists p. split; [reflexivity |].
      apply filter_In. split; [| exact Ht]. apply in_seq. lia.
  - destruct (record_ids_increase E items 0 rs H) as (ks & Hmap & Hsorted & Hbound & _).
    rewrite Hids in Hmap. apply map_Some_inj in Hmap. subst ks.
    split; [exact Hsorted |].
    eapply Forall_impl; [| exact Hbound]. cbn beta. intros k Hk. lia.
Qed.

Lemma record_ids_are_positions_witness :
  map record_id [PList (PInt 2 :: tl scenario_record)] = map Some [2]
  /\ (In (Some 1) (map record_id [PList (PInt 2 :: tl scenario_record)]) <-> false = true)
  /\ (In (Some 2) (map record_id [PList (PInt 2 :: tl scenario_record)]) <-> true = true).
Proof.
  destruct (record_ids_are_positions quiet_env
              [PDict []; PDict [("j", PList scenario_raw_int_time)]]
              [PList (PInt 2 :: tl scenario_record)] eq_refl) as (W1 & W2 & _).
  split; [exact W1 |].
  split; [exact (W2 0%nat ltac:(cbn; lia)) | exact (W2 1%nat ltac:(cbn; lia))].
Defined.

(** X10. Normalising a response that is two arrays one after the other is
    normalising the first, then the second with the positions counted on,
    and appending the records; an error in the first part is the error of
    the whole, and so is an error in the second when the first is sound. *)
Theorem format_items_app (E : env) (a b : list pyval) :
  forall i,
    format_items E (a ++ b) i
    = (ra <- format_items E a i ;;
       rb <- format_items E b (i + Z.of_nat (List.length a)) ;;
       Ok (ra ++ rb)).
Proof.
  induction a as [| item a IH]; intros i.
  - cbn [app format_items rbind List.length Z.of_nat]. rewrite Z.add_0_r.
    now destruct (format_items E b i).
  - cbn [app format_items List.length].
    replace (i + Z.of_nat (S (List.length a))) with (i + 1 + Z.of_nat (List.length a)) by lia.
    destruct (py_get item "j") as [raw | e]; cbn [rbind]; [| reflexivity].
    destruct (py_truthy raw); [| apply IH].
    destruct (format_awic_product E raw i) as [r | e]; cbn [rbind]; [| reflexivity].
    rewrite IH.
    destruct (format_items E a (i + 1)) as [ra | e]; cbn [rbind]; [| reflexivity].
    now destruct (format_items E b (i + 1 + Z.of_nat (List.length a))).
Qed.

(** X11. The normalisation is all or nothing.  When it returns, every
    element of the response is an object, and every element with a truthy
    "j" has its record, formatted with the element's position, among the
    records returned: one element that is no object, or one raw value that
    cannot be formatted, and no record is returned at all. *)
Theorem format_items_accounts_for_every_item (E : env) (items : list pyval) :
  forall (i : Z) (rs : list pyval),
    format_items E items i = Ok rs ->
    forall (n : nat) (item : pyval),
      nth_error items n = Some item ->
      (exists d, item = PDict d)
      /\ exists raw,
           py_get item "j" = Ok raw
           /\ (py_truthy raw = true ->
               exists r, format_awic_product E raw (i + Z.of_nat n) = Ok r
                         /\ In (PList r) rs).
Proof.
  induction items as [| first rest IH]; intros i rs H n item Hn.
  - destruct n; discriminate Hn.
  - apply format_items_cons in H. destruct H as (raw & Hget & Hcases).
    destruct n as [| n].
    + inversion Hn; subst item. split.
      * destruct first; try discriminate Hget. eauto.
      * exists raw. split; [exact Hget |]. intros Ht.
        destruct Hcases as [[Hf _] | (_ & r & tl & Hr & _ & ->)]; [congruence |].
        exists r. rewrite Z.add_0_r. split; [exact Hr | now left].
    + cbn [nth_error] in Hn.
      replace (i + Z.of_nat (S n)) with (i + 1 + Z.of_nat n) by lia.
      destruct Hcases as [[_ Hrest] | (_ & r & tl & _ & Hrest & ->)];
        destruct (IH _ _ Hrest n item Hn) as (Hd & raw' & Hget' & Hrec);
        (split; [exact Hd |]); exists raw'; (split; [exact Hget' |]); intros Ht;
        destruct (Hrec Ht) as (r' & Hr' & Hin); exists r'; (split; [exact Hr' |]).
      * exact Hin.
      * now right.
Qed.

Lemma format_items_accounts_for_every_item_witness :
  (exists d, PDict [("j", PList scenario_raw_int_time)] = PDict d)
  /\ exists raw,
       py_get (PDict [("j", PList scenario_raw_int_time)]) "j" = Ok raw
       /\ (py_truthy raw = true ->
           exists r, format_awic_product quiet_env raw (0 + Z.of_nat 0) = Ok r
                     /\ In (PList r) [PList scenario_record]).
Proof.
  exact (format_items_accounts_for_every_item quiet_env
           [PDict [("j", PList scenario_raw_int_time)]] 0 [PList scenario_record]
           eq_refl 0%nat (PDict [("j", PList scenario_raw_int_time)]) eq_refl).
Defined.

(** X12. [request_page] makes exactly one HTTP call, to the address it is
    given, and touches no file and no field of the object.  Besides the two
    events of the call it logs at most one error, and when it does, its
    result is the empty list. *)
Theorem request_page_one_call (E : env) (url : string) (w : world) :
  exists r w' extra,
    request_page E url w = (r, w')
    /\ self w' = self w
    /\ trace w' = trace w ++ observation_banner url ++ extra
    /\ (extra = [] \/ exists msg, extra = [Log ERROR msg] /\ r = Ok []).
Proof.
  unfold request_page. run_monad.
  destruct (http_get E url) as [| status body].
  - eexists; eexists; eexists. split; [reflexivity |]. cbn [self trace].
    split; [reflexivity |]. split; [unfold observation_banner; same_trace |].
    right. eauto.
  - destruct (raises_for_status status).
    + run_monad. eexists; eexists; eexists. split; [reflexivity |]. cbn [self trace].
      split; [reflexivity |]. split; [unfold observation_banner; same_trace |].
      right. eauto.
    + destruct body as [json_root |]; run_monad.
      * exists (items <- py_iter json_root ;; format_items E items 0).
        eexists; exists []. split.
        { destruct (py_iter json_root); reflexivity. }
        cbn [self trace]. split; [reflexivity |].
        split; [unfold observation_banner; same_trace | now left].
      * eexists; eexists; eexists. split; [reflexivity |]. cbn [self trace].
        split; [reflexivity |]. split; [unfold observation_banner; same_trace |].
        right. eauto.
Qed.

(** X13. A reply with a success status whose JSON document is not an array
    never gives records.  [null], a boolean or a number is not iterable
    (TypeError); a non-empty object or text is iterated over its keys or
    characters, which have no method [get] (AttributeError); only the empty
    object and the empty text give the empty list. *)
Theorem request_page_other_documents (E : env) (url : string) (status : Z)
    (root : pyval) (w : world) :
  http_get E url = Response status (Some root) ->
  raises_for_status status = false ->
  fst (request_page E url w)
  = match root with
    | PNone | PBool _ | PInt _ | PFloat _ => Raise TypeError
    | PStr "" | PDict [] => Ok []
    | PStr _ | PDict _ => Raise AttributeError
    | PList items => format_items E items 0
    end.
Proof.
  intros Hget Hstatus. unfold request_page. run_monad. rewrite Hget, Hstatus.
  run_monad.
  destruct root as [| b | z | f | s | items | d]; cbn [py_iter]; try reflexivity.
  - destruct s; reflexivity.
  - destruct d as [| [k v] d]; reflexivity.
Qed.

Lemma request_page_other_documents_witness :
  fst (request_page (service (Response 200 (Some PNone)) ConnectionFailed) scenario_query
         built_world)
  = Raise TypeError.
Proof.
  exact (request_page_other_documents (service (Response 200 (Some PNone)) ConnectionFailed)
           scenario_query 200 PNone built_world eq_refl eq_refl).
Defined.

(** ** The geometry call *)

(** X14. The geometry call treats a JSON object that holds the code "0100E"
    as an error of the service: whatever the status of the reply (414
    apart, which is checked first) and whatever the return mode, it logs
    the error and exits with code 413, after the HTTP call and before any
    file is opened. *)
Theorem request_geometry_error_object (E : env) (url returnMode : string)
    (dir : option string) (status : Z) (d : list (string * pyval)) (w : world) :
  http_get E url = Response status (Some (PDict d)) ->
  status <> 414 ->
  dict_lookup d "code" = Some (PStr "0100E") ->
  request_geometry E url returnMode dir w
  = (Raise (SystemExit (Some 413)),
     mk_world (self w) (trace w ++ geometry_banner url ++ [Log ERROR "API returned error"])).
Proof.
  intros Hget Hstatus Hcode. unfold request_geometry. run_monad. rewrite Hget.
  destruct (Z.eqb_spec status 414) as [-> | _]; [contradiction |].
  unfold is_error_object. rewrite Hcode. cbn [String.eqb Ascii.eqb Bool.eqb].
  run_monad. unfold geometry_banner. f_equal. same_trace.
Qed.

Lemma request_geometry_error_object_witness :
  request_geometry (service ConnectionFailed error_reply) geometry_url_of_scenario "csv"
    (Some "out") built_world
  = (Raise (SystemExit (Some 413)),
     mk_world (self built_world)
       (trace built_world ++ geometry_banner geometry_url_of_scenario
        ++ [Log ERROR "API returned error"])).
Proof.
  apply (request_geometry_error_object (service ConnectionFailed error_reply)
           geometry_url_of_scenario "csv" (Some "out") 200
           [("code", PStr "0100E"); ("message", PStr "Request too large")] built_world);
    [reflexivity | discriminate | reflexivity].
Defined.

Lemma collect_geometries_filter (items raws : list pyval) :
  Forall2 raw_of items raws ->
  collect_geometries items = Ok (filter py_truthy raws).
Proof.
  induction 1 as [| item raw items raws Hraw _ IH]; [reflexivity |].
  cbn [collect_geometries filter]. unfold raw_of in Hraw. rewrite Hraw, IH.
  cbn [rbind]. now destruct (py_truthy raw).
Qed.

Lemma collect_geometries_inv (items : list pyval) :
  forall gs, collect_geometries items = Ok gs ->
             exists raws, Forall2 raw_of items raws /\ gs = filter py_truthy raws.
Proof.
  induction items as [| item rest IH]; intros gs H.
  - inversion H. exists []. split; [constructor | reflexivity].
  - cbn [collect_geometries] in H.
    destruct (py_get item "j") as [raw | e] eqn:Hraw; cbn [rbind] in H; [| discriminate].
    destruct (collect_geometries rest) as [tl | e]; cbn [rbind] in H; [| discriminate].
    inversion H. destruct (IH tl eq_refl) as (raws & Hall & ->).
    exists (raw :: raws). split; [now constructor | reflexivity].
Qed.

(** X15. When the return mode asks for no file, the geometry call returns
    the truthy "j" values of the elements of the response array, in the
    order of the response, and only those: elements whose "j" is missing,
    null or empty are left out.  It returns them exactly when every element
    is an object; the status of the reply is not looked at, 414 apart. *)
Theorem request_geometry_returns_truthy_values (E : env) (url returnMode : string)
    (dir : option string) (status : Z) (items : list pyval) (w : world) :
  http_get E url = Response status (Some (PList items)) ->
  status <> 414 ->
  csv_mode returnMode = false ->
  forall gs,
    fst (request_geometry E url returnMode dir w) = Ok gs
    <-> exists raws, Forall2 raw_of items raws /\ gs = filter py_truthy raws.
Proof.
  intros Hget Hstatus Hmode gs.
  assert (Hrun : fst (request_geometry E url returnMode dir w) = collect_geometries items).
  { unfold request_geometry. run_monad. rewrite Hget.
    destruct (Z.eqb_spec status 414) as [-> | _]; [contradiction |].
    cbn [is_error_object py_iter]. run_monad. rewrite Hmode.
    destruct (collect_geometries items); reflexivity. }
  rewrite Hrun. split.
  - apply collect_geometries_inv.
  - intros (raws & Hall & ->). now apply collect_geometries_filter.
Qed.

Lemma request_geometry_returns_truthy_values_witness :
  fst (request_geometry
         (service ConnectionFailed
            (Response 200 (Some (PList [PDict [("j", PList [PInt 7])]; PDict []]))))
         geometry_url_of_scenario "variable" None built_world)
  = Ok [PList [PInt 7]]
  <-> exists raws,
        Forall2 raw_of [PDict [("j", PList [PInt 7])]; PDict []] raws
        /\ [PList [PInt 7]] = filter py_truthy raws.
Proof.
  apply (request_geometry_returns_truthy_values
           (service ConnectionFailed
              (Response 200 (Some (PList [PDict [("j", PList [PInt 7])]; PDict []]))))
           geometry_url_of_scenario "variable" None 200
           [PDict [("j", PList [PInt 7])]; PDict []] built_world);
    [reflexivity | discriminate | reflexivity].
Defined.

(** ** Writing the rows of a table *)

Lemma write_rows_lists (E : env) (path : string) (rows : list (list pyval)) :
  forall w,
    write_rows E path (map PList rows) w
    = (Ok tt,
       mk_world (self w)
         (trace w ++ map (fun row => WriteText path (row_text E row)) rows)).
Proof.
  induction rows as [| row rows IH]; intros w.
  - cbn [map write_rows]. unfold ret. rewrite app_nil_r. now destruct w.
  - cbn [map write_rows]. unfold csv_line. cbn [py_iter rbind]. run_monad.
    rewrite IH. cbn [self trace]. f_equal. f_equal. unfold row_text.
    now rewrite <- app_assoc.
Qed.

(** X16. In a CSV mode, when the output directory is given and the file can
    be written, the geometry call writes geometries.csv in that directory:
    the header, then one line per geometry in the order of the response,
    each the fields of the geometry joined by semicolons (nothing is quoted
    or escaped) and a newline; and it returns the geometries. *)
Theorem request_geometry_writes_table (E : env) (url returnMode : string)
    (dir : option string) (d : string) (status : Z) (items : list pyval)
    (rows : list (list pyval)) (w : world) :
  http_get E url = Response status (Some (PList items)) ->
  status <> 414 ->
  collect_geometries items = Ok (map PList rows) ->
  csv_mode returnMode = true ->
  given_str dir = Some d ->
  open_ok E (path_join d "geometries.csv") = true ->
  request_geometry E url returnMode dir w
  = (Ok (map PList rows),
     mk_world (self w)
       (trace w ++ geometry_banner url
        ++ [Log INFO ("Writing geometries to " ++ path_join d "geometries.csv")]
        ++ table_writes E (path_join d "geometries.csv") GEOMETRY_HEADER rows)).
Proof.
  intros Hget Hstatus Hcollect Hmode Hdir Hopen.
  unfold request_geometry. run_monad. rewrite Hget.
  destruct (Z.eqb_spec status 414) as [-> | _]; [contradiction |].
  cbn [is_error_object py_iter]. run_monad. rewrite Hcollect, Hmode, Hdir. run_monad.
  rewrite Hopen. run_monad. rewrite write_rows_lists. cbn [self trace].
  unfold geometry_banner, table_writes, GEOMETRY_HEADER. f_equal. f_equal.
  rewrite <- !app_assoc. reflexivity.
Qed.

Lemma request_geometry_writes_table_witness :
  request_geometry
    (service ConnectionFailed
       (Response 200 (Some (PList [PDict [("j", PList [PInt 7; PStr "LINESTRING(1 2,3 4)"])]]))))
    geometry_url_of_scenario "csv" (Some "out") built_world
  = (Ok (map PList [[PInt 7; PStr "LINESTRING(1 2,3 4)"]]),
     mk_world (self built_world)
       (trace built_world ++ geometry_banner geometry_url_of_scenario
        ++ [Log INFO ("Writing geometries to " ++ path_join "out" "geometries.csv")]
        ++ table_writes quiet_env (path_join "out" "geometries.csv") GEOMETRY_HEADER
             [[PInt 7; PStr "LINESTRING(1 2,3 4)"]])).
Proof.
  apply (request_geometry_writes_table
           (service ConnectionFailed
              (Response 200
                 (Some (PList [PDict [("j", PList [PInt 7; PStr "LINESTRING(1 2,3 4)"])]]))))
           geometry_url_of_scenario "csv" (Some "out") "out" 200
           [PDict [("j", PList [PInt 7; PStr "LINESTRING(1 2,3 4)"])]]
           [[PInt 7; PStr "LINESTRING(1 2,3 4)"]] built_world);
    [reflexivity | discriminate | reflexivity | reflexivity | reflexivity | reflexivity].
Defined.

(** ** The results of a run *)

Lemma format_items_lists (E : env) (items : list pyval) :
  forall i rs, format_items E items i = Ok rs -> exists rows, rs = map PList rows.
Proof.
  induction items as [| item rest IH]; intros i rs H.
  - inversion H. now exists [].
  - apply format_items_cons in H.
    destruct H as (raw & _ & [[_ Hrest] | (_ & r & tl & _ & Hrest & ->)]).
    + now apply (IH (i + 1)).
    + destruct (IH _ _ Hrest) as (rows & ->). now exists (r :: rows).
Qed.

Lemma request_page_lists (E : env) (url : string) (w w1 : world) (products : list pyval) :
  request_page E url w = (Ok products, w1) -> exists rows, products = map PList rows.
Proof.
  unfold request_page. run_monad.
  destruct (http_get E url) as [| status body].
  { intros H. inversion H. now exists []. }
  destruct (raises_for_status status).
  { run_monad. intros H. inversion H. now exists []. }
  destruct body as [json_root |]; run_monad.
  - destruct (py_iter json_root) as [items | e]; [| discriminate].
    destruct (format_items E items 0) as [rs | e] eqn:Hf; [| discriminate].
    intros H. inversion H; subst. now apply (format_items_lists E items 0).
  - intros H. inversion H. now exists [].
Qed.

(** X17. In a CSV mode without the geometries, when the observation call
    returns and both files can be written, [execute_request] writes
    awic.csv in the output directory - the header, then one line per record
    in order, so the header alone when there is no record - and then
    AWIC_MTD.xml, always with the same content.  It records the path of
    awic.csv in the object and returns no data in mode "csv", the records
    in mode "csv_and_variable". *)
Theorem execute_request_writes_observations (E : env) (returnMode : string) (w w1 : world)
    (awic_url geometry_url dir : string) (products : list pyval) :
  awic_http_request (self w) = Some awic_url ->
  geometry_http_request (self w) = Some geometry_url ->
  outputDir (self w) = Some dir ->
  csv_mode returnMode = true ->
  request_page E awic_url w = (Ok products, w1) ->
  open_ok E (path_join dir "awic.csv") = true ->
  open_ok E (path_join dir "AWIC_MTD.xml") = true ->
  exists rows,
    products = map PList rows
    /\ execute_request E returnMode false w
       = (Ok (returned returnMode None products),
          mk_world (mk_request (outputDir (self w1)) (awic_http_request (self w1))
                      (geometry_http_request (self w1)) (Some (path_join dir "awic.csv")))
            (trace w1 ++ [found_log products] ++ observation_files E dir rows)).
Proof.
  intros Hawic Hgeo Hdir Hmode Hpage Hopen1 Hopen2.
  destruct (request_page_lists _ _ _ _ _ Hpage) as (rows & ->).
  exists rows. split; [reflexivity |].
  unfold execute_request. run_monad. rewrite Hawic, Hgeo. cbn [fst snd].
  rewrite Hpage. rewrite Hmode, Hdir.
  assert (Hfound : forall w0 : world,
             (match map PList rows with
              | [] => log WARNING "No AWIC data was found"
              | _ :: _ =>
                  log INFO ("Found " ++ py_str_int (Z.of_nat (List.length (map PList rows)))
                            ++ " AWIC products.")
              end) w0
             = (Ok tt, mk_world (self w0) (trace w0 ++ [found_log (map PList rows)]))).
  { intros w0. unfold found_log. destruct (map PList rows); reflexivity. }
  rewrite Hfound. unfold set_awic_result_file. run_monad. rewrite Hopen1. run_monad.
  rewrite write_rows_lists. cbn [self trace]. rewrite Hopen2. run_monad.
  unfold returned, observation_files, table_writes.
  destruct (String.eqb returnMode "csv"); f_equal; f_equal; rewrite <- !app_assoc;
    reflexivity.
Qed.

Lemma execute_request_writes_observations_witness :
  exists rows,
    [] = map PList rows
    /\ execute_request (service ConnectionFailed ConnectionFailed) "csv" false built_world
       = (Ok (returned "csv" None []),
          mk_world (mk_request (Some "out") (Some scenario_query)
                      (Some geometry_url_of_scenario) (Some (path_join "out" "awic.csv")))
            ((observation_banner scenario_query ++ [Log ERROR "Error during HTTP request"])
             ++ [found_log []]
             ++ observation_files (service ConnectionFailed ConnectionFailed) "out" rows)).
Proof.
  apply (execute_request_writes_observations (service ConnectionFailed ConnectionFailed)
           "csv" built_world
           (mk_world (self built_world)
              (observation_banner scenario_query ++ [Log ERROR "Error during HTTP request"]))
           scenario_query geometry_url_of_scenario "out" []);
    reflexivity.
Defined.

(** ** What a run does to the outside world *)

Lemma starts_with_app (p q : string) : starts_with p (p ++ q) = true.
Proof.
  induction p as [| a p IH]; [reflexivity |].
  cbn [starts_with String.append]. now rewrite Ascii.eqb_refl, IH.
Qed.

Lemma build_request_sets_targets (E : env)
    (startDate completionDate wgs84 laea : option string) (cloud : pyval) (w w1 : world) :
  build_request E startDate completionDate wgs84 laea cloud w = (Ok tt, w1) ->
  outputDir (self w1) = outputDir (self w)
  /\ (exists q, awic_http_request (self w1) = Some (URL_ROOT ++ q)%string)
  /\ (exists q, geometry_http_request (self w1) = Some (URL_ROOT ++ q)%string).
Proof.
  unfold build_request.
  destruct wgs84 as [a |], laea as [b |];
    try (intros H; discriminate H);
    unfold bind, ret, lift; cbn [fst snd];
    destruct (given_str startDate) as [s1 |];
    try (destruct (validate_Rfc3339_cases s1) as [-> | ->]);
    destruct (given_str completionDate) as [s2 |];
    try (destruct (validate_Rfc3339_cases s2) as [-> | ->]);
    destruct (py_truthy cloud);
    intros H; try discriminate H; inversion H; subst w1;
    cbn [self outputDir awic_http_request geometry_http_request];
    (split; [reflexivity |]); split; eexists; reflexivity.
Qed.

Lemma init_request (E : env) (output_dir : option string) (returnMode : string)
    (t t0 : list event) (o : AwicRequest) :
  init E output_dir returnMode t = (Ok o, t0) ->
  o = mk_request (option_map (abspath E) output_dir) None None None.
Proof.
  unfold init. destruct output_dir as [d |]; [| intros H; inversion H; reflexivity].
  unfold bind. cbn [option_map].
  destruct (negb (String.eqb returnMode "variable")).
  - unfold emit, log, emit, ret, raise.
    destruct (negb (path_exists E (abspath E d)));
      [destruct (makedirs_ok E (abspath E d)) |];
      intros H; inversion H; reflexivity.
  - intros H; inversion H; reflexivity.
Qed.

Lemma valid_mode_cases (returnMode : string) :
  mode_in valid_modes returnMode = true ->
  String.eqb returnMode "variable" = false -> csv_mode returnMode = true.
Proof.
  unfold mode_in, valid_modes, csv_mode. cbn [existsb].
  intros H Hv. rewrite Hv in H.
  destruct (String.eqb returnMode "csv"), (String.eqb returnMode "csv_and_variable");
    try reflexivity. discriminate H.
Qed.

Section EmitsOnly.
Variable P : event -> Prop.

Lemma grows_refl (t : list event) : grows P t t.
Proof. exists []. split; [now rewrite app_nil_r | constructor]. Qed.

Lemma grows_trans (t1 t2 t3 : list event) : grows P t1 t2 -> grows P t2 t3 -> grows P t1 t3.
Proof.
  intros (n1 & -> & H1) (n2 & -> & H2). exists (n1 ++ n2).
  split; [now rewrite app_assoc | now apply Forall_app].
Qed.

Lemma grows_one (t : list event) (e : event) : P e -> grows P t (t ++ [e]).
Proof. intros He. exists [e]. split; [reflexivity | now constructor]. Qed.

Lemma emits_only_ret {A : Type} (a : A) : emits_only P (ret a).
Proof. intros w r w1 H. inversion H; subst. apply grows_refl. Qed.

Lemma emits_only_raise {A : Type} (e : exn) : emits_only P (@raise world A e).
Proof. intros w r w1 H. inversion H; subst. apply grows_refl. Qed.

Lemma emits_only_lift {A : Type} (r0 : result A) : emits_only P (lift r0).
Proof. intros w r w1 H. inversion H; subst. apply grows_refl. Qed.

Lemma emits_only_emit (e : event) : P e -> emits_only P (emit e).
Proof. intros He w r w1 H. inversion H; subst. now apply grows_one. Qed.

Lemma emits_only_bind {A B : Type} (m : M world A) (k : A -> M world B) :
  emits_only P m -> (forall a, emits_only P (k a)) -> emits_only P (bind m k).
Proof.
  intros Hm Hk w r w1 H. unfold bind in H.
  destruct (m w) as [[a | e] w0] eqn:Em.
  - eapply grows_trans; [exact (Hm _ _ _ Em) | exact (Hk a _ _ _ H)].
  - inversion H; subst. exact (Hm _ _ _ Em).
Qed.

Lemma emits_only_raise_bind {A B : Type} (e : exn) (k : A -> M world B) :
  emits_only P (bind (raise e) k).
Proof. intros w r w1 H. inversion H; subst. apply grows_refl. Qed.

Lemma emits_only_ret_bind {A B : Type} (a : A) (k : A -> M world B) :
  emits_only P (k a) -> emits_only P (bind (ret a) k).
Proof. intros Hk w r w1 H. exact (Hk _ _ _ H). Qed.

Lemma emits_only_set_awic_http_request (u : string) : emits_only P (set_awic_http_request u).
Proof. intros w r w1 H. inversion H; subst. apply grows_refl. Qed.

Lemma emits_only_set_geometry_http_request (u : string) :
  emits_only P (set_geometry_http_request u).
Proof. intros w r w1 H. inversion H; subst. apply grows_refl. Qed.

Lemma emits_only_set_awic_result_file (f : string) : emits_only P (set_awic_result_file f).
Proof. intros w r w1 H. inversion H; subst. apply grows_refl. Qed.

Hypothesis P_log : forall lv msg, P (Log lv msg).

Lemma emits_only_log (lv : level) (msg : string) : emits_only P (log lv msg).
Proof. apply emits_only_emit, P_log. Qed.

Lemma emits_only_log_exit {A : Type} (lv : level) (msg : string) (code : option Z) :
  emits_only P (log lv msg ;;; @sys_exit world A code).
Proof.
  apply emits_only_bind; [apply emits_only_log | intros _; apply emits_only_raise].
Qed.

Lemma emits_only_write_rows (E : env) (path : string) (rows : list pyval) :
  (forall text, P (WriteText path text)) -> emits_only P (write_rows E path rows).
Proof.
  intros HP. induction rows as [| p rest IH]; cbn [write_rows].
  - apply emits_only_ret.
  - apply emits_only_bind; [apply emits_only_lift | intros line].
    apply emits_only_bind; [apply emits_only_emit, HP | intros _; exact IH].
Qed.

Lemma emits_only_request_page (E : env) (url : string) :
  P (HttpGet url) -> emits_only P (request_page E url).
Proof.
  intros Hget. unfold request_page.
  apply emits_only_bind; [apply emits_only_log | intros _].
  apply emits_only_bind; [apply emits_only_emit, Hget | intros _].
  destruct (http_get E url) as [| status body].
  { apply emits_only_bind; [apply emits_only_log | intros _; apply emits_only_ret]. }
  destruct (raises_for_status status).
  { apply emits_only_bind; [apply emits_only_log | intros _; apply emits_only_ret]. }
  destruct body as [json_root |].
  - apply emits_only_bind; [apply emits_only_lift | intros items; apply emits_only_lift].
  - apply emits_only_bind; [apply emits_only_log | intros _; apply emits_only_ret].
Qed.

Lemma emits_only_request_geometry (E : env) (url returnMode : string)
    (dir : option string) :
  P (HttpGet url) ->
  (csv_mode returnMode = true ->
   forall d, given_str dir = Some d ->
             P (OpenW (path_join d "geometries.csv"))
             /\ forall text, P (WriteText (path_join d "geometries.csv") text)) ->
  emits_only P (request_geometry E url returnMode dir).
Proof.
  intros Hget Hfile. unfold request_geometry.
  apply emits_only_bind; [apply emits_only_log | intros _].
  apply emits_only_bind; [apply emits_only_emit, Hget | intros _].
  destruct (http_get E url) as [| status body]; [apply emits_only_log_exit |].
  destruct (status =? 414); [apply emits_only_log_exit |].
  destruct body as [json_root |]; [| apply emits_only_log_exit].
  destruct (is_error_object json_root); [apply emits_only_log_exit |].
  apply emits_only_bind; [apply emits_only_lift | intros items].
  apply emits_only_bind; [apply emits_only_lift | intros geometries].
  apply emits_only_bind; [| intros _; apply emits_only_ret].
  destruct (csv_mode returnMode); [| apply emits_only_ret].
  specialize (Hfile eq_refl).
  destruct (given_str dir) as [d |]; [| apply emits_only_log_exit].
  destruct (Hfile d eq_refl) as [Hopen Hwrite].
  apply emits_only_bind; [apply emits_only_log | intros _].
  destruct (open_ok E (path_join d "geometries.csv")); [| apply emits_only_log_exit].
  apply emits_only_bind; [apply emits_only_emit, Hopen | intros _].
  apply emits_only_bind; [apply emits_only_emit, Hwrite | intros _].
  apply emits_only_write_rows, Hwrite.
Qed.

Lemma emits_only_build_request (E : env)
    (startDate completionDate wgs84 laea : option string) (cloud : pyval) :
  emits_only P (build_request E startDate completionDate wgs84 laea cloud).
Proof.
  unfold build_request.
  apply emits_only_bind.
  { destruct wgs84, laea; try apply emits_only_ret. apply emits_only_log_exit. }
  intros _. apply emits_only_bind.
  { destruct wgs84, laea; try apply emits_only_ret. apply emits_only_log_exit. }
  intros [[geometry key] srid].
  apply emits_only_bind.
  { destruct (given_str startDate); [| apply emits_only_ret].
    apply emits_only_bind; [apply emits_only_lift | intros v; apply emits_only_ret]. }
  intros params. apply emits_only_bind.
  { destruct (given_str completionDate); [| apply emits_only_ret].
    apply emits_only_bind; [apply emits_only_lift | intros v; apply emits_only_ret]. }
  intros params'. destruct params'; [apply emits_only_log_exit |].
  apply emits_only_bind;
    [apply emits_only_set_awic_http_request
    | intros _; apply emits_only_set_geometry_http_request].
Qed.

Lemma emits_only_execute_request (E : env) (returnMode : string) (rg : bool)
    (w : world) (r : result (option (list pyval) * option (list pyval))) (w1 : world) :
  (forall u, awic_http_request (self w) = Some u -> P (HttpGet u)) ->
  (forall u, geometry_http_request (self w) = Some u -> P (HttpGet u)) ->
  (csv_mode returnMode = true ->
   forall d name, outputDir (self w) = Some d -> In name output_names ->
                  P (OpenW (path_join d name))
                  /\ forall text, P (WriteText (path_join d name) text)) ->
  execute_request E returnMode rg w = (r, w1) ->
  grows P (trace w) (trace w1).
Proof.
  intros Hawic Hgeo Hfile Hrun. unfold execute_request in Hrun.
  unfold bind at 1, get_self in Hrun. cbv beta iota in Hrun.
  destruct (awic_http_request (self w)) as [awic_url |];
    [| exact (emits_only_log_exit _ _ _ _ _ _ Hrun)].
  destruct (geometry_http_request (self w)) as [geometry_url |];
    [| exact (emits_only_log_exit _ _ _ _ _ _ Hrun)].
  revert Hrun.
  match goal with
  | |- ?m w = _ -> _ =>
      assert (Hm : emits_only P m); [| intros Hrun; exact (Hm _ _ _ Hrun)]
  end.
  apply emits_only_bind.
  { destruct rg; [| apply emits_only_ret].
    apply emits_only_bind; [| intros g; apply emits_only_ret].
    apply emits_only_request_geometry; [now apply Hgeo |].
    intros Hcsv d Hd. apply (Hfile Hcsv); [| cbn; tauto].
    destruct (outputDir (self w)) as [d0 |]; [| discriminate Hd].
    cbn [given_str] in Hd. destruct (String.eqb d0 ""); [discriminate Hd | exact Hd]. }
  intros geometries.
  apply emits_only_bind; [apply emits_only_request_page; now apply Hawic | intros products].
  apply emits_only_bind.
  { destruct products; apply emits_only_log. }
  intros _. apply emits_only_bind.
  - destruct (csv_mode returnMode); [| apply emits_only_ret].
    specialize (Hfile eq_refl).
    destruct (outputDir (self w)) as [d |]; [| apply emits_only_raise_bind].
    destruct (Hfile d "awic.csv" eq_refl ltac:(cbn; tauto)) as [Hopen1 Hwrite1].
    destruct (Hfile d "AWIC_MTD.xml" eq_refl ltac:(cbn; tauto)) as [Hopen2 Hwrite2].
    apply emits_only_ret_bind.
    apply emits_only_bind; [apply emits_only_set_awic_result_file | intros _].
    apply emits_only_bind; [apply emits_only_log | intros _].
    apply emits_only_bind.
    { destruct (open_ok E (path_join d "awic.csv")); [| apply emits_only_log_exit].
      apply emits_only_bind; [apply emits_only_emit, Hopen1 | intros _].
      apply emits_only_bind; [apply emits_only_emit, Hwrite1 | intros _].
      apply emits_only_write_rows, Hwrite1. }
    intros _.
    apply emits_only_bind; [apply emits_only_log | intros _].
    destruct (open_ok E (path_join d "AWIC_MTD.xml")); [| apply emits_only_log_exit].
    apply emits_only_bind; [apply emits_only_emit, Hopen2 | intros _].
    apply emits_only_emit, Hwrite2.
  - intros _. destruct (String.eqb returnMode "csv"); apply emits_only_ret.
Qed.

Lemma grows_init (E : env) (output_dir : option string) (returnMode : string)
    (t t0 : list event) (r : result AwicRequest) :
  (String.eqb returnMode "variable" = false ->
   forall d, output_dir = Some d ->
             P (PathExists (abspath E d)) /\ P (MakeDirs (abspath E d))) ->
  init E output_dir returnMode t = (r, t0) -> grows P t t0.
Proof.
  intros Hdir. unfold init.
  destruct output_dir as [d |]; [| intros H; inversion H; apply grows_refl].
  unfold bind.
  destruct (String.eqb returnMode "variable"); cbn [negb];
    [intros H; inversion H; apply grows_refl |].
  destruct (Hdir eq_refl d eq_refl) as [Hexists Hmake].
  unfold log, emit, ret, raise, add_event, traced_trace.
  assert (Hone : grows P t (t ++ [PathExists (abspath E d)])) by now apply grows_one.
  destruct (negb (path_exists E (abspath E d)));
    [destruct (makedirs_ok E (abspath E d)) |];
    intros H; inversion H; subst t0;
    repeat (eapply grows_trans; [| apply grows_one; first [apply P_log | exact Hmake]]);
    exact Hone.
Qed.

Lemma grows_download (E : env) (returnMode : string)
    (output_dir startDate completionDate wgs84 laea : option string)
    (cloud : pyval) (rg : bool) (t t1 : list event)
    (r : result (option (list pyval) * option (list pyval))) :
  (forall u, starts_with URL_ROOT u = true -> P (HttpGet u)) ->
  (csv_mode returnMode = true ->
   forall d, output_dir = Some d ->
     P (PathExists (abspath E d)) /\ P (MakeDirs (abspath E d))
     /\ forall name, In name output_names ->
          P (OpenW (path_join (abspath E d) name))
          /\ forall text, P (WriteText (path_join (abspath E d) name) text)) ->
  download_awic_products E returnMode output_dir startDate completionDate wgs84 laea
    cloud rg t = (r, t1) ->
  grows P t t1.
Proof.
  intros Hget Hfiles. unfold download_awic_products.
  destruct (mode_in valid_modes returnMode) eqn:Hvalid; cbn [negb];
    [| intros H; inversion H; apply grows_refl].
  destruct (mode_in ["csv"; "csv_and_variable"] returnMode && is_none output_dir);
    [intros H; inversion H; apply grows_refl |].
  unfold bind at 1.
  destruct (init E output_dir returnMode t) as [[awic | e] t0] eqn:Hinit.
  2: { intros H; inversion H; subst. apply (grows_init _ _ _ _ _ _) in Hinit; [exact Hinit |].
       intros Hv d Hd. destruct (Hfiles (valid_mode_cases _ Hvalid Hv) d Hd) as (? & ? & _).
       now split. }
  assert (Hgrow0 : grows P t t0).
  { apply (grows_init _ _ _ _ _ _) in Hinit; [exact Hinit |].
    intros Hv d Hd. destruct (Hfiles (valid_mode_cases _ Hvalid Hv) d Hd) as (? & ? & _).
    now split. }
  apply init_request in Hinit. subst awic.
  unfold bind at 1, with_self.
  set (w0 := mk_world (mk_request (option_map (abspath E) output_dir) None None None) t0).
  unfold bind at 1.
  destruct (build_request E startDate completionDate wgs84 laea cloud w0)
    as [[[] | e] w2] eqn:Hbuild.
  2: { intros H; inversion H; subst. eapply grows_trans; [exact Hgrow0 |].
       exact (emits_only_build_request _ _ _ _ _ _ _ _ _ Hbuild). }
  assert (Hgrow2 : grows P t (trace w2)).
  { eapply grows_trans; [exact Hgrow0 |].
    exact (emits_only_build_request _ _ _ _ _ _ _ _ _ Hbuild). }
  destruct (build_request_sets_targets _ _ _ _ _ _ _ _ Hbuild)
    as (Hdir & [q1 Hq1] & [q2 Hq2]).
  destruct (execute_request E returnMode rg w2) as [r3 w3] eqn:Hexec.
  assert (Hgrow3 : grows P t (trace w3)).
  { eapply grows_trans; [exact Hgrow2 |].
    apply (emits_only_execute_request E returnMode rg w2 r3 w3); [| | | exact Hexec].
    - intros u Hu. rewrite Hq1 in Hu.
      replace u with (URL_ROOT ++ q1)%string by congruence.
      apply Hget, starts_with_app.
    - intros u Hu. rewrite Hq2 in Hu.
      replace u with (URL_ROOT ++ q2)%string by congruence.
      apply Hget, starts_with_app.
    - intros Hcsv d name Hd Hname. rewrite Hdir in Hd. cbn [w0 self outputDir] in Hd.
      destruct output_dir as [d0 |]; [| discriminate Hd].
      cbn [option_map] in Hd. inversion Hd; subst d.
      destruct (Hfiles Hcsv d0 eq_refl) as (_ & _ & Hnames). now apply Hnames. }
  destruct r3 as [out | e]; intros H; inversion H; subst; [| exact Hgrow3].
  eapply grows_trans; [exact Hgrow3 | apply grows_one, P_log].
Qed.
End EmitsOnly.

(** X18. Whatever its arguments and whatever the service answers, a run of
    [download_awic_products] stays within bounds: every HTTP call goes to
    an address under [URL_ROOT], the only directory it looks for or creates
    is the absolute path of the output directory, and the only files it
    opens or writes are awic.csv, AWIC_MTD.xml and geometries.csv in that
    directory. *)
Theorem download_stays_within_bounds (E : env) (returnMode : string)
    (output_dir startDate completionDate wgs84 laea : option string)
    (cloud : pyval) (rg : bool) (t : list event) :
  grows (within_bounds E output_dir) t
    (snd (download_awic_products E returnMode output_dir startDate completionDate
            wgs84 laea cloud rg t)).
Proof.
  destruct (download_awic_products E returnMode output_dir startDate completionDate
              wgs84 laea cloud rg t) as [r t1] eqn:Hrun.
  cbn [snd]. revert Hrun. apply grows_download.
  - intros lv msg. exact I.
  - intros u Hu. exact Hu.
  - intros _ d Hd. cbn [within_bounds].
    split; [now exists d |]. split; [now exists d |].
    intros name Hname. split; [| intros text]; exists d, name; auto.
Qed.

(** X19. In a mode that asks for no file, a run never touches the file
    system: it does not look for the output directory, creates nothing and
    opens no file, whatever directory it is given.  All it does is log and
    call the service. *)
Theorem download_without_files (E : env) (returnMode : string)
    (output_dir startDate completionDate wgs84 laea : option string)
    (cloud : pyval) (rg : bool) (t : list event) :
  csv_mode returnMode = false ->
  grows no_file_access t
    (snd (download_awic_products E returnMode output_dir startDate completionDate
            wgs84 laea cloud rg t)).
Proof.
  intros Hmode.
  destruct (download_awic_products E returnMode output_dir startDate completionDate
              wgs84 laea cloud rg t) as [r t1] eqn:Hrun.
  cbn [snd]. revert Hrun. apply grows_download.
  - intros lv msg. exact I.
  - intros u _. exact I.
  - intros Hcsv. rewrite Hmode in Hcsv. discriminate Hcsv.
Qed.

Lemma download_without_files_witness :
  grows no_file_access []
    (snd (download_awic_products
            (service (Response 200 (Some (PList []))) (Response 200 (Some (PList []))))
            "variable" (Some "out") (Some "2025-01-15") (Some "2025-01-25")
            (Some "POINT(22.457940 49.367854)") None PNone true [])).
Proof.
  apply (download_without_files
           (service (Response 200 (Some (PList []))) (Response 200 (Some (PList []))))
           "variable" (Some "out") (Some "2025-01-15") (Some "2025-01-25")
           (Some "POINT(22.457940 49.367854)") None PNone true []).
  reflexivity.
Defined.

(** ** The HTTP calls of a run *)

Lemma http_calls_app (t u : list event) : http_calls (t ++ u) = http_calls t ++ http_calls u.
Proof. unfold http_calls. now rewrite flat_map_app. Qed.

Lemma makes_none {A : Type} (m : M world A) :
  (forall w r w1, m w = (r, w1) -> trace w1 = trace w) -> makes m [].
Proof.
  intros Hm w r w1 H. exists []. rewrite (Hm _ _ _ H), app_nil_r.
  split; [reflexivity |]. split; [now exists [] | reflexivity].
Qed.

Lemma makes_ret {A : Type} (a : A) : makes (ret a) [].
Proof. apply makes_none. intros w r w1 H. now inversion H. Qed.

Lemma makes_raise {A : Type} (e : exn) : makes (@raise world A e) [].
Proof. apply makes_none. intros w r w1 H. now inversion H. Qed.

Lemma makes_lift {A : Type} (r0 : result A) : makes (lift r0) [].
Proof. apply makes_none. intros w r w1 H. now inversion H. Qed.

Lemma makes_set_awic_result_file (f : string) : makes (set_awic_result_file f) [].
Proof. apply makes_none. intros w r w1 H. now inversion H. Qed.

Lemma makes_emit (e : event) : makes (emit e) (http_calls [e]).
Proof.
  intros w r w1 H. inversion H; subst. exists (http_calls [e]).
  cbn [trace]. split; [apply http_calls_app |]. split; [| reflexivity].
  exists []. now rewrite app_nil_r.
Qed.

Lemma makes_log (lv : level) (msg : string) : makes (log lv msg) [].
Proof. exact (makes_emit (Log lv msg)). Qed.

Lemma makes_bind {A B : Type} (m : M world A) (k : A -> M world B) (l1 l2 : list string) :
  makes m l1 -> (forall a, makes (k a) l2) -> makes (bind m k) (l1 ++ l2).
Proof.
  intros Hm Hk w r w1 H. unfold bind in H.
  destruct (m w) as [[a | e] w0] eqn:Em.
  - destruct (Hm _ _ _ Em) as (d1 & Ht1 & _ & Hall1).
    destruct (Hk a _ _ _ H) as (d2 & Ht2 & [rest Hrest] & Hall2).
    rewrite (Hall1 a eq_refl) in Ht1. exists (l1 ++ d2).
    split; [now rewrite Ht2, Ht1, app_assoc |].
    split; [exists rest; now rewrite Hrest, app_assoc |].
    intros b Hb. now rewrite (Hall2 b Hb).
  - inversion H; subst. destruct (Hm _ _ _ Em) as (d1 & Ht1 & [rest Hrest] & _).
    exists d1. split; [exact Ht1 |].
    split; [exists (rest ++ l2); now rewrite Hrest, app_assoc | discriminate].
Qed.

Lemma makes_then {A B : Type} (m : M world A) (k : A -> M world B) (l : list string) :
  makes m [] -> (forall a, makes (k a) l) -> makes (bind m k) l.
Proof. intros Hm Hk. exact (makes_bind m k [] l Hm Hk). Qed.

Lemma makes_first {A B : Type} (m : M world A) (k : A -> M world B) (l : list string) :
  makes m l -> (forall a, makes (k a) []) -> makes (bind m k) l.
Proof.
  intros Hm Hk. rewrite <- (app_nil_r l). exact (makes_bind m k l [] Hm Hk).
Qed.

Lemma makes_log_exit {A : Type} (lv : level) (msg : string) (code : option Z) :
  makes (log lv msg ;;; @sys_exit world A code) [].
Proof. apply makes_then; [apply makes_log | intros _; apply makes_raise]. Qed.

Lemma makes_write_rows (E : env) (path : string) (rows : list pyval) :
  makes (write_rows E path rows) [].
Proof.
  induction rows as [| p rest IH]; cbn [write_rows]; [apply makes_ret |].
  apply makes_then; [apply makes_lift | intros line].
  apply makes_then; [exact (makes_emit (WriteText path line)) | intros _; exact IH].
Qed.

Lemma makes_request_page (E : env) (url : string) : makes (request_page E url) [url].
Proof.
  unfold request_page.
  apply makes_then; [apply makes_log | intros _].
  apply makes_first; [exact (makes_emit (HttpGet url)) | intros _].
  destruct (http_get E url) as [| status body].
  { apply makes_then; [apply makes_log | intros _; apply makes_ret]. }
  destruct (raises_for_status status).
  { apply makes_then; [apply makes_log | intros _; apply makes_ret]. }
  destruct body as [json_root |].
  - apply makes_then; [apply makes_lift | intros items; apply makes_lift].
  - apply makes_then; [apply makes_log | intros _; apply makes_ret].
Qed.

Lemma makes_request_geometry (E : env) (url returnMode : string) (dir : option string) :
  makes (request_geometry E url returnMode dir) [url].
Proof.
  unfold request_geometry.
  apply makes_then; [apply makes_log | intros _].
  apply makes_first; [exact (makes_emit (HttpGet url)) | intros _].
  destruct (http_get E url) as [| status body]; [apply makes_log_exit |].
  destruct (status =? 414); [apply makes_log_exit |].
  destruct body as [json_root |]; [| apply makes_log_exit].
  destruct (is_error_object json_root); [apply makes_log_exit |].
  apply makes_then; [apply makes_lift | intros items].
  apply makes_then; [apply makes_lift | intros geometries].
  apply makes_then; [| intros _; apply makes_ret].
  destruct (csv_mode returnMode); [| apply makes_ret].
  destruct (given_str dir) as [d |]; [| apply makes_log_exit].
  apply makes_then; [apply makes_log | intros _].
  destruct (open_ok E (path_join d "geometries.csv")); [| apply makes_log_exit].
  apply makes_then; [exact (makes_emit (OpenW _)) | intros _].
  apply makes_then; [exact (makes_emit (WriteText _ _)) | intros _].
  apply makes_write_rows.
Qed.

(** X20. The HTTP calls of [execute_request] follow a fixed plan: one call
    to the geometry target first, when the geometries are asked for, then
    one call to the observation target.  A run that stops early has made
    the beginning of this plan and a run that returns has made all of it;
    no call is repeated. *)
Theorem execute_request_call_plan (E : env) (returnMode : string) (rg : bool)
    (w : world) (awic_url geometry_url : string) :
  awic_http_request (self w) = Some awic_url ->
  geometry_http_request (self w) = Some geometry_url ->
  exists done,
    http_calls (trace (snd (execute_request E returnMode rg w)))
    = http_calls (trace w) ++ done
    /\ begins done (call_plan rg geometry_url awic_url)
    /\ forall out, fst (execute_request E returnMode rg w) = Ok out ->
                   done = call_plan rg geometry_url awic_url.
Proof.
  intros Hawic Hgeo.
  destruct (execute_request E returnMode rg w) as [r w1] eqn:Hrun. cbn [fst snd].
  revert Hrun. unfold execute_request. unfold bind at 1, get_self. cbv beta iota.
  rewrite Hawic, Hgeo.
  match goal with
  | |- ?m w = _ -> _ =>
      assert (Hm : makes m (call_plan rg geometry_url awic_url));
        [| intros Hrun; exact (Hm _ _ _ Hrun)]
  end.
  unfold call_plan. apply makes_bind.
  { destruct rg; [| apply makes_ret].
    apply makes_first; [apply makes_request_geometry | intros g; apply makes_ret]. }
  intros geometries.
  apply makes_first; [apply makes_request_page | intros products].
  apply makes_then; [destruct products; apply makes_log | intros _].
  apply makes_then.
  - destruct (csv_mode returnMode); [| apply makes_ret].
    apply makes_then;
      [destruct (outputDir (self w)); [apply makes_ret | apply makes_raise] | intros dir].
    apply makes_then; [apply makes_set_awic_result_file | intros _].
    apply makes_then; [apply makes_log | intros _].
    apply makes_then.
    { destruct (open_ok E (path_join dir "awic.csv")); [| apply makes_log_exit].
      apply makes_then; [exact (makes_emit (OpenW _)) | intros _].
      apply makes_then; [exact (makes_emit (WriteText _ _)) | intros _].
      apply makes_write_rows. }
    intros _. apply makes_then; [apply makes_log | intros _].
    destruct (open_ok E (path_join dir "AWIC_MTD.xml")); [| apply makes_log_exit].
    apply makes_then; [exact (makes_emit (OpenW _)) | intros _].
    exact (makes_emit (WriteText _ _)).
  - intros _. destruct (String.eqb returnMode "csv"); apply makes_ret.
Qed.

Lemma execute_request_call_plan_witness :
  exists done,
    http_calls (trace (snd (execute_request
                              (service (Response 200 (Some (PList []))) ConnectionFailed)
                              "variable" true built_world)))
    = http_calls (trace built_world) ++ done
    /\ begins done (call_plan true geometry_url_of_scenario scenario_query)
    /\ forall out,
         fst (execute_request (service (Response 200 (Some (PList []))) ConnectionFailed)
                "variable" true built_world) = Ok out ->
         done = call_plan true geometry_url_of_scenario scenario_query.
Proof.
  apply (execute_request_call_plan
           (service (Response 200 (Some (PList []))) ConnectionFailed)
           "variable" true built_world scenario_query geometry_url_of_scenario);
    reflexivity.
Defined.

(** X21. A file that cannot be written ends the run with the exit status
    of a success.  In a CSV mode without the geometries, when the
    observation call returns but awic.csv or AWIC_MTD.xml cannot be opened,
    [execute_request] logs an error and exits with [sys.exit()], whose exit
    status is 0.  The path of awic.csv is recorded in the object all the
    same; when it is the metadata file that fails, awic.csv has been written
    in full. *)
Theorem execute_request_write_failure (E : env) (returnMode : string) (w w1 : world)
    (awic_url geometry_url dir : string) (products : list pyval) :
  awic_http_request (self w) = Some awic_url ->
  geometry_http_request (self w) = Some geometry_url ->
  outputDir (self w) = Some dir ->
  csv_mode returnMode = true ->
  request_page E awic_url w = (Ok products, w1) ->
  open_ok E (path_join dir "awic.csv") && open_ok E (path_join dir "AWIC_MTD.xml") = false ->
  exists rows e w',
    products = map PList rows
    /\ execute_request E returnMode false w = (Raise e, w')
    /\ exit_status e = 0
    /\ awic_result_file (self w') = Some (path_join dir "awic.csv")
    /\ trace w' = trace w1 ++ [found_log products] ++ failed_observation_files E dir rows.
Proof.
  intros Hawic Hgeo Hdir Hmode Hpage Hopen.
  destruct (request_page_lists _ _ _ _ _ Hpage) as (rows & ->).
  exists rows, (SystemExit None).
  unfold execute_request. run_monad. rewrite Hawic, Hgeo. cbn [fst snd].
  rewrite Hpage. rewrite Hmode, Hdir.
  assert (Hfound : forall w0 : world,
             (match map PList rows with
              | [] => log WARNING "No AWIC data was found"
              | _ :: _ =>
                  log INFO ("Found " ++ py_str_int (Z.of_nat (List.length (map PList rows)))
                            ++ " AWIC products.")
              end) w0
             = (Ok tt, mk_world (self w0) (trace w0 ++ [found_log (map PList rows)]))).
  { intros w0. unfold found_log. destruct (map PList rows); reflexivity. }
  rewrite Hfound. unfold set_awic_result_file, failed_observation_files. run_monad.
  destruct (open_ok E (path_join dir "awic.csv")).
  - cbn [andb] in Hopen. run_monad. rewrite write_rows_lists. cbn [self trace].
    rewrite Hopen. run_monad. eexists. split; [reflexivity |].
    split; [reflexivity |]. cbn [self trace awic_result_file].
    split; [reflexivity |]. split; [reflexivity |].
    unfold table_writes. rewrite <- !app_assoc. reflexivity.
  - run_monad. eexists. split; [reflexivity |]. split; [reflexivity |].
    cbn [self trace awic_result_file]. split; [reflexivity |]. split; [reflexivity |].
    rewrite <- !app_assoc. reflexivity.
Qed.

Lemma execute_request_write_failure_witness :
  exists rows e w',
    [] = map PList rows
    /\ execute_request read_only_env "csv" false built_world = (Raise e, w')
    /\ exit_status e = 0
    /\ awic_result_file (self w') = Some (path_join "out" "awic.csv")
    /\ trace w' = (observation_banner scenario_query ++ [Log ERROR "Error during HTTP request"])
                  ++ [found_log []] ++ failed_observation_files read_only_env "out" rows.
Proof.
  apply (execute_request_write_failure read_only_env "csv" built_world
           (mk_world (self built_world)
              (observation_banner scenario_query ++ [Log ERROR "Error during HTTP request"]))
           scenario_query geometry_url_of_scenario "out" []);
    reflexivity.
Defined.

(** ** Lines of the tables *)

Lemma length_split_on (c : ascii) (s : string) :
  List.length (split_on c s) = S (count_char c s).
Proof.
  induction s as [| x s IH]; [reflexivity |]. cbn [split_on count_char].
  destruct (Ascii.eqb x c); cbn [List.length Nat.add]; [now rewrite IH |].
  destruct (split_on c s) as [| h t]; [discriminate IH | exact IH].
Qed.

Lemma count_char_app (c : ascii) (a b : string) :
  count_char c (a ++ b) = (count_char c a + count_char c b)%nat.
Proof.
  induction a as [| x a IH]; [reflexivity |]. cbn [String.append count_char].
  rewrite IH. lia.
Qed.

Lemma count_char_join (c : ascii) (p : string) (l : list string) :
  count_char c (py_join (String c "") (p :: l))
  = (List.length l + list_sum (map (count_char c) (p :: l)))%nat.
Proof.
  revert p. induction l as [| q l IH]; intros p.
  - cbn [py_join List.length map list_sum fold_right]. lia.
  - change (py_join (String c "") (p :: q :: l))
      with (p ++ String c (py_join (String c "") (q :: l)))%string.
    rewrite count_char_app. cbn [count_char]. rewrite Ascii.eqb_refl, IH.
    cbn [List.length map list_sum fold_right]. lia.
Qed.

Lemma split_on_join (c : ascii) (p : string) (l : list string) :
  Forall (fun s => lacks c s = true) (p :: l) ->
  split_on c (py_join (String c "") (p :: l)) = p :: l.
Proof.
  revert p. induction l as [| q l IH]; intros p Hall.
  - cbn [py_join]. apply split_on_last. now inversion Hall.
  - change (py_join (String c "") (p :: q :: l))
      with (p ++ String c (py_join (String c "") (q :: l)))%string.
    inversion Hall as [| ? ? Hp Hrest]; subst.
    rewrite (split_on_app c p _ Hp), (IH q Hrest). reflexivity.
Qed.

(** X22. A line of a table is the cells of the row joined by semicolons,
    without quoting.  Cut at the semicolons, the line of a row that is not
    empty gives one field per cell and one more for each semicolon inside a
    cell; when no cell holds a semicolon, it gives back the texts of the
    cells. *)
Theorem csv_line_fields (E : env) (row : list pyval) :
  row <> [] ->
  exists body,
    csv_line E (PList row) = Ok (body ++ nl)%string
    /\ List.length (split_on ";" body) = (List.length row + semicolons_inside E row)%nat
    /\ (Forall (fun v => lacks ";" (py_str E v) = true) row ->
        split_on ";" body = map (py_str E) row).
Proof.
  intros Hrow. destruct row as [| v row]; [contradiction |].
  exists (py_join ";" (map (py_str E) (v :: row))).
  split; [reflexivity |]. cbn [map]. split.
  - rewrite length_split_on, count_char_join. unfold semicolons_inside.
    cbn [map]. rewrite length_map, map_map.
    cbn [List.length map list_sum fold_right]. lia.
  - intros Hall. apply split_on_join.
    change (Forall (fun s => lacks ";" s = true) (map (py_str E) (v :: row))).
    apply Forall_map. exact Hall.
Qed.

Lemma csv_line_fields_witness :
  exists body,
    csv_line quiet_env (PList [PInt 1; PStr "a;b"]) = Ok (body ++ nl)%string
    /\ List.length (split_on ";" body)
       = (List.length [PInt 1; PStr "a;b"]
          + semicolons_inside quiet_env [PInt 1; PStr "a;b"])%nat
    /\ (Forall (fun v => lacks ";" (py_str quiet_env v) = true) [PInt 1; PStr "a;b"] ->
        split_on ";" body = map (py_str quiet_env) [PInt 1; PStr "a;b"]).
Proof.
  apply (csv_line_fields quiet_env [PInt 1; PStr "a;b"]). discriminate.
Defined.

(** ** The command line *)

(** X23. Without a spatial filter on the command line - none of the three
    options, or only empty texts - the script stops on a NameError: the
    variable of the WGS84 filter was never bound.  The core is not called
    and nothing is logged, so the message of [build_request] about a
    missing filter is not what the user sees; the exit status is 1. *)
Theorem main_without_filter (E : env) (G : geo) (args : cli_args) (t : list event) :
  no_filter_given args ->
  main E G args t = (Fails (NameError "geometrywkt_wgs84"), t)
  /\ cli_exit_status (NameError "geometrywkt_wgs84") = 1.
Proof.
  intros (Hfile & Hlaea & Hwgs). split; [| reflexivity].
  unfold main, select_filter, cli_bind. rewrite Hfile, Hlaea, Hwgs. reflexivity.
Qed.

Lemma main_without_filter_witness :
  main quiet_env strict_geo (plain_args (Some "") None None) []
  = (Fails (NameError "geometrywkt_wgs84"), [])
  /\ cli_exit_status (NameError "geometrywkt_wgs84") = 1.
Proof.
  apply (main_without_filter quiet_env strict_geo (plain_args (Some "") None None) []).
  repeat split.
Defined.

Lemma validate_wkt_epsg_done (G : geo) (epsg : pyval) (wkt : string) (t t' : list event)
    (checked : pyval * string) :
  validate_wkt_epsg G epsg wkt t = (Done checked, t') -> checked = (epsg, wkt) /\ t' = t.
Proof.
  unfold validate_wkt_epsg.
  destruct (from_wkt G epsg wkt) as [| ty]; [intros H; discriminate H |].
  destruct (negb (mode_in ["MultiPolygon"; "Polygon"; "Point"] ty)).
  - unfold cli_bind, cli_log, fails. intros H; discriminate H.
  - intros H. inversion H. now split.
Qed.

(** X24. Whenever the command line gets as far as the call of the core, it
    passes exactly one of the two filters, the other being None; the checks
    of [build_request] for both filters and for no filter cannot fail from
    the command line. *)
Theorem select_filter_gives_one (E : env) (G : geo) (args : cli_args) (t t' : list event)
    (filter : option string * option string) :
  select_filter E G args t = (Done filter, t') -> one_filter filter.
Proof.
  unfold select_filter.
  assert (Hlast : forall (vars : filter_vars) (t0 : list event),
             (var_geometrywkt_wgs84 vars = None /\ var_geometrywkt_laea vars = None)
             \/ (exists g, vars = mk_vars (Some (Some g)) (Some None))
             \/ (exists g, vars = mk_vars (Some None) (Some (Some g))) ->
             (geometrywkt_wgs84 <~~ read_var "geometrywkt_wgs84" (var_geometrywkt_wgs84 vars) ;;
              geometrywkt_laea <~~ read_var "geometrywkt_laea" (var_geometrywkt_laea vars) ;;
              done (geometrywkt_wgs84, geometrywkt_laea)) t0 = (Done filter, t') ->
             one_filter filter).
  { intros vars t0 [[Hw _] | [[g ->] | [g ->]]]; unfold cli_bind; cbn.
    - rewrite Hw. intros H; discriminate H.
    - intros H; inversion H. exact I.
    - intros H; inversion H. exact I. }
  unfold cli_bind at 1.
  match goal with
  | |- match ?m with _ => _ end = _ -> _ =>
      destruct m as [[vars0 | e] t0] eqn:Hfile; [| intros H; discriminate H]
  end.
  assert (H0 : (var_geometrywkt_wgs84 vars0 = None /\ var_geometrywkt_laea vars0 = None)
               \/ (exists g, vars0 = mk_vars (Some (Some g)) (Some None))
               \/ (exists g, vars0 = mk_vars (Some None) (Some (Some g)))).
  { destruct (given_str (arg_geometry_file args)) as [path |];
      [| inversion Hfile; left; now split].
    revert Hfile. unfold cli_bind at 1.
    destruct (validate_file G path t) as [[[file_epsg file_wkt] | e] t1];
      [| intros H; discriminate H].
    unfold cli_bind at 1.
    destruct (validate_wkt_epsg G (epsg_value file_epsg) file_wkt t1) as [[c | e] t2];
      [| intros H; discriminate H].
    destruct (String.eqb (py_str E (epsg_value file_epsg)) "3035").
    { intros H; inversion H. right; right. now exists file_wkt. }
    destruct (String.eqb (py_str E (epsg_value file_epsg)) "4326").
    { intros H; inversion H. right; left. now exists file_wkt. }
    unfold cli_bind, cli_log, fails. intros H; discriminate H. }
  clear Hfile. unfold cli_bind at 1.
  match goal with
  | |- match ?m with _ => _ end = _ -> _ =>
      destruct m as [[vars1 | e] t1] eqn:Hlaea; [| intros H; discriminate H]
  end.
  assert (H1 : (var_geometrywkt_wgs84 vars1 = None /\ var_geometrywkt_laea vars1 = None)
               \/ (exists g, vars1 = mk_vars (Some (Some g)) (Some None))
               \/ (exists g, vars1 = mk_vars (Some None) (Some (Some g)))).
  { destruct (given_str (arg_geometrywkt_laea args)) as [g |];
      [| inversion Hlaea; subst; exact H0].
    revert Hlaea. unfold cli_bind at 1.
    destruct (validate_wkt_epsg G (PStr "3035") g t0) as [[c | e] t2];
      [| intros H; discriminate H].
    intros H; inversion H. right; right. now exists (snd c). }
  clear Hlaea H0. unfold cli_bind at 1.
  match goal with
  | |- match ?m with _ => _ end = _ -> _ =>
      destruct m as [[vars2 | e] t2] eqn:Hwgs; [| intros H; discriminate H]
  end.
  apply Hlast.
  destruct (given_str (arg_geometrywkt_wgs84 args)) as [g |];
    [| inversion Hwgs; subst; exact H1].
  revert Hwgs. unfold cli_bind at 1.
  destruct (validate_wkt_epsg G (PStr "4326") g t1) as [[c | e] t3];
    [| intros H; discriminate H].
  intros H; inversion H. right; left. now exists (snd c).
Qed.

Lemma select_filter_gives_one_witness :
  select_filter quiet_env point_geo (plain_args (Some "POINT(1 2)") None None) []
  = (Done (Some "POINT(1 2)", None), [])
  /\ one_filter (Some "POINT(1 2)", None).
Proof.
  split; [reflexivity |].
  apply (select_filter_gives_one quiet_env point_geo
           (plain_args (Some "POINT(1 2)") None None) [] []).
  reflexivity.
Defined.

(** X25. A filter that the geometry library rejects is not reported: when
    no file is given and the first filter that is checked makes
    [GeoSeries.from_wkt] raise, the script stops on a NameError for
    [CRSError], a name the module never binds.  Nothing is logged and the
    core is not called. *)
Theorem main_rejected_filter (E : env) (G : geo) (args : cli_args) (t : list event)
    (epsg : pyval) (wkt : string) :
  given_str (arg_geometry_file args) = None ->
  first_checked args = Some (epsg, wkt) ->
  from_wkt G epsg wkt = WktRaises ->
  main E G args t = (Fails (NameError "CRSError"), t).
Proof.
  intros Hfile Hfirst Hraises. unfold first_checked in Hfirst.
  unfold main, select_filter, cli_bind. rewrite Hfile. unfold done at 1.
  destruct (given_str (arg_geometrywkt_laea args)) as [g |].
  - inversion Hfirst; subst. unfold validate_wkt_epsg. rewrite Hraises. reflexivity.
  - destruct (given_str (arg_geometrywkt_wgs84 args)) as [g |]; [| discriminate Hfirst].
    inversion Hfirst; subst. unfold done at 1. unfold validate_wkt_epsg.
    rewrite Hraises. reflexivity.
Qed.

Lemma main_rejected_filter_witness :
  main quiet_env strict_geo (plain_args (Some "POINT(1 2") None None) []
  = (Fails (NameError "CRSError"), []).
Proof.
  apply (main_rejected_filter quiet_env strict_geo
           (plain_args (Some "POINT(1 2") None None) [] (PStr "4326") "POINT(1 2");
    reflexivity.
Defined.

Section CliEmitsOnly.
Variable P : event -> Prop.
Hypothesis P_log : forall lv msg, P (Log lv msg).

Lemma cli_emits_only_done {A : Type} (a : A) : cli_emits_only P (done a).
Proof. intros t r t1 H. inversion H; subst. apply grows_refl. Qed.

Lemma cli_emits_only_fails {A : Type} (e : cli_exn) : cli_emits_only P (@fails A e).
Proof. intros t r t1 H. inversion H; subst. apply grows_refl. Qed.

Lemma cli_emits_only_log (lv : level) (msg : string) : cli_emits_only P (cli_log lv msg).
Proof. intros t r t1 H. inversion H; subst. apply grows_one, P_log. Qed.

Lemma cli_emits_only_bind {A B : Type} (m : Cli A) (k : A -> Cli B) :
  cli_emits_only P m -> (forall a, cli_emits_only P (k a)) -> cli_emits_only P (cli_bind m k).
Proof.
  intros Hm Hk t r t1 H. unfold cli_bind in H.
  destruct (m t) as [[a | e] t0] eqn:Em.
  - eapply grows_trans; [exact (Hm _ _ _ Em) | exact (Hk a _ _ _ H)].
  - inversion H; subst. exact (Hm _ _ _ Em).
Qed.

Lemma cli_emits_only_log_fails {A : Type} (lv : level) (msg : string) (e : cli_exn) :
  cli_emits_only P (_ <~~ cli_log lv msg ;; @fails A e).
Proof.
  apply cli_emits_only_bind; [apply cli_emits_only_log | intros _; apply cli_emits_only_fails].
Qed.

Lemma cli_emits_only_validate_file (G : geo) (path : string) :
  cli_emits_only P (validate_file G path).
Proof.
  unfold validate_file. destruct (read_file G path).
  - apply cli_emits_only_log_fails.
  - apply cli_emits_only_fails.
  - apply cli_emits_only_done.
Qed.

Lemma cli_emits_only_validate_wkt_epsg (G : geo) (epsg : pyval) (wkt : string) :
  cli_emits_only P (validate_wkt_epsg G epsg wkt).
Proof.
  unfold validate_wkt_epsg. destruct (from_wkt G epsg wkt) as [| ty].
  - apply cli_emits_only_fails.
  - destruct (negb (mode_in ["MultiPolygon"; "Polygon"; "Point"] ty)).
    + apply cli_emits_only_log_fails.
    + apply cli_emits_only_done.
Qed.

Lemma cli_emits_only_select_filter (E : env) (G : geo) (args : cli_args) :
  cli_emits_only P (select_filter E G args).
Proof.
  unfold select_filter.
  apply cli_emits_only_bind.
  { destruct (given_str (arg_geometry_file args)) as [path |]; [| apply cli_emits_only_done].
    apply cli_emits_only_bind; [apply cli_emits_only_validate_file | intros [epsg wkt]].
    apply cli_emits_only_bind; [apply cli_emits_only_validate_wkt_epsg | intros _].
    destruct (String.eqb (py_str E (epsg_value epsg)) "3035"); [apply cli_emits_only_done |].
    destruct (String.eqb (py_str E (epsg_value epsg)) "4326"); [apply cli_emits_only_done |].
    apply cli_emits_only_log_fails. }
  intros vars0. apply cli_emits_only_bind.
  { destruct (given_str (arg_geometrywkt_laea args)) as [g |]; [| apply cli_emits_only_done].
    apply cli_emits_only_bind; [apply cli_emits_only_validate_wkt_epsg | intros c].
    apply cli_emits_only_done. }
  intros vars1. apply cli_emits_only_bind.
  { destruct (given_str (arg_geometrywkt_wgs84 args)) as [g |]; [| apply cli_emits_only_done].
    apply cli_emits_only_bind; [apply cli_emits_only_validate_wkt_epsg | intros c].
    apply cli_emits_only_done. }
  intros vars2. apply cli_emits_only_bind.
  { destruct (var_geometrywkt_wgs84 vars2);
      [apply cli_emits_only_done | apply cli_emits_only_fails]. }
  intros wgs84. apply cli_emits_only_bind; [| intros laea; apply cli_emits_only_done].
  destruct (var_geometrywkt_laea vars2);
    [apply cli_emits_only_done | apply cli_emits_only_fails].
Qed.
End CliEmitsOnly.

(** X26. The whole script stays within bounds, whatever the command line
    and whatever the library and the service answer.  Checking the filter
    only logs; after that every HTTP call goes to an address under
    [URL_ROOT], and the file system is touched only at the output directory
    of the command line and at the three output files in it. *)
Theorem main_stays_within_bounds (E : env) (G : geo) (args : cli_args) (t : list event) :
  grows (within_bounds E (arg_outputDir args)) t (snd (main E G args t)).
Proof.
  assert (Hlog : forall lv msg, within_bounds E (arg_outputDir args) (Log lv msg))
    by (intros lv msg; exact I).
  unfold main, cli_bind.
  destruct (select_filter E G args t) as [[filter | e] t0] eqn:Hsel;
    pose proof (cli_emits_only_select_filter _ Hlog E G args _ _ _ Hsel) as Hgrow;
    [| exact Hgrow].
  destruct (str2bool (PStr (arg_requestGeometries args))) as [rg | e]; [| exact Hgrow].
  unfold run_core.
  destruct (download_awic_products E (arg_returnMode args) (arg_outputDir args)
              (Some (arg_startDate args)) (Some (arg_completionDate args))
              (fst filter) (snd filter) (arg_cloudCoverageMax args) rg t0)
    as [r t1] eqn:Hrun.
  assert (Hgrow1 : grows (within_bounds E (arg_outputDir args)) t0 t1).
  { revert Hrun. apply grows_download; [exact Hlog | intros u Hu; exact Hu |].
    intros _ d Hd. cbn [within_bounds].
    split; [now exists d |]. split; [now exists d |].
    intros name Hname. split; [| intros text]; exists d, name; auto. }
  destruct r; cbn [snd]; eapply grows_trans; eassumption.
Qed.
